(** * PCI DSS summary reports: finding extraction and aggregation

    A shallow embedding of the extraction and aggregation logic shared by
    the report generators under [AWS/]:

    - [generate_summary_report.py]     (module [SummaryReport])
    - [generate_interactive_summary.py] and [create_card_based_report.py]
      (module [Interactive]; their [extract_requirement_data] and
      [count_checks] are textually identical)
    - [card_report_with_clickable.py]  (module [Clickable])
    - [fix_card_report.py] and [create_explicit_layout_report.py]
      (module [FixCard]; their [extract_findings] are textually identical)

    Conventions of the model.

    - A Python [str] is a [string]; characters are the 8-bit code points
      (the Latin-1 range of Python text).
    - Check counts ([len] of a [re.findall] result) are [nat].
    - A compliance percentage is the exact rational value of the Python
      expression [passed / checks * 100]; the comparisons against 90 and
      70 are comparisons of that value.
    - Code that can raise lives in the [result] monad; [try/except] is a
      case analysis on the outcome.
    - The HTML text written at the end is not modelled: each generator is
      followed up to the data that the HTML is printed from. *)

From Stdlib Require Import String Ascii List Bool Arith PeanoNat NArith ZArith Lia.
From Stdlib Require Import QArith Qround.
From Stdlib Require Import Sorted Permutation.
Import ListNotations.

Local Open Scope string_scope.
Local Open Scope list_scope.
Local Open Scope nat_scope.

(* ===================================================================== *)
(** ** Exceptions *)
(* ===================================================================== *)

(** The outcome of Python code that may raise: a value, or the message of
    the exception ([str(e)]). *)
Inductive result (A : Type) : Type :=
| Ok (a : A)
| Raise (msg : string).

Arguments Ok {A} a.
Arguments Raise {A} msg.

Definition bind {A B : Type} (c : result A) (k : A -> result B) : result B :=
  match c with
  | Ok a => k a
  | Raise msg => Raise msg
  end.

Notation "x <- c ;; k" := (bind c (fun x => k))
  (at level 61, c at next level, right associativity).

(* ===================================================================== *)
(** ** Text primitives: [str] methods and the [re] calls of the scripts *)
(* ===================================================================== *)

Module Text.

(** The double-quote character, for the patterns that contain one. *)
Definition dq : string := String (ascii_of_nat 34) EmptyString.

Definition code (c : ascii) : nat := nat_of_ascii c.

Definition in_range (lo hi : nat) (c : ascii) : bool :=
  (lo <=? code c) && (code c <=? hi).

(** [[0-9]] *)
Definition is_digit (c : ascii) : bool := in_range 48 57 c.

(** [\s] and [str.isspace] on 8-bit code points:
    TAB..CR, FS..US, space, NEL and NBSP. *)
Definition is_space (c : ascii) : bool :=
  in_range 9 13 c || in_range 28 32 c
  || (code c =? 133) || (code c =? 160).

(** Case folding of [re.IGNORECASE] against an ASCII pattern character:
    only [A-Z] and [a-z] are identified. *)
Definition lower (c : ascii) : ascii :=
  if in_range 65 90 c then ascii_of_nat (code c + 32) else c.

Definition is_empty (s : string) : bool :=
  match s with
  | EmptyString => true
  | String _ _ => false
  end.

(** A regex fragment anchored at the head of the text: the remainder
    after the match, or [None]. *)
Definition matcher : Type := string -> option string.

(** A literal. *)
Fixpoint lit (p s : string) : option string :=
  match p with
  | EmptyString => Some s
  | String a p' =>
      match s with
      | EmptyString => None
      | String b s' => if Ascii.eqb a b then lit p' s' else None
      end
  end.

(** A literal under [re.IGNORECASE]. *)
Fixpoint lit_i (p s : string) : option string :=
  match p with
  | EmptyString => Some s
  | String a p' =>
      match s with
      | EmptyString => None
      | String b s' =>
          if Ascii.eqb (lower a) (lower b) then lit_i p' s' else None
      end
  end.

(** [(?:p1|p2|...)] over literals, first alternative first. *)
Fixpoint alt (ps : list string) (s : string) : option string :=
  match ps with
  | [] => None
  | p :: ps' =>
      match lit p s with
      | Some r => Some r
      | None => alt ps' s
      end
  end.

(** Maximal prefix of characters satisfying [p], and the rest: a greedy
    character class. *)
Fixpoint span (p : ascii -> bool) (s : string) : string * string :=
  match s with
  | EmptyString => (EmptyString, EmptyString)
  | String c s' =>
      if p c
      then let (a, b) := span p s' in (String c a, b)
      else (EmptyString, s)
  end.

(** Leftmost position at which [m] matches: the text before the match
    and the text after it.  This is also the lazy [(.*?)] followed by
    [m] under [re.DOTALL]: the shortest body after which [m] matches. *)
Fixpoint find (m : matcher) (s : string) : option (string * string) :=
  match m s with
  | Some rest => Some (EmptyString, rest)
  | None =>
      match s with
      | EmptyString => None
      | String c s' =>
          match find m s' with
          | Some (pre, rest) => Some (String c pre, rest)
          | None => None
          end
      end
  end.

(** [p in s] *)
Definition contains (p s : string) : bool :=
  match find (lit p) s with
  | Some _ => true
  | None => false
  end.

(** [len(re.findall(m, s))] for a pattern without groups: matches are
    taken left to right and do not overlap.  [fuel] bounds the number
    of matches. *)
Fixpoint count_fuel (fuel : nat) (m : matcher) (s : string) : nat :=
  match fuel with
  | O => 0
  | S fuel' =>
      match find m s with
      | None => 0
      | Some (_, rest) => S (count_fuel fuel' m rest)
      end
  end.

Definition count (m : matcher) (s : string) : nat :=
  count_fuel (String.length s) m s.

(** [re.search(L(.*?)R, s, re.DOTALL).group(1)].  Every [L] used below
    is such that, when no [R] follows its first occurrence, none follows
    a later one either, so the search never has to restart. *)
Definition search (L R : matcher) (s : string) : option string :=
  match find L s with
  | None => None
  | Some (_, after) =>
      match find R after with
      | None => None
      | Some (body, _) => Some body
      end
  end.

(** [re.findall(L(.*?)R, s, re.DOTALL)]: the captured bodies, in order;
    the scan resumes where the previous match ended. *)
Fixpoint findall_fuel (fuel : nat) (L R : matcher) (s : string)
  : list string :=
  match fuel with
  | O => []
  | S fuel' =>
      match find L s with
      | None => []
      | Some (_, after) =>
          match find R after with
          | None => []
          | Some (body, rest) => body :: findall_fuel fuel' L R rest
          end
      end
  end.

Definition findall (L R : matcher) (s : string) : list string :=
  findall_fuel (String.length s) L R s.

(** [re.search(m, s).group(1)] for a pattern whose only group is
    computed by [m] at the position of the match. *)
Fixpoint search_group (m : string -> option string) (s : string)
  : option string :=
  match m s with
  | Some g => Some g
  | None =>
      match s with
      | EmptyString => None
      | String _ s' => search_group m s'
      end
  end.

(** [re.sub(m, '', s)]: every match is deleted. *)
Fixpoint delete_fuel (fuel : nat) (m : matcher) (s : string) : string :=
  match fuel with
  | O => s
  | S fuel' =>
      match m s with
      | Some rest => delete_fuel fuel' m rest
      | None =>
          match s with
          | EmptyString => EmptyString
          | String c s' => String c (delete_fuel fuel' m s')
          end
      end
  end.

Definition delete (m : matcher) (s : string) : string :=
  delete_fuel (String.length s) m s.

(** [<[^>]+>]: an opening bracket, at least one character other than
    the closing bracket, and the closing bracket. *)
Definition tag : matcher := fun s =>
  match lit "<" s with
  | None => None
  | Some r =>
      match find (lit ">") r with
      | None => None
      | Some (inner, rest) => if is_empty inner then None else Some rest
      end
  end.

(** [re.sub(r'<[^>]+>', '', s)] *)
Definition strip_tags (s : string) : string := delete tag s.

Fixpoint lstrip (s : string) : string :=
  match s with
  | EmptyString => EmptyString
  | String c s' => if is_space c then lstrip s' else s
  end.

Fixpoint rstrip (s : string) : string :=
  match s with
  | EmptyString => EmptyString
  | String c s' =>
      let r := rstrip s' in
      if is_space c && is_empty r then EmptyString else String c r
  end.

(** [s.strip()] *)
Definition strip (s : string) : string := rstrip (lstrip s).

(** [int(s)] on a string matched by [[0-9]+]; the scripts call [int]
    on requirement numbers only, and those are captured by that class. *)
Definition digit_value (c : ascii) : N := N.of_nat (code c - 48).

Fixpoint int_acc (acc : N) (s : string) : N :=
  match s with
  | EmptyString => acc
  | String c s' => int_acc (10 * acc + digit_value c)%N s'
  end.

Definition int (s : string) : N := int_acc 0%N s.

(** [<opening ...>] then the lazy body up to [closing]: the patterns
    [<h1[^>]*>(.*?)</h1>] and [<h3.*?>(.*?)</h3>].  The opening tag ends
    at the first closing bracket in both. *)
Definition open_tag (name : string) : matcher := fun s =>
  match lit name s with
  | None => None
  | Some r =>
      match find (lit ">") r with
      | None => None
      | Some (_, rest) => Some rest
      end
  end.

(** [</div>\s*</div>] *)
Definition div_close_twice : matcher := fun s =>
  match lit "</div>" s with
  | None => None
  | Some r => lit "</div>" (snd (span is_space r))
  end.

End Text.

(* ===================================================================== *)
(** ** Python arithmetic and [sorted] *)
(* ===================================================================== *)

(** [a / b] on two counts: true division, [ZeroDivisionError] when the
    divisor is zero. *)
Definition truediv (a b : nat) : result Q :=
  if b =? 0 then Raise "division by zero"
  else Ok (inject_Z (Z.of_nat a) / inject_Z (Z.of_nat b))%Q.

(** [(passed / checks * 100) if checks > 0 else 0] *)
Definition percentage (passed checks : nat) : result Q :=
  if 0 <? checks
  then q <- truediv passed checks ;; Ok (q * 100)%Q
  else Ok 0%Q.

(** The exact value of [passed / checks * 100] when [checks] is not zero. *)
Definition ratio (passed checks : nat) : Q :=
  (inject_Z (Z.of_nat passed) / inject_Z (Z.of_nat checks) * 100)%Q.

Section SortedByKey.

Context {A : Type}.
Variable key : A -> N.

(** [sorted(l, key=key)]: ascending by key, and stable (elements with
    equal keys keep their order), which determines the result. *)
Fixpoint insert_by (x : A) (l : list A) : list A :=
  match l with
  | [] => [x]
  | y :: l' =>
      if (key x <=? key y)%N then x :: l else y :: insert_by x l'
  end.

Fixpoint sorted_by (l : list A) : list A :=
  match l with
  | [] => []
  | x :: l' => insert_by x (sorted_by l')
  end.

(** Ascending order of the keys. *)
Definition key_le (a b : A) : Prop := (key a <= key b)%N.

End SortedByKey.

(* ===================================================================== *)
(** ** generate_summary_report.py *)
(* ===================================================================== *)

Module SummaryReport.

Import Text.

(** *** extract_requirement_number *)

(** [prefix([0-9]+)] anchored at the head: the captured digits. *)
Definition number_after (prefix s : string) : option string :=
  match lit prefix s with
  | None => None
  | Some r =>
      let digits := fst (span is_digit r) in
      if is_empty digits then None else Some digits
  end.

Definition patterns : list string :=
  ["pci_req"; "pci_r"; "pci_requirement"].

Fixpoint first_match (ps : list string) (filename : string)
  : option string :=
  match ps with
  | [] => None
  | p :: ps' =>
      match search_group (number_after p) filename with
      | Some g => Some g
      | None => first_match ps' filename
      end
  end.

Definition extract_requirement_number (filename : string) : option string :=
  first_match patterns filename.

(** *** count_checks *)

Definition div_class (kind : string) : string :=
  ("<div class=" ++ dq ++ "check-item " ++ kind ++ dq)%string.

Definition pass_tags (content : string) : nat := count (lit_i "[PASS]") content.
Definition fail_tags (content : string) : nat := count (lit_i "[FAIL]") content.
Definition warn_tags (content : string) : nat := count (lit_i "[WARN]") content.

Definition pass_divs (content : string) : nat :=
  count (lit_i (div_class "pass")) content.
Definition fail_divs (content : string) : nat :=
  count (lit_i (div_class "fail")) content.
Definition warn_divs (content : string) : nat :=
  count (lit_i (div_class "warning")) content.

(** Returns [(total_checks, pass_count, fail_count, warn_count)]. *)
Definition count_checks (content : string) : nat * nat * nat * nat :=
  let pass_count := pass_tags content in
  let fail_count := fail_tags content in
  let warn_count := warn_tags content in
  let pass_count_alt := pass_divs content in
  let fail_count_alt := fail_divs content in
  let warn_count_alt := warn_divs content in
  let pass_count := Nat.max pass_count pass_count_alt in
  let fail_count := Nat.max fail_count fail_count_alt in
  let warn_count := Nat.max warn_count warn_count_alt in
  let total_checks := pass_count + fail_count + warn_count in
  if total_checks =? 0
  then (1, 1, fail_count, warn_count)
  else (total_checks, pass_count, fail_count, warn_count).

(** *** extract_requirement_data *)

Record requirement : Type := {
  req_num : string;
  title : string;
  findings : list string;
  critical_findings : list string;
  total_checks : nat;
  passed : nat;
  failed : nat;
  warnings : nat;
  compliance_pct : Q;
  status : string;
  status_class : string
}.

(** The [if/elif/else] on [compliance_pct] (lines 116-125):
    [(status, status_class)]. *)
Definition requirement_status (compliance_pct : Q) : string * string :=
  if Qle_bool 90 compliance_pct then ("Compliant", "compliant")
  else if Qle_bool 70 compliance_pct then ("Partially Compliant", "partial")
  else ("Non-Compliant", "non-compliant").

Definition red_fail_span : string :=
  ("<span class=" ++ dq ++ "red" ++ dq ++ ">[FAIL]</span>")%string.

(** [re.findall(r'<span class="red">\[FAIL\]</span>(.*?)</h3>', ...)] *)
Definition fail_matches (content : string) : list string :=
  findall (lit red_fail_span) (lit "</h3>") content.

Definition extract_title (content req_num : string) : string :=
  let title :=
    match search (open_tag "<h1") (lit "</h1>") content with
    | Some g => strip g
    | None => ("Requirement " ++ req_num)%string
    end in
  strip_tags title.

(** The body of the [try] block, once the file has been read. *)
Definition requirement_of_content (content req_num : string)
  : result requirement :=
  let title := extract_title content req_num in
  let findings := map (fun m => strip_tags (strip m)) (fail_matches content) in
  let '(checks, passed, failed, warnings) := count_checks content in
  compliance_pct <- percentage passed checks ;;
  let (status, status_class) := requirement_status compliance_pct in
  Ok {| req_num := req_num;
        title := title;
        findings := findings;
        critical_findings :=
          if 0 <? List.length findings then firstn 3 findings else [];
        total_checks := checks;
        passed := passed;
        failed := failed;
        warnings := warnings;
        compliance_pct := compliance_pct;
        status := status;
        status_class := status_class |}.

(** The [except Exception] handler. *)
Definition error_requirement (req_num : string) : requirement :=
  {| req_num := req_num;
     title := ("Requirement " ++ req_num)%string;
     findings := ["Error processing report"];
     critical_findings := ["Error processing report"];
     total_checks := 1;
     passed := 0;
     failed := 1;
     warnings := 0;
     compliance_pct := 0%Q;
     status := "Unknown";
     status_class := "non-compliant" |}.

(** [file] is the outcome of opening and reading [file_path] as UTF-8. *)
Definition extract_requirement_data (file : result string) (req_num : string)
  : requirement :=
  match (content <- file ;; requirement_of_content content req_num) with
  | Ok r => r
  | Raise _ => error_requirement req_num
  end.

(** *** main *)

(** An entry of [overall_stats["critical_findings"]]. *)
Record critical_finding : Type := {
  req : string;
  finding : string
}.

Record overall_stats : Type := {
  o_total_checks : nat;
  o_passed : nat;
  o_failed : nat;
  o_warnings : nat;
  o_critical_findings : list critical_finding
}.

Definition no_stats : overall_stats :=
  {| o_total_checks := 0; o_passed := 0; o_failed := 0; o_warnings := 0;
     o_critical_findings := [] |}.

(** A report file: its base name and the outcome of reading it. *)
Definition report_file : Type := string * result string.

(** One iteration of the loop over [report_files].  The captured group
    is never empty, so [if req_num] tests for [None]. *)
Definition process_file (acc : list requirement * overall_stats)
           (f : report_file) : list requirement * overall_stats :=
  let (requirements_data, stats) := acc in
  match extract_requirement_number (fst f) with
  | None => acc
  | Some req_num =>
      let req_data := extract_requirement_data (snd f) req_num in
      (requirements_data ++ [req_data],
       {| o_total_checks := o_total_checks stats + total_checks req_data;
          o_passed := o_passed stats + passed req_data;
          o_failed := o_failed stats + failed req_data;
          o_warnings := o_warnings stats + warnings req_data;
          o_critical_findings :=
            o_critical_findings stats ++
            map (fun x => {| req := req_num; finding := x |})
                (critical_findings req_data) |})
  end.

Definition process_files (report_files : list report_file)
  : list requirement * overall_stats :=
  fold_left process_file report_files ([], no_stats).

(** What one report file contributes to [requirements_data]. *)
Definition records_of (f : report_file) : list requirement :=
  match extract_requirement_number (fst f) with
  | None => []
  | Some req_num => [extract_requirement_data (snd f) req_num]
  end.

(** What one record contributes to [overall_stats["critical_findings"]]. *)
Definition entries_of (r : requirement) : list critical_finding :=
  map (fun x => {| req := req_num r; finding := x |}) (critical_findings r).

(** [stats] after the counts and critical findings of [rs] are added. *)
Definition add_records (stats : overall_stats) (rs : list requirement)
  : overall_stats :=
  {| o_total_checks := o_total_checks stats + list_sum (map total_checks rs);
     o_passed := o_passed stats + list_sum (map passed rs);
     o_failed := o_failed stats + list_sum (map failed rs);
     o_warnings := o_warnings stats + list_sum (map warnings rs);
     o_critical_findings :=
       o_critical_findings stats ++ flat_map entries_of rs |}.

(** *** generate_summary_html *)

(** The [if/elif/else] on [overall_compliance] (lines 189-198). *)
Definition overall_status (overall_compliance : Q) : string * string :=
  if Qle_bool 90 overall_compliance then ("Compliant", "compliant")
  else if Qle_bool 70 overall_compliance then ("Partially Compliant", "partial")
  else ("Non-Compliant", "non-compliant").

Definition requirement_key (r : requirement) : N := int (req_num r).
Definition finding_key (c : critical_finding) : N := int (req c).

(** What the page is printed from. *)
Record summary : Type := {
  shown_stats : overall_stats;
  overall_compliance : Q;
  overall_label : string * string;
  req_rows : list requirement;
  top_findings : list critical_finding;
  more_findings : option nat
}.

Definition generate_summary_html (requirements_data : list requirement)
           (stats : overall_stats) : result summary :=
  overall_compliance <- percentage (o_passed stats) (o_total_checks stats) ;;
  let sorted_findings := sorted_by finding_key (o_critical_findings stats) in
  Ok {| shown_stats := stats;
        overall_compliance := overall_compliance;
        overall_label := overall_status overall_compliance;
        req_rows := sorted_by requirement_key requirements_data;
        top_findings :=
          if 10 <? List.length sorted_findings
          then firstn 10 sorted_findings else sorted_findings;
        more_findings :=
          if 10 <? List.length sorted_findings
          then Some (List.length sorted_findings - 10) else None |}.

(** [sys.exit(1)] raises [SystemExit(1)]. *)
Definition main (report_files : list report_file) : result summary :=
  match report_files with
  | [] => Raise "1"
  | _ =>
      let (requirements_data, stats) := process_files report_files in
      generate_summary_html requirements_data stats
  end.

End SummaryReport.

(* ===================================================================== *)
(** ** Findings with details: the structured-block strategy *)
(* ===================================================================== *)

(** The loop over [fail_blocks] is the same text in
    [generate_interactive_summary.py], [create_card_based_report.py] and
    [card_report_with_clickable.py]. *)
Module Blocks.

Import Text.

Record finding : Type := {
  f_title : string;
  f_details : string;
  f_recommendation : string
}.

Definition div_open (class : string) : string :=
  ("<div class=" ++ dq ++ class ++ dq ++ ">")%string.

Definition red_span_open : string :=
  ("<span class=" ++ dq ++ "red" ++ dq ++ ">")%string.

(** [re.findall(r'<div class="check-item fail">(.*?)</div>\s*</div>', ...)] *)
Definition fail_blocks (content : string) : list string :=
  findall (lit (div_open "check-item fail")) div_close_twice content.

Definition block_title (block : string) : string :=
  match search (open_tag "<h3") (lit "</h3>") block with
  | None => "Failed Check"
  | Some g => strip (strip_tags g)
  end.

Definition block_details (block : string) : string :=
  match search (lit "<div>") (lit "</div>") block with
  | None => "No details available"
  | Some g => strip g
  end.

Definition block_recommendation (block : string) : string :=
  match search (lit "<strong>Recommendation:</strong>")
               (alt ["<br>"; "</div>"]) block with
  | Some g => strip g
  | None =>
      match search (lit (div_open "recommendation")) (lit "</div>") block with
      | Some g => strip g
      | None => "No specific recommendation provided."
      end
  end.

Definition block_finding (block : string) : finding :=
  {| f_title := block_title block;
     f_details := block_details block;
     f_recommendation := block_recommendation block |}.

(** [detailed_findings] after the loop over [fail_blocks]. *)
Definition structured_findings (content : string) : list finding :=
  map block_finding (fail_blocks content).

End Blocks.

(* ===================================================================== *)
(** ** generate_interactive_summary.py and create_card_based_report.py *)
(* ===================================================================== *)

Module Interactive.

Import Text.
Export Blocks.

(** [re.findall(r'<span class="red">(.*?)</span>', ...)] *)
Definition fail_indicators (content : string) : list string :=
  findall (lit red_span_open) (lit "</span>") content.

(** The text after the indicator, up to a line break, a block close or
    a heading close. *)
Definition indicator_context (content indicator : string) : string :=
  match search (lit (red_span_open ++ indicator ++ "</span>")%string)
               (alt ["<br>"; "</div>"; "</h3>"]) content with
  | Some g => strip g
  | None => "Failed check"
  end.

Definition indicator_finding (content indicator : string) : finding :=
  {| f_title := ("Failed: " ++ indicator_context content indicator)%string;
     f_details := "Specific details not available";
     f_recommendation :=
       "Review the full requirement report for more information." |}.

(** The indicators that the fallback loop keeps. *)
Definition fail_markers (content : string) : list string :=
  filter (contains "[FAIL]") (fail_indicators content).

Definition marker_findings (content : string) : list finding :=
  map (indicator_finding content) (fail_markers content).

(** [detailed_findings] as it stands before the checks are counted. *)
Definition extract_detailed_findings (content : string) : list finding :=
  let detailed_findings := structured_findings content in
  match detailed_findings with
  | [] => marker_findings content
  | _ :: _ => detailed_findings
  end.

Definition count_checks : string -> nat * nat * nat * nat :=
  SummaryReport.count_checks.

Record requirement : Type := {
  req_num : string;
  title : string;
  findings : list string;
  detailed_findings : list finding;
  total_checks : nat;
  passed : nat;
  failed : nat;
  warnings : nat;
  compliance_pct : Q;
  status : string;
  status_class : string
}.

Definition requirement_status (compliance_pct : Q) : string * string :=
  if Qle_bool 90 compliance_pct then ("Compliant", "compliant")
  else if Qle_bool 70 compliance_pct then ("Partially Compliant", "partial")
  else ("Non-Compliant", "non-compliant").

Definition requirement_of_content (content req_num : string)
  : result requirement :=
  let title := SummaryReport.extract_title content req_num in
  let detailed_findings := extract_detailed_findings content in
  let '(checks, passed, failed, warnings) := count_checks content in
  compliance_pct <- percentage passed checks ;;
  let (status, status_class) := requirement_status compliance_pct in
  Ok {| req_num := req_num;
        title := title;
        findings := map f_title detailed_findings;
        detailed_findings := detailed_findings;
        total_checks := checks;
        passed := passed;
        failed := failed;
        warnings := warnings;
        compliance_pct := compliance_pct;
        status := status;
        status_class := status_class |}.

Definition error_finding (e : string) : finding :=
  {| f_title := "Error processing report";
     f_details :=
       ("An error occurred while processing this report: " ++ e)%string;
     f_recommendation := "Check the original report file for details." |}.

Definition error_requirement (req_num e : string) : requirement :=
  {| req_num := req_num;
     title := ("Requirement " ++ req_num)%string;
     findings := ["Error processing report"];
     detailed_findings := [error_finding e];
     total_checks := 1;
     passed := 0;
     failed := 1;
     warnings := 0;
     compliance_pct := 0%Q;
     status := "Unknown";
     status_class := "non-compliant" |}.

Definition extract_requirement_data (file : result string) (req_num : string)
  : requirement :=
  match (content <- file ;; requirement_of_content content req_num) with
  | Ok r => r
  | Raise e => error_requirement req_num e
  end.

(** An entry of [overall_stats["critical_findings"]]. *)
Record critical_finding : Type := {
  req : string;
  cf_title : string;
  cf_details : string;
  cf_recommendation : string
}.

Record overall_stats : Type := {
  o_total_checks : nat;
  o_passed : nat;
  o_failed : nat;
  o_warnings : nat;
  o_critical_findings : list critical_finding
}.

Definition no_stats : overall_stats :=
  {| o_total_checks := 0; o_passed := 0; o_failed := 0; o_warnings := 0;
     o_critical_findings := [] |}.

(** [enumerate(l)] *)
Fixpoint enumerate_from {A : Type} (i : nat) (l : list A) : list (nat * A) :=
  match l with
  | [] => []
  | x :: l' => (i, x) :: enumerate_from (S i) l'
  end.

(** The findings for which [i < cap] in [for i, finding in enumerate(...)]. *)
Definition capped {A : Type} (cap : nat) (l : list A) : list A :=
  map snd (filter (fun p => fst p <? cap) (enumerate_from 0 l)).

(** One iteration of the loop of [main]; [cap] is 5 in
    [generate_interactive_summary.py], 3 in [create_card_based_report.py]. *)
Definition process_file (cap : nat) (acc : list requirement * overall_stats)
           (f : SummaryReport.report_file) : list requirement * overall_stats :=
  let (requirements_data, stats) := acc in
  match SummaryReport.extract_requirement_number (fst f) with
  | None => acc
  | Some req_num =>
      let req_data := extract_requirement_data (snd f) req_num in
      (requirements_data ++ [req_data],
       {| o_total_checks := o_total_checks stats + total_checks req_data;
          o_passed := o_passed stats + passed req_data;
          o_failed := o_failed stats + failed req_data;
          o_warnings := o_warnings stats + warnings req_data;
          o_critical_findings :=
            o_critical_findings stats ++
            map (fun x => {| req := req_num;
                             cf_title := f_title x;
                             cf_details := f_details x;
                             cf_recommendation := f_recommendation x |})
                (capped cap (detailed_findings req_data)) |})
  end.

Definition process_files (cap : nat)
           (report_files : list SummaryReport.report_file)
  : list requirement * overall_stats :=
  fold_left (process_file cap) report_files ([], no_stats).

(** What one report file contributes to [requirements_data]. *)
Definition records_of (f : SummaryReport.report_file) : list requirement :=
  match SummaryReport.extract_requirement_number (fst f) with
  | None => []
  | Some req_num => [extract_requirement_data (snd f) req_num]
  end.

End Interactive.

(* ===================================================================== *)
(** ** card_report_with_clickable.py *)
(* ===================================================================== *)

Module Clickable.

Import Text.
Export Blocks.

Definition marker_finding (m : string) : finding :=
  {| f_title := strip_tags (strip m);
     f_details := "Specific details not available in the report.";
     f_recommendation :=
       "Review the full requirement report for detailed recommendations." |}.

Definition marker_findings (content : string) : list finding :=
  map marker_finding (SummaryReport.fail_matches content).

Definition extract_detailed_findings (content : string) : list finding :=
  let detailed_findings := structured_findings content in
  match detailed_findings with
  | [] => marker_findings content
  | _ :: _ => detailed_findings
  end.

Record stats : Type := {
  compliance_pct : Q;
  status : string;
  status_class : string;
  total_checks : nat;
  passed : nat;
  failed : nat;
  warnings : nat
}.

Definition default_stats : stats :=
  {| compliance_pct := 0%Q;
     status := "Unknown";
     status_class := "non-compliant";
     total_checks := 0;
     passed := 0;
     failed := 0;
     warnings := 0 |}.

Definition extract_stats (content : string) : result stats :=
  let pass_count := SummaryReport.pass_tags content in
  let fail_count := SummaryReport.fail_tags content in
  let warn_count := SummaryReport.warn_tags content in
  let pass_count_alt := SummaryReport.pass_divs content in
  let fail_count_alt := SummaryReport.fail_divs content in
  let warn_count_alt := SummaryReport.warn_divs content in
  let pass_count := Nat.max pass_count pass_count_alt in
  let fail_count := Nat.max fail_count fail_count_alt in
  let warn_count := Nat.max warn_count warn_count_alt in
  let total_checks := pass_count + fail_count + warn_count in
  if total_checks =? 0
  then Ok {| compliance_pct := 100%Q;
             status := "Compliant";
             status_class := "compliant";
             total_checks := 1;
             passed := 1;
             failed := failed default_stats;
             warnings := warnings default_stats |}
  else
    q <- truediv pass_count total_checks ;;
    let compliance_pct := (q * 100)%Q in
    let (status, status_class) :=
      if Qle_bool 90 compliance_pct then ("Compliant", "compliant")
      else if Qle_bool 70 compliance_pct
           then ("Partially Compliant", "partial")
           else ("Non-Compliant", "non-compliant") in
    Ok {| compliance_pct := compliance_pct;
          status := status;
          status_class := status_class;
          total_checks := total_checks;
          passed := pass_count;
          failed := fail_count;
          warnings := warn_count |}.

End Clickable.

(* ===================================================================== *)
(** ** fix_card_report.py and create_explicit_layout_report.py *)
(* ===================================================================== *)

Module FixCard.

Import Text.

Record finding : Type := {
  f_title : string;
  f_details : string
}.

Definition placeholder : string := "Click to see details in full report".

(** The loop over [fail_matches]. *)
Definition marker_findings (content : string) : list finding :=
  map (fun m => {| f_title := strip_tags (strip m);
                   f_details := placeholder |})
      (SummaryReport.fail_matches content).

(** A block without a heading contributes nothing. *)
Definition block_finding (block : string) : list finding :=
  match search (open_tag "<h3") (lit "</h3>") block with
  | Some g => [ {| f_title := strip (strip_tags g);
                   f_details := placeholder |} ]
  | None => []
  end.

(** The loop over [fail_blocks]. *)
Definition block_findings (content : string) : list finding :=
  flat_map block_finding (Blocks.fail_blocks content).

Definition extract_findings (content : string) : list finding :=
  let findings := marker_findings content in
  match findings with
  | [] => block_findings content
  | _ :: _ => findings
  end.

End FixCard.

(* ===================================================================== *)
(** ** Sample documents *)
(* ===================================================================== *)

Module Samples.

Import Text.

(** A heading that carries the inline failure marker. *)
Definition marked_heading (text : string) : string :=
  ("<h3>" ++ SummaryReport.red_fail_span ++ " " ++ text ++ "</h3>")%string.

(** A failed-check container with a heading, details and a
    recommendation. *)
Definition fail_block (text : string) : string :=
  (Blocks.div_open "check-item fail"
   ++ "<h3>" ++ text ++ "</h3><div>details</div>"
   ++ "<strong>Recommendation:</strong> fix it<br></div> </div>")%string.

Fixpoint repeat_text (n : nat) (s : string) : string :=
  match n with
  | O => EmptyString
  | S n' => (s ++ repeat_text n' s)%string
  end.

(** Three bracketed fail tags and five fail containers. *)
Definition three_tags_five_divs : string :=
  (repeat_text 3 "[FAIL] " ++ repeat_text 5 (SummaryReport.div_class "fail"))%string.

(** One marker-span match, no failed-check container. *)
Definition one_marker : string := marked_heading "1.2 <i>Bad</i> rule".

(** A failed-check container followed by a marked heading. *)
Definition block_then_marker : string :=
  (fail_block "Open port" ++ marked_heading "Weak key")%string.

(** One marker-span match, no failed-check container, and a second red
    span that holds the failure marker. *)
Definition marker_and_red_span : string :=
  (SummaryReport.red_fail_span ++ " a</h3>"
   ++ Blocks.red_span_open ++ "[FAIL] b</span>")%string.

(** Eight marked headings. *)
Definition eight_markers : string :=
  (marked_heading "a" ++ marked_heading "b" ++ marked_heading "c"
   ++ marked_heading "d" ++ marked_heading "e" ++ marked_heading "f"
   ++ marked_heading "g" ++ marked_heading "h")%string.

(** A document without any pass, fail or warn marker. *)
Definition no_markers : string :=
  "<h1>Requirement 12</h1><p>No checks were run.</p>".

(** A folder whose only report carries no requirement number. *)
Definition unnumbered_only : list SummaryReport.report_file :=
  [("index.html", Ok "<h1>Index</h1>")].

(** A folder in which the second report cannot be decoded. *)
Definition one_unreadable : list SummaryReport.report_file :=
  [("pci_req1_report.html", Ok one_marker);
   ("pci_req2_report.html", Raise "invalid start byte");
   ("notes.html", Ok "[PASS]");
   ("pci_req10_report.html", Ok "[PASS] [PASS]")].

End Samples.

(* ===================================================================== *)
(** ** Shapes of names and documents *)
(* ===================================================================== *)

Module Shape.

Import Text.

(** Every character of the text satisfies [p]. *)
Fixpoint all_chars (p : ascii -> bool) (s : string) : bool :=
  match s with
  | EmptyString => true
  | String c s' => p c && all_chars p s'
  end.

(** The character [c] does not occur in the text. *)
Definition without (c : ascii) (s : string) : bool :=
  all_chars (fun x => negb (Ascii.eqb x c)) s.

(** Text that opens no tag and no bracketed marker. *)
Definition plain (s : string) : bool :=
  without "<"%char s && without "["%char s.

(** The text does not begin with a digit. *)
Definition no_leading_digit (s : string) : bool :=
  match s with
  | EmptyString => true
  | String c _ => negb (is_digit c)
  end.

(** The text with [A-Z] replaced by [a-z]. *)
Fixpoint lowercase (s : string) : string :=
  match s with
  | EmptyString => EmptyString
  | String c s' => String (lower c) (lowercase s')
  end.

(** The matcher can only succeed on a text that begins with [c]. *)
Definition needs (c : ascii) (m : matcher) : Prop :=
  forall x s, x <> c -> m (String x s) = None.

(** The three kinds of check marker and their two spellings. *)
Inductive kind : Type := Pass | Fail | Warn.

Definition kind_eqb (a b : kind) : bool :=
  match a, b with
  | Pass, Pass | Fail, Fail | Warn, Warn => true
  | _, _ => false
  end.

Definition bracket_tag (k : kind) : string :=
  match k with
  | Pass => "[PASS]"
  | Fail => "[FAIL]"
  | Warn => "[WARN]"
  end.

Definition container (k : kind) : string :=
  match k with
  | Pass => SummaryReport.div_class "pass"
  | Fail => SummaryReport.div_class "fail"
  | Warn => SummaryReport.div_class "warning"
  end.

(** A piece of a document: text, a bracketed marker, or the opening of a
    check container. *)
Inductive piece : Type :=
| Words (s : string)
| Tag (k : kind)
| Div (k : kind).

Definition piece_text (p : piece) : string :=
  match p with
  | Words s => s
  | Tag k => bracket_tag k
  | Div k => container k
  end.

Definition words_plain (p : piece) : bool :=
  match p with
  | Words s => plain s
  | _ => true
  end.

Fixpoint document (ps : list piece) : string :=
  match ps with
  | [] => EmptyString
  | p :: ps' => (piece_text p ++ document ps')%string
  end.

Definition is_tag (k : kind) (p : piece) : bool :=
  match p with
  | Tag k' => kind_eqb k k'
  | _ => false
  end.

Definition is_div (k : kind) (p : piece) : bool :=
  match p with
  | Div k' => kind_eqb k k'
  | _ => false
  end.

Definition tags (k : kind) (ps : list piece) : nat :=
  List.length (filter (is_tag k) ps).

Definition divs (k : kind) (ps : list piece) : nat :=
  List.length (filter (is_div k) ps).

(** A page of marked headings, one per finding text. *)
Fixpoint headings (texts : list string) : string :=
  match texts with
  | [] => EmptyString
  | t :: texts' => (Samples.marked_heading t ++ headings texts')%string
  end.

End Shape.

(* ===================================================================== *)
(** ** generate_interactive_summary.py: the critical findings section *)
(* ===================================================================== *)

Module InteractivePage.

Import Text.

(** An entry of a list in [findings_by_req]. *)
Record indexed_finding : Type := {
  index : nat;
  i_title : string;
  i_details : string;
  i_recommendation : string
}.

Definition indexed (p : nat * Interactive.critical_finding) : indexed_finding :=
  {| index := fst p;
     i_title := Interactive.cf_title (snd p);
     i_details := Interactive.cf_details (snd p);
     i_recommendation := Interactive.cf_recommendation (snd p) |}.

(** [findings_by_req] is a dict: its items are kept in the order in which
    the keys were first inserted. *)
Definition groups : Type := list (string * list indexed_finding).

(** [if req not in d: d[req] = []] followed by [d[req].append(x)]. *)
Fixpoint append_to (req : string) (x : indexed_finding) (d : groups) : groups :=
  match d with
  | [] => [(req, [x])]
  | (k, v) :: d' =>
      if String.eqb k req then (k, v ++ [x]) :: d'
      else (k, v) :: append_to req x d'
  end.

Definition group_step (d : groups) (p : nat * Interactive.critical_finding)
  : groups :=
  append_to (Interactive.req (snd p)) (indexed p) d.

(** The loop over [enumerate(overall_stats["critical_findings"])]. *)
Definition findings_by_req (critical : list Interactive.critical_finding)
  : groups :=
  fold_left group_step (Interactive.enumerate_from 0 critical) [].

Definition group_key (g : string * list indexed_finding) : N := int (fst g).

(** The sections of the page: [sorted(findings_by_req.items(), key=...)]. *)
Definition critical_sections (critical : list Interactive.critical_finding)
  : groups :=
  sorted_by group_key (findings_by_req critical).

(** [d[req]], for the statements. *)
Fixpoint lookup (req : string) (d : groups) : option (list indexed_finding) :=
  match d with
  | [] => None
  | (k, v) :: d' => if String.eqb k req then Some v else lookup req d'
  end.

(** [d.get(req, [])] *)
Definition or_empty (o : option (list indexed_finding)) : list indexed_finding :=
  match o with
  | Some v => v
  | None => []
  end.

(** The entries of requirement [req], in the order of the list. *)
Definition entries_for (req : string)
           (ps : list (nat * Interactive.critical_finding))
  : list indexed_finding :=
  map indexed (filter (fun p => String.eqb (Interactive.req (snd p)) req) ps).

End InteractivePage.

(* ===================================================================== *)
(** ** card_report_with_clickable.py: main and the page *)
(* ===================================================================== *)

Module ClickableReport.

Import Text.

Record requirement : Type := {
  req_num : string;
  title : string;
  findings : list Blocks.finding;
  stats : Clickable.stats
}.

Definition extract_title (content req_num : string) : string :=
  match search (open_tag "<h1") (lit "</h1>") content with
  | Some g => strip_tags (strip g)
  | None => ("Requirement " ++ req_num)%string
  end.

(** One iteration of the loop of [main].  The file is opened outside any
    [try]: an error ends the run. *)
Definition process_file (acc : result (list requirement))
           (f : SummaryReport.report_file) : result (list requirement) :=
  req_data_list <- acc ;;
  match SummaryReport.extract_requirement_number (fst f) with
  | None => Ok req_data_list
  | Some req_num =>
      content <- snd f ;;
      stats <- Clickable.extract_stats content ;;
      Ok (req_data_list ++
          [ {| req_num := req_num;
               title := extract_title content req_num;
               findings := Clickable.extract_detailed_findings content;
               stats := stats |} ])
  end.

Definition process_files (report_files : list SummaryReport.report_file)
  : result (list requirement) :=
  fold_left process_file report_files (Ok []).

Definition requirement_key (r : requirement) : N := int (req_num r).

Record critical : Type := {
  c_req : string;
  c_title : string
}.

(** What one requirement adds to [critical_findings]. *)
Definition critical_of (r : requirement) : list critical :=
  if String.eqb (Clickable.status_class (stats r)) "non-compliant"
  then map (fun x => {| c_req := req_num r; c_title := Blocks.f_title x |})
           (firstn 2 (findings r))
  else [].

Definition critical_findings (req_data_list : list requirement)
  : list critical :=
  flat_map critical_of req_data_list.

Record page : Type := {
  cards : list requirement;
  p_total_checks : nat;
  p_passed : nat;
  p_failed : nat;
  p_warnings : nat;
  p_compliance : Q;
  p_label : string * string;
  p_critical : list critical
}.

Definition generate_interactive_card_html (req_data_list : list requirement)
  : result page :=
  let total := list_sum (map (fun r => Clickable.total_checks (stats r)) req_data_list) in
  let passed := list_sum (map (fun r => Clickable.passed (stats r)) req_data_list) in
  let failed := list_sum (map (fun r => Clickable.failed (stats r)) req_data_list) in
  let warnings :=
    list_sum (map (fun r => Clickable.warnings (stats r)) req_data_list) in
  overall_compliance <- percentage passed total ;;
  Ok {| cards := req_data_list;
        p_total_checks := total;
        p_passed := passed;
        p_failed := failed;
        p_warnings := warnings;
        p_compliance := overall_compliance;
        p_label := SummaryReport.overall_status overall_compliance;
        p_critical := firstn 10 (critical_findings req_data_list) |}.

Definition main (report_files : list SummaryReport.report_file) : result page :=
  match report_files with
  | [] => Raise "1"
  | _ =>
      req_data_list <- process_files report_files ;;
      generate_interactive_card_html (sorted_by requirement_key req_data_list)
  end.

(** The requirement that a readable, numbered report gives. *)
Definition requirement_of (content req_num : string) (s : Clickable.stats)
  : requirement :=
  {| req_num := req_num;
     title := extract_title content req_num;
     findings := Clickable.extract_detailed_findings content;
     stats := s |}.

(** The first numbered report that cannot be read, if any: its error. *)
Fixpoint first_error (report_files : list SummaryReport.report_file)
  : option string :=
  match report_files with
  | [] => None
  | f :: fs =>
      match SummaryReport.extract_requirement_number (fst f), snd f with
      | Some _, Raise e => Some e
      | _, _ => first_error fs
      end
  end.

End ClickableReport.

(* ===================================================================== *)
(** ** fix_card_report.py and create_explicit_layout_report.py: main *)
(* ===================================================================== *)

Module FixCardReport.

Import Text.

Record requirement : Type := {
  req_num : string;
  title : string;
  findings : list FixCard.finding
}.

Definition process_file (acc : result (list requirement))
           (f : SummaryReport.report_file) : result (list requirement) :=
  req_data_list <- acc ;;
  match SummaryReport.extract_requirement_number (fst f) with
  | None => Ok req_data_list
  | Some req_num =>
      content <- snd f ;;
      Ok (req_data_list ++
          [ {| req_num := req_num;
               title := ClickableReport.extract_title content req_num;
               findings := FixCard.extract_findings content |} ])
  end.

Definition process_files (report_files : list SummaryReport.report_file)
  : result (list requirement) :=
  fold_left process_file report_files (Ok []).

Definition requirement_key (r : requirement) : N := int (req_num r).

(** A card: the titles shown, and the number announced as
    "...plus N more findings", if any. *)
Record card : Type := {
  card_req : string;
  card_title : string;
  shown : list string;
  more : option nat
}.

Definition card_of (r : requirement) : card :=
  {| card_req := req_num r;
     card_title := title r;
     shown := map FixCard.f_title (firstn 3 (findings r));
     more := if 3 <? List.length (findings r)
             then Some (List.length (findings r) - 3) else None |}.

Definition main (report_files : list SummaryReport.report_file)
  : result (list card) :=
  match report_files with
  | [] => Raise "1"
  | _ =>
      req_data_list <- process_files report_files ;;
      Ok (map card_of (sorted_by requirement_key req_data_list))
  end.

End FixCardReport.

(* ===================================================================== *)
(** ** What the loops contribute, file by file *)
(* ===================================================================== *)

Module LoopShapes.

(** The entries that a record adds to [overall_stats["critical_findings"]]
    in [generate_interactive_summary.py] (cap 5) and
    [create_card_based_report.py] (cap 3). *)
Definition entries_of (cap : nat) (r : Interactive.requirement)
  : list Interactive.critical_finding :=
  map (fun x => {| Interactive.req := Interactive.req_num r;
                   Interactive.cf_title := Blocks.f_title x;
                   Interactive.cf_details := Blocks.f_details x;
                   Interactive.cf_recommendation := Blocks.f_recommendation x |})
      (firstn cap (Interactive.detailed_findings r)).

Definition add_records (cap : nat) (stats : Interactive.overall_stats)
           (rs : list Interactive.requirement) : Interactive.overall_stats :=
  {| Interactive.o_total_checks :=
       Interactive.o_total_checks stats
       + list_sum (map Interactive.total_checks rs);
     Interactive.o_passed :=
       Interactive.o_passed stats + list_sum (map Interactive.passed rs);
     Interactive.o_failed :=
       Interactive.o_failed stats + list_sum (map Interactive.failed rs);
     Interactive.o_warnings :=
       Interactive.o_warnings stats + list_sum (map Interactive.warnings rs);
     Interactive.o_critical_findings :=
       Interactive.o_critical_findings stats ++ flat_map (entries_of cap) rs |}.

(** The statistics of a document; [extract_stats] always returns them. *)
Definition stats_of (content : string) : Clickable.stats :=
  match Clickable.extract_stats content with
  | Ok s => s
  | Raise _ => Clickable.default_stats
  end.

(** What a report adds to [req_data_list] in
    [card_report_with_clickable.py], when it can be read. *)
Definition clickable_records (f : SummaryReport.report_file)
  : list ClickableReport.requirement :=
  match SummaryReport.extract_requirement_number (fst f), snd f with
  | Some n, Ok content =>
      [ClickableReport.requirement_of content n (stats_of content)]
  | _, _ => []
  end.

(** The same for [fix_card_report.py]. *)
Definition fix_card_records (f : SummaryReport.report_file)
  : list FixCardReport.requirement :=
  match SummaryReport.extract_requirement_number (fst f), snd f with
  | Some n, Ok content =>
      [ {| FixCardReport.req_num := n;
           FixCardReport.title := ClickableReport.extract_title content n;
           FixCardReport.findings := FixCard.extract_findings content |} ]
  | _, _ => []
  end.

End LoopShapes.

(* ===================================================================== *)
(** ** More sample documents *)
(* ===================================================================== *)

Module MoreSamples.

(** A folder whose reports can all be read. *)
Definition readable_folder : list SummaryReport.report_file :=
  [("pci_req10_report.html", Ok Samples.one_marker);
   ("readme.html", Raise "permission denied");
   ("pci_req2_report.html", Ok Samples.block_then_marker)].

(** The same folder with an unreadable numbered report in front. *)
Definition broken_folder : list SummaryReport.report_file :=
  ("pci_req1_report.html", Raise "invalid start byte") :: readable_folder.

End MoreSamples.

(* ===================================================================== *)
(** ** The scans terminate within their fuel *)
(* ===================================================================== *)

Module TextFacts.

Import Text.

(** A matcher that consumes at least one character. *)
Definition productive (m : matcher) : Prop :=
  forall s r, m s = Some r -> String.length r < String.length s.

(** A matcher that returns a part of what it was given. *)
Definition shrinking (m : matcher) : Prop :=
  forall s r, m s = Some r -> String.length r <= String.length s.

Lemma productive_shrinking m : productive m -> shrinking m.
Proof. intros H s r E. apply H in E. lia. Qed.

Lemma lit_length p : forall s r,
  lit p s = Some r -> String.length s = String.length p + String.length r.
Proof.
  induction p as [|a p IH]; intros s r E; simpl in *.
  - now inversion E.
  - destruct s as [|b s]; [discriminate|].
    destruct (Ascii.eqb a b); [|discriminate].
    simpl. f_equal. now apply IH.
Qed.

Lemma lit_i_length p : forall s r,
  lit_i p s = Some r -> String.length s = String.length p + String.length r.
Proof.
  induction p as [|a p IH]; intros s r E; simpl in *.
  - now inversion E.
  - destruct s as [|b s]; [discriminate|].
    destruct (Ascii.eqb (lower a) (lower b)); [|discriminate].
    simpl. f_equal. now apply IH.
Qed.

Lemma lit_productive a p : productive (lit (String a p)).
Proof. intros s r E. apply lit_length in E. simpl in E. lia. Qed.

Lemma lit_i_productive a p : productive (lit_i (String a p)).
Proof. intros s r E. apply lit_i_length in E. simpl in E. lia. Qed.

Lemma lit_shrinking p : shrinking (lit p).
Proof. intros s r E. apply lit_length in E. lia. Qed.

Lemma alt_shrinking ps : shrinking (alt ps).
Proof.
  induction ps as [|p ps IH]; intros s r E; simpl in E; [discriminate|].
  destruct (lit p s) eqn:Ep.
  - inversion E; subst. now apply lit_shrinking in Ep.
  - now apply IH.
Qed.

Lemma span_length p : forall s,
  String.length (fst (span p s)) + String.length (snd (span p s))
  = String.length s.
Proof.
  induction s as [|c s IH]; simpl; [reflexivity|].
  destruct (p c); simpl; [|reflexivity].
  destruct (span p s); simpl in *. lia.
Qed.

Lemma div_close_twice_shrinking : shrinking div_close_twice.
Proof.
  intros s r E. unfold div_close_twice in E.
  destruct (lit "</div>" s) as [t|] eqn:E1; [|discriminate].
  apply lit_length in E1. apply lit_length in E.
  pose proof (span_length is_space t). lia.
Qed.

(** [find] splits the text: what precedes the match and what follows it
    are parts of the text. *)
Lemma find_rest_le m (Hm : shrinking m) : forall s pre rest,
  find m s = Some (pre, rest) -> String.length rest <= String.length s.
Proof.
  induction s as [|c s IH]; intros pre rest E; simpl in E.
  - destruct (m EmptyString) eqn:Em; [|discriminate].
    inversion E; subst. now apply Hm in Em.
  - destruct (m (String c s)) eqn:Em.
    + inversion E; subst. now apply Hm in Em.
    + destruct (find m s) as [[pre' rest']|] eqn:Ef; [|discriminate].
      inversion E; subst. specialize (IH _ _ eq_refl). simpl. lia.
Qed.

Lemma find_rest_lt m (Hm : productive m) : forall s pre rest,
  find m s = Some (pre, rest) -> String.length rest < String.length s.
Proof.
  induction s as [|c s IH]; intros pre rest E; simpl in E.
  - destruct (m EmptyString) eqn:Em; [|discriminate].
    inversion E; subst. now apply Hm in Em.
  - destruct (m (String c s)) eqn:Em.
    + inversion E; subst. now apply Hm in Em.
    + destruct (find m s) as [[pre' rest']|] eqn:Ef; [|discriminate].
      inversion E; subst. specialize (IH _ _ eq_refl). simpl. lia.
Qed.

Lemma find_empty m (Hm : productive m) : find m EmptyString = None.
Proof.
  simpl. destruct (m EmptyString) eqn:Em; [|reflexivity].
  apply Hm in Em. simpl in Em. lia.
Qed.

(** With a productive pattern, [count] never exhausts its fuel: any
    larger amount gives the same number. *)
Lemma count_fuel_enough m (Hm : productive m) : forall n k s,
  String.length s <= n -> String.length s <= k ->
  count_fuel n m s = count_fuel k m s.
Proof.
  induction n as [|n IH]; intros k s Hn Hk.
  - destruct s; [|simpl in Hn; lia].
    destruct k; [reflexivity|]. cbn [count_fuel].
    now rewrite (find_empty m Hm).
  - destruct k as [|k].
    + destruct s; [|simpl in Hk; lia].
      cbn [count_fuel]. now rewrite (find_empty m Hm).
    + cbn [count_fuel].
      destruct (find m s) as [[pre rest]|] eqn:E; [|reflexivity].
      apply (find_rest_lt m Hm) in E. f_equal. apply IH; lia.
Qed.

Lemma count_enough_fuel m (Hm : productive m) n s :
  String.length s <= n -> count_fuel n m s = count m s.
Proof. intros H. unfold count. now apply count_fuel_enough. Qed.

(** The same for [findall], when the opening pattern is productive. *)
Lemma findall_fuel_enough L R (HL : productive L) (HR : shrinking R) :
  forall n k s,
  String.length s <= n -> String.length s <= k ->
  findall_fuel n L R s = findall_fuel k L R s.
Proof.
  induction n as [|n IH]; intros k s Hn Hk.
  - destruct s; [|simpl in Hn; lia].
    destruct k; [reflexivity|]. cbn [findall_fuel].
    now rewrite (find_empty L HL).
  - destruct k as [|k].
    + destruct s; [|simpl in Hk; lia].
      cbn [findall_fuel]. now rewrite (find_empty L HL).
    + cbn [findall_fuel].
      destruct (find L s) as [[pre after]|] eqn:E; [|reflexivity].
      destruct (find R after) as [[body rest]|] eqn:E'; [|reflexivity].
      apply (find_rest_lt L HL) in E. apply (find_rest_le R HR) in E'.
      f_equal. apply IH; lia.
Qed.

Lemma findall_enough_fuel L R (HL : productive L) (HR : shrinking R) n s :
  String.length s <= n -> findall_fuel n L R s = findall L R s.
Proof. intros H. unfold findall. now apply findall_fuel_enough. Qed.

(** The same for [delete]. *)
Lemma delete_fuel_enough m (Hm : productive m) : forall n k s,
  String.length s <= n -> String.length s <= k ->
  delete_fuel n m s = delete_fuel k m s.
Proof.
  induction n as [|n IH]; intros k s Hn Hk.
  - destruct s; [|simpl in Hn; lia].
    destruct k; [reflexivity|]. cbn [delete_fuel].
    destruct (m EmptyString) eqn:Em; [|reflexivity].
    apply Hm in Em. simpl in Em. lia.
  - destruct k as [|k].
    + destruct s; [|simpl in Hk; lia].
      cbn [delete_fuel]. destruct (m EmptyString) eqn:Em; [|reflexivity].
      apply Hm in Em. simpl in Em. lia.
    + cbn [delete_fuel]. destruct (m s) as [rest|] eqn:Em.
      * apply Hm in Em. apply IH; lia.
      * destruct s as [|c s]; [reflexivity|].
        f_equal. apply IH; simpl in *; lia.
Qed.

Lemma tag_productive : productive tag.
Proof.
  intros s r E. unfold tag in E.
  destruct (lit "<" s) as [t|] eqn:E1; [|discriminate].
  destruct (find (lit ">") t) as [[inner rest]|] eqn:E2; [|discriminate].
  destruct (is_empty inner); [discriminate|]. inversion E; subst.
  apply lit_length in E1. apply (find_rest_le _ (lit_shrinking _)) in E2.
  simpl in E1. lia.
Qed.

(** [p in (pre + p)] *)
Lemma lit_self p : forall s, lit p (p ++ s)%string = Some s.
Proof.
  induction p as [|a p IH]; intros s; simpl; [reflexivity|].
  now rewrite Ascii.eqb_refl.
Qed.

Lemma find_after_prefix m s r (E : m s = Some r) : forall pre,
  exists x, find m (pre ++ s)%string = Some x.
Proof.
  induction pre as [|c pre [x IH]].
  - change (EmptyString ++ s)%string with s.
    destruct s; cbn [find]; rewrite E; eauto.
  - change (String c pre ++ s)%string with (String c (pre ++ s)%string).
    cbn [find]. destruct (m (String c (pre ++ s)%string)); [eauto|].
    rewrite IH. destruct x. eauto.
Qed.

Lemma contains_suffix e pre : contains e (pre ++ e)%string = true.
Proof.
  unfold contains.
  assert (E : lit e e = Some EmptyString).
  { pose proof (lit_self e EmptyString) as H.
    replace (e ++ EmptyString)%string with e in H; [exact H|].
    clear H. induction e; simpl; [reflexivity|now f_equal]. }
  destruct (find_after_prefix (lit e) e _ E pre) as [x ->]. reflexivity.
Qed.

End TextFacts.

(* ===================================================================== *)
(** ** Counting checks *)
(* ===================================================================== *)

Module CountFacts.

Import Text SummaryReport.

(** The guarded percentage never raises. *)
Lemma percentage_ok passed checks : exists q, percentage passed checks = Ok q.
Proof.
  unfold percentage, truediv.
  destruct checks as [|c]; simpl; eauto.
Qed.

Lemma percentage_value passed checks :
  0 < checks ->
  percentage passed checks
  = Ok (inject_Z (Z.of_nat passed) / inject_Z (Z.of_nat checks) * 100)%Q.
Proof.
  intros H. unfold percentage, truediv.
  destruct checks as [|c]; [lia|]. reflexivity.
Qed.

Lemma quotient_bounds (a b : nat) :
  a <= b -> 0 < b ->
  (0 <= inject_Z (Z.of_nat a) / inject_Z (Z.of_nat b) * 100 /\
   inject_Z (Z.of_nat a) / inject_Z (Z.of_nat b) * 100 <= 100)%Q.
Proof.
  intros Hab Hb. destruct b as [|b]; [lia|].
  unfold Qdiv, Qmult, Qinv, Qle, inject_Z.
  rewrite Nat2Z.inj_succ. unfold Z.succ.
  assert (Ha : (0 <= Z.of_nat a <= Z.of_nat b + 1)%Z) by lia.
  destruct (Z.of_nat b + 1)%Z as [|p|p] eqn:Ep; try lia.
  simpl Qnum. simpl Qden. split; nia.
Qed.

(** What [count_checks] returns, in one equation. *)
Lemma count_checks_eq content :
  count_checks content =
  let p := Nat.max (pass_tags content) (pass_divs content) in
  let f := Nat.max (fail_tags content) (fail_divs content) in
  let w := Nat.max (warn_tags content) (warn_divs content) in
  if p + f + w =? 0 then (1, 1, f, w) else (p + f + w, p, f, w).
Proof. reflexivity. Qed.

Lemma count_checks_total content t p f w :
  count_checks content = (t, p, f, w) -> t = p + f + w /\ 1 <= t.
Proof.
  rewrite count_checks_eq. cbv zeta.
  destruct (Nat.eqb_spec
              (Nat.max (pass_tags content) (pass_divs content)
               + Nat.max (fail_tags content) (fail_divs content)
               + Nat.max (warn_tags content) (warn_divs content)) 0)
    as [E|E]; intros H; inversion H; subst; lia.
Qed.

(** The counts of a record built from readable content are those of
    [count_checks]. *)
Lemma summary_record_counts content n :
  let r := extract_requirement_data (Ok content) n in
  count_checks content = (total_checks r, passed r, failed r, warnings r).
Proof.
  unfold extract_requirement_data, requirement_of_content. cbn [bind].
  destruct (count_checks content) as [[[t p] f] w].
  destruct (percentage_ok p t) as [q ->]. cbn [bind].
  destruct (requirement_status q). reflexivity.
Qed.

Lemma interactive_record_counts content n :
  let r := Interactive.extract_requirement_data (Ok content) n in
  count_checks content
  = (Interactive.total_checks r, Interactive.passed r,
     Interactive.failed r, Interactive.warnings r).
Proof.
  unfold Interactive.extract_requirement_data,
    Interactive.requirement_of_content, Interactive.count_checks.
  cbn [bind].
  destruct (count_checks content) as [[[t p] f] w].
  destruct (percentage_ok p t) as [q ->]. cbn [bind].
  destruct (Interactive.requirement_status q). reflexivity.
Qed.

Lemma summary_record_total file n :
  let r := extract_requirement_data file n in
  total_checks r = passed r + failed r + warnings r /\ 1 <= total_checks r.
Proof.
  destruct file as [content|e].
  - pose proof (summary_record_counts content n) as H. cbv zeta in *.
    now apply count_checks_total in H.
  - cbn. lia.
Qed.

Lemma interactive_record_total file n :
  let r := Interactive.extract_requirement_data file n in
  Interactive.total_checks r
  = Interactive.passed r + Interactive.failed r + Interactive.warnings r
  /\ 1 <= Interactive.total_checks r.
Proof.
  destruct file as [content|e].
  - pose proof (interactive_record_counts content n) as H. cbv zeta in *.
    now apply count_checks_total in H.
  - cbn. lia.
Qed.

(** [extract_stats] never reaches a division by zero. *)
Lemma extract_stats_eq content :
  let p := Nat.max (pass_tags content) (pass_divs content) in
  let f := Nat.max (fail_tags content) (fail_divs content) in
  let w := Nat.max (warn_tags content) (warn_divs content) in
  exists s,
    Clickable.extract_stats content = Ok s /\
    (Clickable.total_checks s, Clickable.passed s,
     Clickable.failed s, Clickable.warnings s)
    = (if p + f + w =? 0 then (1, 1, 0, 0) else (p + f + w, p, f, w)).
Proof.
  cbv zeta. unfold Clickable.extract_stats.
  destruct (Nat.max (pass_tags content) (pass_divs content)
            + Nat.max (fail_tags content) (fail_divs content)
            + Nat.max (warn_tags content) (warn_divs content))
    as [|t] eqn:E.
  - cbn [Nat.eqb]. eexists. split; reflexivity.
  - cbn [Nat.eqb truediv bind].
    match goal with
    | |- context [if Qle_bool 90 ?q then _ else _] =>
        destruct (Qle_bool 90 q); [|destruct (Qle_bool 70 q)]
    end; eexists; split; reflexivity.
Qed.

End CountFacts.

(* ===================================================================== *)
(** ** The loop of [main] *)
(* ===================================================================== *)

Module LoopFacts.

Import Text SummaryReport.

Lemma add_no_records stats : add_records stats [] = stats.
Proof.
  destruct stats. unfold add_records. cbn.
  rewrite !Nat.add_0_r, app_nil_r. reflexivity.
Qed.

Lemma add_records_app stats rs1 rs2 :
  add_records (add_records stats rs1) rs2 = add_records stats (rs1 ++ rs2).
Proof.
  unfold add_records. cbn.
  rewrite !map_app, !list_sum_app, flat_map_app, !Nat.add_assoc, app_assoc.
  reflexivity.
Qed.

Lemma req_num_extracted file n :
  req_num (extract_requirement_data file n) = n.
Proof.
  destruct file as [content|e]; [|reflexivity].
  unfold extract_requirement_data, requirement_of_content. cbn [bind].
  destruct (count_checks content) as [[[t p] f] w].
  destruct (CountFacts.percentage_ok p t) as [q ->]. cbn [bind].
  destruct (requirement_status q). reflexivity.
Qed.

(** One iteration adds the records of the file, and nothing else. *)
Lemma process_file_step reqs stats f :
  process_file (reqs, stats) f
  = (reqs ++ records_of f, add_records stats (records_of f)).
Proof.
  unfold process_file, records_of.
  destruct (extract_requirement_number (fst f)) as [n|].
  - f_equal. unfold add_records, entries_of. cbn.
    rewrite !Nat.add_0_r, app_nil_r, req_num_extracted. reflexivity.
  - now rewrite app_nil_r, add_no_records.
Qed.

Lemma fold_process_file files : forall reqs stats,
  fold_left process_file files (reqs, stats)
  = (reqs ++ flat_map records_of files,
     add_records stats (flat_map records_of files)).
Proof.
  induction files as [|f files IH]; intros reqs stats; cbn [fold_left flat_map].
  - now rewrite app_nil_r, add_no_records.
  - rewrite process_file_step, IH, <- app_assoc, add_records_app.
    reflexivity.
Qed.

(** The loop as a whole: the records of the files in input order, and
    their counts and critical findings added up from nothing. *)
Lemma process_files_eq files :
  process_files files
  = (flat_map records_of files,
     add_records no_stats (flat_map records_of files)).
Proof. unfold process_files. now rewrite fold_process_file. Qed.

Lemma sums_add_up rs :
  (forall r, In r rs ->
     total_checks r = passed r + failed r + warnings r /\ 1 <= total_checks r) ->
  list_sum (map total_checks rs)
  = list_sum (map passed rs) + list_sum (map failed rs)
    + list_sum (map warnings rs)
  /\ List.length rs <= list_sum (map total_checks rs).
Proof.
  induction rs as [|r rs IH]; intros H; [cbn; lia|].
  destruct (H r (or_introl eq_refl)) as [E1 E2].
  destruct IH as [IH1 IH2]; [intros; apply H; now right|].
  unfold list_sum in *. cbn [map fold_right List.length]. lia.
Qed.

Lemma records_of_total f r :
  In r (records_of f) ->
  total_checks r = passed r + failed r + warnings r /\ 1 <= total_checks r.
Proof.
  unfold records_of.
  destruct (extract_requirement_number (fst f)) as [n|]; [|intros []].
  intros [<-|[]]. apply CountFacts.summary_record_total.
Qed.

(** The same loop in [generate_interactive_summary.py]. *)
Lemma interactive_fold cap files : forall reqs stats,
  fst (fold_left (Interactive.process_file cap) files (reqs, stats))
  = reqs ++ flat_map Interactive.records_of files.
Proof.
  induction files as [|f files IH]; intros reqs stats; cbn [fold_left flat_map].
  - now rewrite app_nil_r.
  - assert (E : Interactive.process_file cap (reqs, stats) f
                = (reqs ++ Interactive.records_of f,
                   snd (Interactive.process_file cap (reqs, stats) f))).
    { unfold Interactive.process_file, Interactive.records_of.
      destruct (extract_requirement_number (fst f)) as [n|]; cbn [snd];
        [reflexivity | now rewrite app_nil_r]. }
    rewrite E, IH, <- app_assoc. reflexivity.
Qed.

Lemma interactive_records cap files :
  fst (Interactive.process_files cap files)
  = flat_map Interactive.records_of files.
Proof. unfold Interactive.process_files. now rewrite interactive_fold. Qed.

End LoopFacts.

(* ===================================================================== *)
(** ** The record built from readable content *)
(* ===================================================================== *)

Module RecordFacts.

Import Text.

Lemma summary_record content n t p f w :
  SummaryReport.count_checks content = (t, p, f, w) ->
  SummaryReport.extract_requirement_data (Ok content) n
  = let findings :=
      map (fun m => strip_tags (strip m)) (SummaryReport.fail_matches content) in
    {| SummaryReport.req_num := n;
       SummaryReport.title := SummaryReport.extract_title content n;
       SummaryReport.findings := findings;
       SummaryReport.critical_findings :=
         if 0 <? List.length findings then firstn 3 findings else [];
       SummaryReport.total_checks := t;
       SummaryReport.passed := p;
       SummaryReport.failed := f;
       SummaryReport.warnings := w;
       SummaryReport.compliance_pct := ratio p t;
       SummaryReport.status := fst (SummaryReport.requirement_status (ratio p t));
       SummaryReport.status_class :=
         snd (SummaryReport.requirement_status (ratio p t)) |}.
Proof.
  intros E. destruct (CountFacts.count_checks_total _ _ _ _ _ E) as [_ Ht].
  unfold SummaryReport.extract_requirement_data,
    SummaryReport.requirement_of_content.
  cbn [bind]. rewrite E, (CountFacts.percentage_value p t Ht). cbn [bind].
  fold (ratio p t). destruct (SummaryReport.requirement_status (ratio p t)).
  reflexivity.
Qed.

Lemma interactive_record content n t p f w :
  SummaryReport.count_checks content = (t, p, f, w) ->
  Interactive.extract_requirement_data (Ok content) n
  = let detailed := Interactive.extract_detailed_findings content in
    {| Interactive.req_num := n;
       Interactive.title := SummaryReport.extract_title content n;
       Interactive.findings := map Blocks.f_title detailed;
       Interactive.detailed_findings := detailed;
       Interactive.total_checks := t;
       Interactive.passed := p;
       Interactive.failed := f;
       Interactive.warnings := w;
       Interactive.compliance_pct := ratio p t;
       Interactive.status := fst (Interactive.requirement_status (ratio p t));
       Interactive.status_class :=
         snd (Interactive.requirement_status (ratio p t)) |}.
Proof.
  intros E. destruct (CountFacts.count_checks_total _ _ _ _ _ E) as [_ Ht].
  unfold Interactive.extract_requirement_data,
    Interactive.requirement_of_content, Interactive.count_checks.
  cbn [bind]. rewrite E, (CountFacts.percentage_value p t Ht). cbn [bind].
  fold (ratio p t). destruct (Interactive.requirement_status (ratio p t)).
  reflexivity.
Qed.

(** Reading never fails after the fact: once the content is there,
    the body of the [try] block returns. *)
Lemma summary_body_returns content n :
  exists r, SummaryReport.requirement_of_content content n = Ok r.
Proof.
  unfold SummaryReport.requirement_of_content.
  destruct (SummaryReport.count_checks content) as [[[t p] f] w].
  destruct (CountFacts.percentage_ok p t) as [q ->]. cbn [bind].
  destruct (SummaryReport.requirement_status q). eauto.
Qed.

Lemma interactive_body_returns content n :
  exists r, Interactive.requirement_of_content content n = Ok r.
Proof.
  unfold Interactive.requirement_of_content.
  destruct (Interactive.count_checks content) as [[[t p] f] w].
  destruct (CountFacts.percentage_ok p t) as [q ->]. cbn [bind].
  destruct (Interactive.requirement_status q). eauto.
Qed.

End RecordFacts.

(* ===================================================================== *)
(** ** Statistics Counter: the claims *)
(* ===================================================================== *)

Module Statistics.

Import Text SummaryReport.

(** C1, as stated, fails for the overall aggregate: a folder whose
    reports carry no requirement number passes the emptiness test of
    [main], contributes no record, and is summarised with a total of
    zero checks. *)
Lemma aggregate_without_records :
  exists s,
    main Samples.unnumbered_only = Ok s /\
    o_total_checks (shown_stats s) = 0 /\
    ~ 1 <= o_total_checks (shown_stats s).
Proof.
  eexists. split; [reflexivity|]. cbn. split; [reflexivity|lia].
Qed.

(** C1 (amended).  Every record, whether built from readable content
    (floor included) or by the error handler, has
    [total_checks = passed + failed + warnings] and [total_checks >= 1];
    so have the statistics of [card_report_with_clickable.py].  The
    overall aggregate is the sum of the per-record counts, satisfies the
    same equation, and its total is at least the number of records:
    at least 1 as soon as one document resolved. *)
Theorem counts_add_up :
  (forall file n,
      let r := extract_requirement_data file n in
      total_checks r = passed r + failed r + warnings r /\
      1 <= total_checks r) /\
  (forall file n,
      let r := Interactive.extract_requirement_data file n in
      Interactive.total_checks r
      = Interactive.passed r + Interactive.failed r + Interactive.warnings r /\
      1 <= Interactive.total_checks r) /\
  (forall content,
      exists s,
        Clickable.extract_stats content = Ok s /\
        Clickable.total_checks s
        = Clickable.passed s + Clickable.failed s + Clickable.warnings s /\
        1 <= Clickable.total_checks s) /\
  (forall files,
      let reqs := fst (process_files files) in
      let stats := snd (process_files files) in
      o_total_checks stats = list_sum (map total_checks reqs) /\
      o_passed stats = list_sum (map passed reqs) /\
      o_failed stats = list_sum (map failed reqs) /\
      o_warnings stats = list_sum (map warnings reqs) /\
      o_total_checks stats
      = o_passed stats + o_failed stats + o_warnings stats /\
      List.length reqs <= o_total_checks stats).
Proof.
  split; [exact CountFacts.summary_record_total|].
  split; [exact CountFacts.interactive_record_total|].
  split.
  - intros content.
    destruct (CountFacts.extract_stats_eq content) as (s & Es & Ec).
    exists s. split; [exact Es|]. cbv zeta in Ec.
    destruct (_ =? 0) eqn:E0 in Ec; inversion Ec as [[E1 E2 E3 E4]].
    + lia.
    + apply Nat.eqb_neq in E0. lia.
  - intros files. cbv zeta. rewrite LoopFacts.process_files_eq.
    cbn [fst snd add_records no_stats o_total_checks o_passed o_failed
         o_warnings Nat.add].
    destruct (LoopFacts.sums_add_up (flat_map records_of files)) as [E1 E2].
    { intros r Hr. apply in_flat_map in Hr as (f & _ & Hr).
      now apply LoopFacts.records_of_total in Hr. }
    repeat split; try reflexivity; assumption.
Qed.

(** C2, as stated, fails for the passed count of a document without
    markers: both strategies count zero, and the floor reports one. *)
Lemma floor_overrides_maximum :
  count_checks Samples.no_markers = (1, 1, 0, 0) /\
  Nat.max (pass_tags Samples.no_markers) (pass_divs Samples.no_markers) = 0 /\
  snd (fst (fst (count_checks Samples.no_markers)))
  <> Nat.max (pass_tags Samples.no_markers) (pass_divs Samples.no_markers).
Proof. repeat split. vm_compute. discriminate. Qed.

(** C2 (amended).  The failed and warning counts are always the
    maximum of the bracketed-tag count and the container-class count;
    the passed count is that maximum whenever some marker is found, and
    1 when none is (the floor).  A maximum is never the sum when both
    strategies find something, and 3 tags with 5 containers give 5.
    [extract_stats] of [card_report_with_clickable.py] agrees. *)
Theorem reconciled_by_maximum (content : string) (t p f w : nat) :
  count_checks content = (t, p, f, w) ->
  let pm := Nat.max (pass_tags content) (pass_divs content) in
  let fm := Nat.max (fail_tags content) (fail_divs content) in
  let wm := Nat.max (warn_tags content) (warn_divs content) in
  f = fm /\ w = wm /\
  (0 < pm + fm + wm -> p = pm) /\
  (pm + fm + wm = 0 -> p = 1) /\
  (0 < fail_tags content -> 0 < fail_divs content ->
   f < fail_tags content + fail_divs content) /\
  (fail_tags content = 3 -> fail_divs content = 5 -> f = 5) /\
  (exists s,
      Clickable.extract_stats content = Ok s /\
      Clickable.passed s = p /\ Clickable.failed s = f /\
      Clickable.warnings s = w /\ Clickable.total_checks s = t).
Proof.
  intros E. cbv zeta.
  destruct (CountFacts.extract_stats_eq content) as (s & Es & Ec).
  rewrite CountFacts.count_checks_eq in E. cbv zeta in E, Ec.
  destruct (_ =? 0) eqn:E0 in E; rewrite E0 in Ec;
    inversion E; inversion Ec; subst;
    [apply Nat.eqb_eq in E0 | apply Nat.eqb_neq in E0];
    (repeat split; try lia; exists s; repeat split; try assumption; lia).
Qed.

Lemma reconciled_by_maximum_witness :
  count_checks Samples.three_tags_five_divs = (5, 0, 5, 0) /\
  fail_tags Samples.three_tags_five_divs = 3 /\
  fail_divs Samples.three_tags_five_divs = 5 /\
  5 = Nat.max (fail_tags Samples.three_tags_five_divs)
              (fail_divs Samples.three_tags_five_divs).
Proof.
  split; [reflexivity|]. split; [reflexivity|]. split; [reflexivity|].
  exact (proj1 (reconciled_by_maximum
                  Samples.three_tags_five_divs 5 0 5 0 eq_refl)).
Defined.

(** C3.  When neither strategy finds a pass, fail or warn marker, the
    record has one check, passed, nothing failed or warned, a compliance
    of 100 and the status Compliant; in every generator. *)
Theorem zero_check_floor (content n : string) :
  pass_tags content = 0 -> fail_tags content = 0 -> warn_tags content = 0 ->
  pass_divs content = 0 -> fail_divs content = 0 -> warn_divs content = 0 ->
  (let r := extract_requirement_data (Ok content) n in
   total_checks r = 1 /\ passed r = 1 /\ failed r = 0 /\ warnings r = 0 /\
   compliance_pct r = 100%Q /\
   status r = "Compliant" /\ status_class r = "compliant") /\
  (let r := Interactive.extract_requirement_data (Ok content) n in
   Interactive.total_checks r = 1 /\ Interactive.passed r = 1 /\
   Interactive.failed r = 0 /\ Interactive.warnings r = 0 /\
   Interactive.compliance_pct r = 100%Q /\
   Interactive.status r = "Compliant" /\
   Interactive.status_class r = "compliant") /\
  Clickable.extract_stats content
  = Ok {| Clickable.compliance_pct := 100%Q;
          Clickable.status := "Compliant";
          Clickable.status_class := "compliant";
          Clickable.total_checks := 1;
          Clickable.passed := 1;
          Clickable.failed := 0;
          Clickable.warnings := 0 |}.
Proof.
  intros P1 F1 W1 P2 F2 W2.
  assert (E : count_checks content = (1, 1, 0, 0)).
  { rewrite CountFacts.count_checks_eq, P1, F1, W1, P2, F2, W2.
    reflexivity. }
  split; [|split].
  - rewrite (RecordFacts.summary_record _ n _ _ _ _ E).
    repeat split; reflexivity.
  - rewrite (RecordFacts.interactive_record _ n _ _ _ _ E).
    repeat split; reflexivity.
  - unfold Clickable.extract_stats. rewrite P1, F1, W1, P2, F2, W2.
    reflexivity.
Qed.

Lemma zero_check_floor_witness :
  status (extract_requirement_data (Ok Samples.no_markers) "12") = "Compliant"
  /\ total_checks (extract_requirement_data (Ok Samples.no_markers) "12") = 1
  /\ passed (extract_requirement_data (Ok Samples.no_markers) "12") = 1.
Proof.
  destruct (zero_check_floor Samples.no_markers "12"
              eq_refl eq_refl eq_refl eq_refl eq_refl eq_refl)
    as [(Ht & Hp & _ & _ & _ & Hs & _) _].
  exact (conj Hs (conj Ht Hp)).
Defined.

(** C10.  For every content, [count_checks] returns a total of at least
    1, so the test [checks > 0] succeeds, the division does not raise,
    and the percentage is the quotient itself, not the 0 of the other
    branch; no category count exceeds the total, and the percentage
    lies between 0 and 100. *)
Theorem percentage_is_safe (content n : string) :
  let r := extract_requirement_data (Ok content) n in
  count_checks content = (total_checks r, passed r, failed r, warnings r) /\
  1 <= total_checks r /\
  (0 <? total_checks r) = true /\
  truediv (passed r) (total_checks r)
  = Ok (inject_Z (Z.of_nat (passed r))
        / inject_Z (Z.of_nat (total_checks r)))%Q /\
  percentage (passed r) (total_checks r) = Ok (compliance_pct r) /\
  compliance_pct r = ratio (passed r) (total_checks r) /\
  passed r <= total_checks r /\
  failed r <= total_checks r /\
  warnings r <= total_checks r /\
  (0 <= compliance_pct r)%Q /\ (compliance_pct r <= 100)%Q.
Proof.
  cbv zeta.
  destruct (count_checks content) as [[[t p] f] w] eqn:E.
  rewrite (RecordFacts.summary_record _ n _ _ _ _ E).
  cbn [total_checks passed failed warnings compliance_pct].
  destruct (CountFacts.count_checks_total _ _ _ _ _ E) as [Es Ht].
  assert (Hp : p <= t) by lia.
  destruct (CountFacts.quotient_bounds p t Hp Ht) as [Q0 Q100].
  repeat split; try lia; try assumption.
  - now apply Nat.ltb_lt.
  - unfold truediv. destruct t; [lia|reflexivity].
  - now apply CountFacts.percentage_value.
Qed.

End Statistics.

(* ===================================================================== *)
(** ** Status Classifier: the claims *)
(* ===================================================================== *)

Module Classifier.

Import Text SummaryReport.




Lemma one_of_three (p : Q) :
  In (fst (requirement_status p))
     ["Compliant"; "Partially Compliant"; "Non-Compliant"].
Proof.
  unfold requirement_status.
  destruct (Qle_bool 90 p); [|destruct (Qle_bool 70 p)]; cbn; auto.
Qed.



(** C7, as stated, fails for the record of the error handler, whose
    status is none of the three: it is Unknown. *)
Lemma error_record_is_unknown :
  status (extract_requirement_data (Raise "invalid start byte") "2")
  = "Unknown" /\
  ~ In (status (extract_requirement_data (Raise "invalid start byte") "2"))
       ["Compliant"; "Partially Compliant"; "Non-Compliant"].
Proof.
  split; [reflexivity|]. cbn. intros [H|[H|[H|[]]]]; discriminate.
Qed.

(** C7 (amended).  A record built from readable content has one of the
    three statuses, the one that the thresholds give to its compliance
    percentage.  The record of the error handler has the status Unknown;
    its status class is non-compliant, which is the class that the
    thresholds give to its percentage of 0. *)
Theorem status_of_every_record (file : result string) (n : string) :
  (let r := extract_requirement_data file n in
   match file with
   | Ok _ =>
       In (status r) ["Compliant"; "Partially Compliant"; "Non-Compliant"] /\
       (status r, status_class r) = requirement_status (compliance_pct r)
   | Raise _ =>
       status r = "Unknown" /\ status_class r = "non-compliant" /\
       status_class r = snd (requirement_status (compliance_pct r))
   end) /\
  (let r := Interactive.extract_requirement_data file n in
   match file with
   | Ok _ =>
       In (Interactive.status r)
          ["Compliant"; "Partially Compliant"; "Non-Compliant"] /\
       (Interactive.status r, Interactive.status_class r)
       = requirement_status (Interactive.compliance_pct r)
   | Raise _ =>
       Interactive.status r = "Unknown" /\
       Interactive.status_class r = "non-compliant" /\
       Interactive.status_class r
       = snd (requirement_status (Interactive.compliance_pct r))
   end).
Proof.
  destruct file as [content|e]; cbv zeta.
  - destruct (count_checks content) as [[[t c] f] w] eqn:E.
    rewrite (RecordFacts.summary_record _ n _ _ _ _ E),
      (RecordFacts.interactive_record _ n _ _ _ _ E).
    cbn [status status_class compliance_pct Interactive.status
         Interactive.status_class Interactive.compliance_pct].
    change (Interactive.requirement_status (ratio c t))
      with (requirement_status (ratio c t)).
    pose proof (one_of_three (ratio c t)).
    destruct (requirement_status (ratio c t)). auto.
  - repeat split; reflexivity.
Qed.

End Classifier.

(* ===================================================================== *)
(** ** [sorted]: ordered, a permutation, stable *)
(* ===================================================================== *)

Section SortedFacts.

Context {A : Type}.
Variable key : A -> N.

Lemma insert_by_perm x l : Permutation (x :: l) (insert_by key x l).
Proof.
  induction l as [|y l IH]; cbn; [reflexivity|].
  destruct (key x <=? key y)%N; [reflexivity|].
  rewrite perm_swap. now constructor.
Qed.

Lemma sorted_by_perm l : Permutation l (sorted_by key l).
Proof.
  induction l as [|x l IH]; cbn; [constructor|].
  rewrite <- insert_by_perm. now constructor.
Qed.

Lemma insert_by_hd x y l :
  (key_le key) y x -> HdRel (key_le key) y l -> HdRel (key_le key) y (insert_by key x l).
Proof.
  intros Hyx Hl. destruct l as [|z l]; cbn; [now constructor|].
  destruct (key x <=? key z)%N; constructor; [assumption|].
  now inversion Hl.
Qed.

Lemma insert_by_sorted x l :
  Sorted (key_le key) l -> Sorted (key_le key) (insert_by key x l).
Proof.
  induction 1 as [|y l Hs IH Hd]; cbn; [repeat constructor|].
  destruct (N.leb_spec (key x) (key y)) as [Hle|Hlt].
  - constructor; [now constructor|]. now constructor.
  - constructor; [exact IH|].
    apply insert_by_hd; [|exact Hd]. unfold key_le. lia.
Qed.

Lemma sorted_by_sorted l : Sorted (key_le key) (sorted_by key l).
Proof.
  induction l as [|x l IH]; cbn; [constructor|].
  now apply insert_by_sorted.
Qed.

(** Stability: the elements of any one key come out in the order in
    which they went in. *)
Lemma insert_by_stable k x l :
  filter (fun a => (key a =? k)%N) (insert_by key x l)
  = filter (fun a => (key a =? k)%N) (x :: l).
Proof.
  induction l as [|y l IH]; [reflexivity|].
  cbn [insert_by].
  destruct (N.leb_spec (key x) (key y)) as [Hle|Hlt]; [reflexivity|].
  cbn [filter] in *. rewrite IH.
  destruct (N.eqb_spec (key x) k) as [Ex|Ex];
    destruct (N.eqb_spec (key y) k) as [Ey|Ey]; try reflexivity.
  lia.
Qed.

Lemma sorted_by_stable k l :
  filter (fun a => (key a =? k)%N) (sorted_by key l)
  = filter (fun a => (key a =? k)%N) l.
Proof.
  induction l as [|x l IH]; [reflexivity|].
  cbn [sorted_by]. rewrite insert_by_stable. cbn [filter]. now rewrite IH.
Qed.

Lemma firstn_sorted n l : Sorted (key_le key) l -> Sorted (key_le key) (firstn n l).
Proof.
  intros H. revert n.
  induction H as [|y l Hs IH Hd]; intros [|n]; cbn; try constructor.
  - apply IH.
  - destruct Hd; destruct n; cbn; constructor. assumption.
Qed.

(** Elements that share one key keep their places. *)
Lemma sorted_by_same_key k l :
  Forall (fun x => key x = k) l -> sorted_by key l = l.
Proof.
  induction 1 as [|x l Hx Hl IH]; cbn [sorted_by]; [reflexivity|].
  rewrite IH. destruct Hl as [|y l Hy Hl]; cbn [insert_by]; [reflexivity|].
  rewrite Hx, Hy, N.leb_refl. reflexivity.
Qed.

End SortedFacts.

(* ===================================================================== *)
(** ** Error handling: the claim *)
(* ===================================================================== *)

Module Errors.

Import Text.

(** C6.  A report whose name resolves to a requirement number
    contributes exactly one record, at its place in the input order and
    whatever the reports before and after it are, also when it cannot
    be read.  In that case the record is the synthetic one: a single
    finding titled Error processing report whose details contain the
    error message, one check, failed.  The loop of
    [generate_summary_report.py] behaves the same with its own
    synthetic record. *)
Theorem one_record_per_document
        (cap : nat) (before after : list SummaryReport.report_file)
        (name n : string) (file : result string) :
  SummaryReport.extract_requirement_number name = Some n ->
  fst (Interactive.process_files cap (before ++ (name, file) :: after))
  = fst (Interactive.process_files cap before)
    ++ Interactive.extract_requirement_data file n
    :: fst (Interactive.process_files cap after) /\
  fst (SummaryReport.process_files (before ++ (name, file) :: after))
  = fst (SummaryReport.process_files before)
    ++ SummaryReport.extract_requirement_data file n
    :: fst (SummaryReport.process_files after) /\
  (forall e,
      file = Raise e ->
      let r := Interactive.extract_requirement_data file n in
      Interactive.req_num r = n /\
      (exists d,
          Interactive.detailed_findings r = [d] /\
          Blocks.f_title d = "Error processing report" /\
          contains e (Blocks.f_details d) = true) /\
      Interactive.total_checks r = 1 /\ Interactive.failed r = 1 /\
      Interactive.passed r = 0 /\ Interactive.warnings r = 0) /\
  (forall e,
      file = Raise e ->
      let r := SummaryReport.extract_requirement_data file n in
      SummaryReport.req_num r = n /\
      SummaryReport.findings r = ["Error processing report"] /\
      SummaryReport.total_checks r = 1 /\ SummaryReport.failed r = 1 /\
      SummaryReport.passed r = 0 /\ SummaryReport.warnings r = 0).
Proof.
  intros Hn.
  assert (Ei : Interactive.records_of (name, file)
               = [Interactive.extract_requirement_data file n]).
  { unfold Interactive.records_of. cbn [fst snd]. now rewrite Hn. }
  assert (Es : SummaryReport.records_of (name, file)
               = [SummaryReport.extract_requirement_data file n]).
  { unfold SummaryReport.records_of. cbn [fst snd]. now rewrite Hn. }
  split; [|split; [|split]].
  - rewrite !LoopFacts.interactive_records, flat_map_app.
    cbn [flat_map]. now rewrite Ei.
  - rewrite !LoopFacts.process_files_eq. cbn [fst].
    rewrite flat_map_app. cbn [flat_map]. now rewrite Es.
  - intros e ->. cbv zeta. cbn. split; [reflexivity|].
    split; [|repeat split].
    eexists. split; [reflexivity|]. split; [reflexivity|].
    cbn [Blocks.f_details Interactive.error_finding].
    apply TextFacts.contains_suffix.
  - intros e ->. cbv zeta. cbn. repeat split.
Qed.

Lemma one_record_per_document_witness :
  map Interactive.req_num
      (fst (Interactive.process_files 5 Samples.one_unreadable))
  = ["1"; "2"; "10"] /\
  map Interactive.status
      (fst (Interactive.process_files 5 Samples.one_unreadable))
  = ["Non-Compliant"; "Unknown"; "Compliant"].
Proof.
  pose proof (one_record_per_document
                5 [("pci_req1_report.html", Ok Samples.one_marker)]
                [("notes.html", Ok "[PASS]");
                 ("pci_req10_report.html", Ok "[PASS] [PASS]")]
                "pci_req2_report.html" "2" (Raise "invalid start byte")
                eq_refl) as [E _].
  change (fst (Interactive.process_files 5 Samples.one_unreadable)
          = fst (Interactive.process_files
                   5 [("pci_req1_report.html", Ok Samples.one_marker)])
            ++ Interactive.extract_requirement_data
                 (Raise "invalid start byte") "2"
            :: fst (Interactive.process_files
                      5 [("notes.html", Ok "[PASS]");
                         ("pci_req10_report.html", Ok "[PASS] [PASS]")]))
    in E.
  rewrite E. split; reflexivity.
Defined.

End Errors.

(* ===================================================================== *)
(** ** Aggregator: the claims *)
(* ===================================================================== *)

Module Aggregator.

Import Text SummaryReport.

Lemma critical_prefix file n :
  let r := extract_requirement_data file n in
  critical_findings r = firstn 3 (findings r).
Proof.
  destruct file as [content|e]; [|reflexivity]. cbv zeta.
  destruct (count_checks content) as [[[t p] f] w] eqn:E.
  rewrite (RecordFacts.summary_record _ n _ _ _ _ E).
  cbv zeta. cbn [critical_findings findings].
  destruct (map _ (fail_matches content)); reflexivity.
Qed.

Lemma top_ten (l : list critical_finding) :
  (if 10 <? List.length l then firstn 10 l else l) = firstn 10 l.
Proof.
  destruct (Nat.ltb_spec 10 (List.length l)) as [H|H]; [reflexivity|].
  symmetry. now apply firstn_all2.
Qed.

(** The loop of [main] on a folder that holds one numbered report. *)
Lemma single_report name file n :
  extract_requirement_number name = Some n ->
  process_files [(name, file)]
  = ([extract_requirement_data file n],
     add_records no_stats [extract_requirement_data file n]).
Proof.
  intros E. rewrite LoopFacts.process_files_eq.
  cbn [flat_map]. unfold records_of. cbn [fst snd]. rewrite E.
  reflexivity.
Qed.

Lemma entries_tagged file n :
  entries_of (extract_requirement_data file n)
  = map (fun x => {| req := n; finding := x |})
        (firstn 3 (findings (extract_requirement_data file n))).
Proof.
  unfold entries_of. now rewrite LoopFacts.req_num_extracted, critical_prefix.
Qed.

Lemma critical_of_files files :
  o_critical_findings (snd (process_files files))
  = flat_map (fun f => flat_map entries_of (records_of f)) files.
Proof.
  rewrite LoopFacts.process_files_eq. cbn [snd add_records o_critical_findings
                                             no_stats app].
  induction files as [|f files IH]; cbn [flat_map]; [reflexivity|].
  now rewrite flat_map_app, IH.
Qed.

(** C8.  A record's critical findings are the first three of its
    findings, in extraction order.  The loop of [main] turns them, report
    after report in the order of the files, into entries tagged with the
    requirement number: a report with eight findings contributes exactly
    three entries, whatever stands before and after it in the folder, and
    run on that report alone [main] shows exactly these three.  The page
    shows the first ten entries of the list sorted by requirement
    number. *)
Theorem critical_findings_capped (file : result string) (n : string) :
  let r := extract_requirement_data file n in
  let tagged :=
    map (fun x => {| req := n; finding := x |}) (firstn 3 (findings r)) in
  critical_findings r = firstn 3 (findings r) /\
  entries_of r = tagged /\
  List.length (entries_of r) = Nat.min 3 (List.length (findings r)) /\
  (List.length (findings r) = 8 ->
   List.length (entries_of r) = 3 /\
   Forall (fun c => req c = n) (entries_of r) /\
   map finding (entries_of r) = firstn 3 (findings r)) /\
  (forall files,
      fst (process_files files) = flat_map records_of files /\
      o_critical_findings (snd (process_files files))
      = flat_map (fun f => flat_map entries_of (records_of f)) files) /\
  (forall before name after,
      extract_requirement_number name = Some n ->
      o_critical_findings
        (snd (process_files (before ++ (name, file) :: after)))
      = o_critical_findings (snd (process_files before))
        ++ tagged ++ o_critical_findings (snd (process_files after))) /\
  (forall name,
      extract_requirement_number name = Some n ->
      exists s,
        main [(name, file)] = Ok s /\
        req_rows s = [r] /\
        o_critical_findings (shown_stats s) = tagged /\
        top_findings s = tagged /\
        (List.length (findings r) = 8 ->
         List.length (top_findings s) = 3 /\
         Forall (fun c => req c = n) (top_findings s) /\
         map finding (top_findings s) = firstn 3 (findings r))) /\
  (forall files,
      files <> [] ->
      exists s,
        main files = Ok s /\
        top_findings s
        = firstn 10
            (sorted_by finding_key
               (flat_map (fun f => flat_map entries_of (records_of f)) files)) /\
        List.length (top_findings s) <= 10) /\
  (forall reqs stats,
      exists s,
        generate_summary_html reqs stats = Ok s /\
        top_findings s
        = firstn 10 (sorted_by finding_key (o_critical_findings stats)) /\
        List.length (top_findings s) <= 10).
Proof.
  cbv zeta.
  pose proof (entries_tagged file n) as E.
  assert (H8 : List.length (findings (extract_requirement_data file n)) = 8 ->
               forall l,
                 l = map (fun x => {| req := n; finding := x |})
                         (firstn 3 (findings (extract_requirement_data file n))) ->
                 List.length l = 3 /\
                 Forall (fun c => req c = n) l /\
                 map finding l
                 = firstn 3 (findings (extract_requirement_data file n))).
  { intros H l ->. split; [|split].
    - rewrite length_map, length_firstn, H. reflexivity.
    - apply Forall_forall. intros c Hc.
      apply in_map_iff in Hc as (x & <- & _). reflexivity.
    - rewrite map_map. cbn [finding]. apply map_id. }
  split; [apply critical_prefix|]. split; [exact E|].
  split; [now rewrite E, length_map, length_firstn|].
  split; [intros H; exact (H8 H _ E)|].
  split; [|split; [|split; [|split]]].
  - intros files. split; [|apply critical_of_files].
    now rewrite LoopFacts.process_files_eq.
  - intros before name after Hn. rewrite !critical_of_files.
    rewrite flat_map_app. cbn [flat_map].
    unfold records_of at 2. cbn [fst snd]. rewrite Hn.
    cbn [flat_map]. rewrite app_nil_r, E. reflexivity.
  - intros name Hn. unfold main.
    rewrite (single_report name file n Hn).
    unfold generate_summary_html.
    destruct (CountFacts.percentage_ok
                (o_passed (add_records no_stats
                                       [extract_requirement_data file n]))
                (o_total_checks (add_records no_stats
                                             [extract_requirement_data file n])))
      as [q ->].
    cbn [bind]. eexists. split; [reflexivity|].
    cbn [req_rows shown_stats top_findings sorted_by insert_by].
    rewrite top_ten.
    assert (Ec : o_critical_findings
                   (add_records no_stats [extract_requirement_data file n])
                 = map (fun x => {| req := n; finding := x |})
                       (firstn 3 (findings (extract_requirement_data file n)))).
    { cbn [add_records o_critical_findings no_stats app flat_map].
      now rewrite app_nil_r. }
    rewrite Ec.
    assert (Et : firstn 10
                   (sorted_by finding_key
                      (map (fun x => {| req := n; finding := x |})
                           (firstn 3 (findings
                                        (extract_requirement_data file n)))))
                 = map (fun x => {| req := n; finding := x |})
                       (firstn 3 (findings (extract_requirement_data file n)))).
    { rewrite (sorted_by_same_key finding_key (int n)).
      - apply firstn_all2. rewrite length_map, length_firstn. lia.
      - apply Forall_forall. intros c Hc.
        apply in_map_iff in Hc as (x & <- & _). reflexivity. }
    rewrite Et. split; [reflexivity|]. split; [reflexivity|].
    split; [reflexivity|]. intros H. now apply (H8 H).
  - intros files Hf. unfold main.
    destruct files as [|f files]; [congruence|].
    destruct (process_files (f :: files)) as [reqs stats] eqn:Ep.
    pose proof (critical_of_files (f :: files)) as Hc.
    rewrite Ep in Hc. cbn [snd] in Hc.
    unfold generate_summary_html.
    destruct (CountFacts.percentage_ok (o_passed stats)
                                       (o_total_checks stats)) as [q ->].
    cbn [bind]. eexists. split; [reflexivity|].
    cbn [top_findings]. rewrite top_ten, Hc. split; [reflexivity|].
    rewrite length_firstn. lia.
  - intros reqs stats. unfold generate_summary_html.
    destruct (CountFacts.percentage_ok (o_passed stats)
                                       (o_total_checks stats)) as [q ->].
    cbn [bind]. eexists. split; [reflexivity|].
    cbn [top_findings]. rewrite top_ten. split; [reflexivity|].
    rewrite length_firstn. lia.
Qed.

Lemma critical_findings_capped_witness :
  exists s,
    main [("pci_req4_report.html", Ok Samples.eight_markers)] = Ok s /\
    top_findings s
    = [ {| req := "4"; finding := "a" |};
        {| req := "4"; finding := "b" |};
        {| req := "4"; finding := "c" |} ] /\
    List.length (findings (extract_requirement_data
                             (Ok Samples.eight_markers) "4")) = 8 /\
    List.length (top_findings s) = 3.
Proof.
  destruct (critical_findings_capped (Ok Samples.eight_markers) "4")
    as (_ & _ & _ & _ & _ & _ & H & _).
  destruct (H "pci_req4_report.html" eq_refl) as (s & Hs & _ & _ & Ht & Hl).
  exists s. split; [exact Hs|]. split; [rewrite Ht; reflexivity|].
  split; [reflexivity|]. exact (proj1 (Hl eq_refl)).
Defined.

(** C9.  The rows of the page are the records sorted by the integer
    value of their requirement number, ascending: a permutation of the
    records, in which 2, 10 and 9 come out as 2, 9, 10 although the
    string 10 is lexically smaller than the string 9.  The critical
    findings are sorted by the same key before the first ten are
    shown. *)
Theorem presented_in_numeric_order
        (reqs : list requirement) (stats : overall_stats) :
  (exists s,
      generate_summary_html reqs stats = Ok s /\
      req_rows s = sorted_by requirement_key reqs /\
      Sorted (fun a b => (int (req_num a) <= int (req_num b))%N) (req_rows s) /\
      Permutation reqs (req_rows s) /\
      (forall k, filter (fun r => (int (req_num r) =? k)%N) (req_rows s)
                 = filter (fun r => (int (req_num r) =? k)%N) reqs) /\
      Sorted (fun a b => (int (req a) <= int (req b))%N)
             (sorted_by finding_key (o_critical_findings stats)) /\
      Permutation (o_critical_findings stats)
                  (sorted_by finding_key (o_critical_findings stats)) /\
      top_findings s
      = firstn 10 (sorted_by finding_key (o_critical_findings stats)) /\
      Sorted (fun a b => (int (req a) <= int (req b))%N) (top_findings s)) /\
  (forall f2 f10 f9,
      map req_num
          (sorted_by requirement_key
                     [extract_requirement_data f2 "2";
                      extract_requirement_data f10 "10";
                      extract_requirement_data f9 "9"])
      = ["2"; "9"; "10"]) /\
  String.compare "10" "9" = Lt /\ (int "9" < int "10")%N.
Proof.
  split; [|split; [|split; reflexivity]].
  - unfold generate_summary_html.
    destruct (CountFacts.percentage_ok (o_passed stats)
                                       (o_total_checks stats)) as [q ->].
    cbn [bind]. eexists. split; [reflexivity|].
    cbn [req_rows top_findings]. rewrite Aggregator.top_ten.
    split; [reflexivity|].
    split; [apply (sorted_by_sorted requirement_key)|].
    split; [apply sorted_by_perm|].
    split; [intros k; apply (sorted_by_stable requirement_key)|].
    split; [apply (sorted_by_sorted finding_key)|].
    split; [apply sorted_by_perm|].
    split; [reflexivity|].
    apply (firstn_sorted finding_key), sorted_by_sorted.
  - intros f2 f10 f9. cbn [sorted_by insert_by].
    unfold requirement_key. rewrite !LoopFacts.req_num_extracted.
    change (int "10" <=? int "9")%N with false.
    cbn [insert_by]. rewrite !LoopFacts.req_num_extracted.
    change (int "2" <=? int "9")%N with true.
    cbn [map]. now rewrite !LoopFacts.req_num_extracted.
Qed.

End Aggregator.

(* ===================================================================== *)
(** ** How the scans unfold *)
(* ===================================================================== *)

Module ScanFacts.

Import Text Shape TextFacts.

(** [count] and [findall] depend on the text through [find] only. *)
Lemma count_unfold m (Hm : productive m) s :
  count m s
  = match find m s with
    | None => 0
    | Some (_, rest) => S (count m rest)
    end.
Proof.
  unfold count at 1. destruct s as [|c s].
  - cbn [String.length count_fuel]. now rewrite (find_empty m Hm).
  - cbn [String.length count_fuel].
    destruct (find m (String c s)) as [[pre rest]|] eqn:E; [|reflexivity].
    apply (find_rest_lt m Hm) in E. cbn [String.length] in E.
    f_equal. apply count_enough_fuel; [exact Hm|lia].
Qed.

Lemma findall_unfold L R (HL : productive L) (HR : shrinking R) s :
  findall L R s
  = match find L s with
    | None => []
    | Some (_, after) =>
        match find R after with
        | None => []
        | Some (body, rest) => body :: findall L R rest
        end
    end.
Proof.
  unfold findall at 1. destruct s as [|c s].
  - cbn [String.length findall_fuel]. now rewrite (find_empty L HL).
  - cbn [String.length findall_fuel].
    destruct (find L (String c s)) as [[pre after]|] eqn:E; [|reflexivity].
    destruct (find R after) as [[body rest]|] eqn:E'; [|reflexivity].
    apply (find_rest_lt L HL) in E. apply (find_rest_le R HR) in E'.
    cbn [String.length] in E.
    f_equal. apply findall_enough_fuel; [exact HL|exact HR|lia].
Qed.

Lemma delete_unfold m (Hm : productive m) s :
  delete m s
  = match m s with
    | Some rest => delete m rest
    | None =>
        match s with
        | EmptyString => EmptyString
        | String c s' => String c (delete m s')
        end
    end.
Proof.
  unfold delete at 1. destruct s as [|c s].
  - cbn [String.length delete_fuel].
    destruct (m EmptyString) eqn:E; [|reflexivity].
    apply Hm in E. cbn in E. lia.
  - cbn [String.length delete_fuel].
    destruct (m (String c s)) as [rest|] eqn:E.
    + apply Hm in E. cbn [String.length] in E.
      unfold delete. apply delete_fuel_enough; [exact Hm|lia|lia].
    + reflexivity.
Qed.

Lemma append_assoc (a b c : string) :
  ((a ++ b) ++ c = a ++ (b ++ c))%string.
Proof. induction a as [|x a IH]; cbn; [reflexivity|now rewrite IH]. Qed.

Lemma append_empty (a : string) : (a ++ EmptyString)%string = a.
Proof. induction a as [|x a IH]; cbn; [reflexivity|now rewrite IH]. Qed.

Lemma length_append (a b : string) :
  String.length (a ++ b) = String.length a + String.length b.
Proof. induction a as [|x a IH]; cbn; [reflexivity|now rewrite IH]. Qed.

(** A literal match removes the literal. *)
Lemma lit_split p : forall s r, lit p s = Some r -> s = (p ++ r)%string.
Proof.
  induction p as [|a p IH]; intros s r E; cbn in E.
  - now inversion E.
  - destruct s as [|b s]; [discriminate|].
    destruct (Ascii.eqb_spec a b) as [->|]; [|discriminate].
    cbn. f_equal. now apply IH.
Qed.

Lemma find_lit_split p : forall s pre rest,
  find (lit p) s = Some (pre, rest) -> s = (pre ++ p ++ rest)%string.
Proof.
  induction s as [|c s IH]; intros pre rest E; cbn [find] in E.
  - destruct (lit p EmptyString) eqn:El; [|discriminate].
    inversion E; subst. now apply lit_split in El.
  - destruct (lit p (String c s)) eqn:El.
    + inversion E; subst. now apply lit_split in El.
    + destruct (find (lit p) s) as [[pre' rest']|] eqn:Ef; [|discriminate].
      inversion E; subst. cbn. f_equal. now apply IH.
Qed.

(** A literal that matches keeps matching when text is added behind. *)
Lemma lit_append p : forall s r b,
  lit p s = Some r -> lit p (s ++ b) = Some (r ++ b)%string.
Proof.
  induction p as [|a p IH]; intros s r b E; cbn in *.
  - now inversion E.
  - destruct s as [|c s]; [discriminate|]. cbn.
    destruct (Ascii.eqb a c); [|discriminate]. now apply IH.
Qed.

(** The text before the leftmost occurrence of a literal holds no
    occurrence of it. *)
Lemma find_lit_leftmost a p : forall s pre rest,
  find (lit (String a p)) s = Some (pre, rest) ->
  find (lit (String a p)) pre = None.
Proof.
  induction s as [|c s IH]; intros pre rest E.
  - cbn in E. discriminate.
  - cbn [find] in E. destruct (lit (String a p) (String c s)) eqn:El.
    + inversion E; subst. reflexivity.
    + destruct (find (lit (String a p)) s) as [[pre' rest']|] eqn:Ef;
        [|discriminate].
      inversion E; subst. cbn [find].
      destruct (lit (String a p) (String c pre')) eqn:El'.
      * apply find_lit_split in Ef. subst s.
        apply (lit_append _ _ _ (String a p ++ rest)%string) in El'.
        cbn [append] in El'. cbn [append] in El. congruence.
      * now rewrite (IH _ _ eq_refl).
Qed.

(** Dropping the first character cannot create a match. *)
Lemma find_tail m c s : find m (String c s) = None -> find m s = None.
Proof.
  cbn [find]. destruct (m (String c s)); [discriminate|].
  destruct (find m s) as [[? ?]|]; [discriminate|reflexivity].
Qed.

Lemma find_none_head m s : find m s = None -> m s = None.
Proof.
  destruct s; cbn [find]; destruct (m _); try discriminate; reflexivity.
Qed.

(** A matcher that needs the character [c] first finds nothing in a text
    without [c], and looks through such a text to what follows. *)
Lemma lit_needs c p : needs c (lit (String c p)).
Proof.
  intros x s Hx. cbn. destruct (Ascii.eqb_spec c x); [congruence|reflexivity].
Qed.

Lemma find_through c m (Hm : needs c m) pre : forall s,
  without c pre = true ->
  find m (pre ++ s)
  = match find m s with
    | Some (a, rest) => Some ((pre ++ a)%string, rest)
    | None => None
    end.
Proof.
  induction pre as [|x pre IH]; intros s Hp.
  - cbn [append]. destruct (find m s) as [[a rest]|]; reflexivity.
  - cbn [without all_chars] in Hp. apply andb_true_iff in Hp as [Hx Hp].
    apply negb_true_iff in Hx. apply Ascii.eqb_neq in Hx.
    cbn [append find]. rewrite (Hm x _ Hx), (IH s Hp).
    destruct (find m s) as [[a rest]|]; reflexivity.
Qed.

Lemma without_append c a b :
  without c (a ++ b) = without c a && without c b.
Proof.
  induction a as [|x a IH]; cbn; [reflexivity|].
  unfold without in IH. now rewrite IH, andb_assoc.
Qed.

Lemma find_without c p s :
  without c s = true -> find (lit (String c p)) s = None.
Proof.
  intros H. pose proof (find_through c _ (lit_needs c p) s EmptyString H) as E.
  rewrite append_empty in E. rewrite E. reflexivity.
Qed.

(** The leftmost occurrence of a literal that follows text free of its
    first character. *)
Lemma find_lit_after c p pre rest :
  without c pre = true ->
  find (lit (String c p)) (pre ++ String c p ++ rest)
  = Some (pre, rest).
Proof.
  intros H. rewrite (find_through c _ (lit_needs c p) pre _ H).
  assert (E : find (lit (String c p)) (String c p ++ rest)
              = Some (EmptyString, rest)).
  { cbn [append find]. change (String c (p ++ rest)%string)
      with (String c p ++ rest)%string.
    now rewrite lit_self. }
  rewrite E. now rewrite append_empty.
Qed.

End ScanFacts.

(* ===================================================================== *)
(** ** Identifier Resolver *)
(* ===================================================================== *)

Module Resolver.

Import Text Shape TextFacts ScanFacts SummaryReport.

Lemma span_split p : forall s,
  s = (fst (span p s) ++ snd (span p s))%string.
Proof.
  induction s as [|c s IH]; cbn; [reflexivity|].
  destruct (p c); cbn; [|reflexivity].
  destruct (span p s); cbn in *. now f_equal.
Qed.

Lemma span_all p : forall s, all_chars p (fst (span p s)) = true.
Proof.
  induction s as [|c s IH]; cbn; [reflexivity|].
  destruct (p c) eqn:E; cbn; [|reflexivity].
  destruct (span p s); cbn in *. now rewrite E.
Qed.

Lemma span_maximal : forall s,
  no_leading_digit (snd (span is_digit s)) = true.
Proof.
  induction s as [|c s IH]; cbn; [reflexivity|].
  destruct (is_digit c) eqn:E; cbn; [|now rewrite E].
  destruct (span is_digit s); cbn in *. exact IH.
Qed.

Lemma span_digits ds rest :
  all_chars is_digit ds = true -> no_leading_digit rest = true ->
  span is_digit (ds ++ rest) = (ds, rest).
Proof.
  intros Hd Hr. induction ds as [|c ds IH]; cbn.
  - destruct rest as [|x rest]; [reflexivity|]. cbn in Hr.
    apply negb_true_iff in Hr. cbn. now rewrite Hr.
  - cbn in Hd. apply andb_true_iff in Hd as [Hc Hd].
    rewrite Hc, (IH Hd). reflexivity.
Qed.

Lemma number_after_sound p s g :
  number_after p s = Some g ->
  is_empty g = false /\ all_chars is_digit g = true /\
  exists rest, s = (p ++ g ++ rest)%string /\ no_leading_digit rest = true.
Proof.
  unfold number_after. destruct (lit p s) as [r|] eqn:E; [|discriminate].
  destruct (is_empty (fst (span is_digit r))) eqn:Ee; [discriminate|].
  intros H; inversion H; subst. split; [exact Ee|].
  split; [apply span_all|].
  exists (snd (span is_digit r)). split; [|apply span_maximal].
  apply lit_split in E. rewrite E. f_equal. apply span_split.
Qed.

Lemma search_group_sound m : forall s g,
  search_group m s = Some g ->
  exists pre suf, s = (pre ++ suf)%string /\ m suf = Some g.
Proof.
  induction s as [|c s IH]; intros g E; cbn [search_group] in E.
  - destruct (m EmptyString) eqn:Em; [|discriminate]. inversion E; subst.
    exists EmptyString, EmptyString. auto.
  - destruct (m (String c s)) eqn:Em.
    + inversion E; subst. exists EmptyString, (String c s). auto.
    + destruct (IH g E) as (pre & suf & -> & Hs).
      exists (String c pre), suf. auto.
Qed.

Lemma first_match_sound ps filename g :
  first_match ps filename = Some g ->
  exists p, In p ps /\ search_group (number_after p) filename = Some g.
Proof.
  induction ps as [|p ps IH]; cbn; [discriminate|].
  destruct (search_group (number_after p) filename) eqn:E.
  - intros H; inversion H; subst. eauto.
  - intros H. destruct (IH H) as (q & Hq & Eq). eauto.
Qed.

(** X1.  A resolved requirement number is a non-empty string of digits
    that stands in the file name right after one of the three prefixes,
    and it is the whole run of digits found there. *)
Theorem resolved_number_is_in_the_name (filename g : string) :
  extract_requirement_number filename = Some g ->
  is_empty g = false /\ all_chars is_digit g = true /\
  exists p pre rest,
    In p ["pci_req"; "pci_r"; "pci_requirement"] /\
    filename = (pre ++ p ++ g ++ rest)%string /\
    no_leading_digit rest = true.
Proof.
  intros E. apply first_match_sound in E as (p & Hp & E).
  apply search_group_sound in E as (pre & suf & -> & E).
  apply number_after_sound in E as (He & Hd & rest & -> & Hr).
  split; [exact He|]. split; [exact Hd|]. exists p, pre, rest. auto.
Qed.

Lemma resolved_number_is_in_the_name_witness :
  all_chars is_digit "10" = true /\
  exists p pre rest,
    In p ["pci_req"; "pci_r"; "pci_requirement"] /\
    "pci_req10_report.html" = (pre ++ p ++ "10" ++ rest)%string /\
    no_leading_digit rest = true.
Proof.
  exact (proj2 (resolved_number_is_in_the_name
                  "pci_req10_report.html" "10" eq_refl)).
Defined.

(** Searching for a prefix that begins with the letter p. *)
Lemma number_after_needs c p : needs c (fun s =>
  match number_after (String c p) s with Some _ => Some s | None => None end).
Proof.
  intros x s Hx. unfold number_after. cbn [lit].
  destruct (Ascii.eqb_spec c x); [congruence|reflexivity].
Qed.

Lemma search_group_through c p pre : forall s,
  without c pre = true ->
  search_group (number_after (String c p)) (pre ++ s)
  = search_group (number_after (String c p)) s.
Proof.
  induction pre as [|x pre IH]; intros s Hp; [reflexivity|].
  cbn [without all_chars] in Hp. apply andb_true_iff in Hp as [Hx Hp].
  apply negb_true_iff in Hx. apply Ascii.eqb_neq in Hx.
  cbn [append search_group]. unfold number_after at 1. cbn [lit].
  destruct (Ascii.eqb_spec c x); [congruence|]. now apply IH.
Qed.

Lemma search_group_without c p s :
  without c s = true ->
  search_group (number_after (String c p)) s = None.
Proof.
  intros H.
  pose proof (search_group_through c p s EmptyString H) as E.
  rewrite append_empty in E. rewrite E. reflexivity.
Qed.

Lemma digits_without_p ds :
  all_chars is_digit ds = true -> without "p"%char ds = true.
Proof.
  induction ds as [|c ds IH]; [reflexivity|].
  cbn [all_chars]. intros H. apply andb_true_iff in H as [Hc Hd].
  unfold without in *. cbn [all_chars]. rewrite (IH Hd), andb_true_r.
  destruct (Ascii.eqb_spec c "p"%char) as [->|]; [discriminate|reflexivity].
Qed.

Lemma number_at ds rest p :
  is_empty ds = false -> all_chars is_digit ds = true ->
  no_leading_digit rest = true ->
  number_after p (p ++ ds ++ rest) = Some ds.
Proof.
  intros He Hd Hr. unfold number_after.
  rewrite lit_self, (span_digits _ _ Hd Hr). cbn [fst]. now rewrite He.
Qed.

Lemma search_group_head (m : string -> option string) s g :
  m s = Some g -> search_group m s = Some g.
Proof. intros E. destruct s; cbn [search_group]; now rewrite E. Qed.

Lemma lit_shared p q : forall s, lit (p ++ q) (p ++ s) = lit q s.
Proof.
  induction p as [|a p IH]; intros s; cbn; [reflexivity|].
  now rewrite Ascii.eqb_refl.
Qed.

Lemma search_group_cons (m : string -> option string) c s :
  m (String c s) = None -> search_group m (String c s) = search_group m s.
Proof. intros E. cbn [search_group]. now rewrite E. Qed.

(** X2.  The three naming conventions resolve to the number they carry:
    in a name whose other parts do not contain the letter p, a prefix
    followed by digits gives exactly those digits. *)
Theorem numbered_name_resolves (pre p ds rest : string) :
  In p ["pci_req"; "pci_r"; "pci_requirement"] ->
  without "p"%char pre = true -> without "p"%char rest = true ->
  is_empty ds = false -> all_chars is_digit ds = true ->
  no_leading_digit rest = true ->
  extract_requirement_number (pre ++ p ++ ds ++ rest) = Some ds.
Proof.
  intros Hp Hpre Hrest He Hd Hr.
  pose proof (digits_without_p ds Hd) as Hdp.
  assert (Htail : without "p"%char (ds ++ rest) = true).
  { now rewrite without_append, Hdp, Hrest. }
  destruct ds as [|d ds]; [discriminate|].
  assert (Hdig : is_digit d = true).
  { cbn [all_chars] in Hd. now apply andb_true_iff in Hd as [? _]. }
  assert (Hde : "e"%char <> d) by (intros <-; discriminate).
  unfold extract_requirement_number, patterns. cbn [first_match].
  rewrite !(search_group_through "p"%char _ pre _ Hpre).
  destruct Hp as [<-|[<-|[<-|[]]]].
  - now rewrite (search_group_head _ _ _
                   (number_at (String d ds) rest "pci_req" He Hd Hr)).
  - assert (E1 : search_group (number_after "pci_req")
                              ("pci_r" ++ String d ds ++ rest) = None).
    { change ("pci_r" ++ String d ds ++ rest)%string
        with (String "p" ("ci_r" ++ String d ds ++ rest)%string).
      rewrite search_group_cons.
      - apply search_group_without.
        rewrite without_append, Htail. reflexivity.
      - change (String "p" ("ci_r" ++ String d ds ++ rest)%string)
          with ("pci_r" ++ String d ds ++ rest)%string.
        unfold number_after.
        change "pci_req" with ("pci_r" ++ "eq")%string.
        rewrite lit_shared. cbn [lit append].
        now destruct (Ascii.eqb_spec "e"%char d). }
    rewrite E1.
    now rewrite (search_group_head _ _ _
                   (number_at (String d ds) rest "pci_r" He Hd Hr)).
  - assert (E : forall short,
               In short ["pci_req"; "pci_r"] ->
               search_group (number_after short)
                            ("pci_requirement" ++ String d ds ++ rest) = None).
    { intros short Hs.
      change ("pci_requirement" ++ String d ds ++ rest)%string
        with (String "p" ("ci_requirement" ++ String d ds ++ rest)%string).
      assert (Hw : without "p"%char
                     ("ci_requirement" ++ String d ds ++ rest) = true).
      { rewrite without_append, Htail. reflexivity. }
      destruct Hs as [<-|[<-|[]]]; rewrite search_group_cons.
      - now apply search_group_without.
      - change (String "p" ("ci_requirement" ++ String d ds ++ rest)%string)
          with ("pci_req" ++ ("uirement" ++ String d ds ++ rest))%string.
        unfold number_after. rewrite lit_self. reflexivity.
      - now apply search_group_without.
      - change (String "p" ("ci_requirement" ++ String d ds ++ rest)%string)
          with ("pci_r" ++ ("equirement" ++ String d ds ++ rest))%string.
        unfold number_after. rewrite lit_self. reflexivity. }
    rewrite (E "pci_req"), (E "pci_r") by (cbn; auto).
    now rewrite (search_group_head _ _ _
                   (number_at (String d ds) rest "pci_requirement" He Hd Hr)).
Qed.

Lemma numbered_name_resolves_witness :
  extract_requirement_number "2024_pci_requirement07_final.html" = Some "07".
Proof.
  exact (numbered_name_resolves "2024_" "pci_requirement" "07" "_final.html"
           (or_intror (or_intror (or_introl eq_refl)))
           eq_refl eq_refl eq_refl eq_refl eq_refl).
Defined.

End Resolver.

(* ===================================================================== *)
(** ** Markup and white space in the extracted texts *)
(* ===================================================================== *)

Module Markup.

Import Text Shape TextFacts ScanFacts.

Lemma tag_needs_close s : find (lit ">") s = None -> tag s = None.
Proof.
  intros H. unfold tag. destruct (lit "<" s) as [r|] eqn:E; [|reflexivity].
  apply lit_split in E. subst s. cbn [append] in H.
  apply find_tail in H. now rewrite H.
Qed.

(** Without a closing bracket there is nothing to delete. *)
Lemma strip_tags_no_close : forall s,
  find (lit ">") s = None -> strip_tags s = s.
Proof.
  unfold strip_tags.
  induction s as [|c s IH]; intros H;
    rewrite (delete_unfold tag tag_productive), (tag_needs_close _ H);
    [reflexivity|].
  f_equal. apply IH. now apply find_tail in H.
Qed.

(** Text without an opening bracket is left as it is. *)
Lemma strip_tags_plain : forall s,
  without "<"%char s = true -> strip_tags s = s.
Proof.
  unfold strip_tags.
  induction s as [|c s IH]; intros H;
    rewrite (delete_unfold tag tag_productive); [reflexivity|].
  cbn [without all_chars] in H. apply andb_true_iff in H as [Hc Hs].
  apply negb_true_iff in Hc. unfold tag at 1. cbn [lit].
  rewrite Ascii.eqb_sym, Hc. f_equal. now apply IH.
Qed.

Lemma tag_cons c s :
  tag (String c s)
  = if Ascii.eqb "<" c
    then match find (lit ">") s with
         | Some (inner, rest) => if is_empty inner then None else Some rest
         | None => None
         end
    else None.
Proof. unfold tag. cbn [lit]. now destruct (Ascii.eqb "<" c). Qed.

(** An opening bracket that began no tag begins none after the tags
    behind it are deleted. *)
Lemma tag_after_delete c s :
  tag (String c s) = None -> tag (String c (strip_tags s)) = None.
Proof.
  rewrite !tag_cons. destruct (Ascii.eqb "<" c); [|reflexivity].
  destruct (find (lit ">") s) as [[inner rest]|] eqn:Ef.
  - destruct inner; [|discriminate]. intros _.
    apply find_lit_split in Ef. cbn [append] in Ef. subst s.
    unfold strip_tags. rewrite (delete_unfold tag tag_productive).
    reflexivity.
  - intros _. now rewrite (strip_tags_no_close _ Ef), Ef.
Qed.

Lemma strip_tags_clean_bounded : forall n s,
  String.length s <= n -> find tag (strip_tags s) = None.
Proof.
  unfold strip_tags.
  induction n as [|n IH]; intros s Hn;
    rewrite (delete_unfold tag tag_productive);
    destruct (tag s) as [rest|] eqn:Et.
  - apply tag_productive in Et. lia.
  - destruct s; [reflexivity|cbn in Hn; lia].
  - apply IH. apply tag_productive in Et. lia.
  - destruct s as [|c s]; [reflexivity|].
    cbn [String.length] in Hn.
    assert (Hs : find tag (delete tag s) = None) by (apply IH; lia).
    cbn [find]. rewrite Hs.
    pose proof (tag_after_delete c s Et) as E. unfold strip_tags in E.
    now rewrite E.
Qed.

(** What [re.sub(r'<[^>]+>', '', s)] returns holds no tag. *)
Lemma strip_tags_clean s : find tag (strip_tags s) = None.
Proof. now apply (strip_tags_clean_bounded (String.length s)). Qed.

(** *** White space *)

Lemma lstrip_suffix : forall s, exists w, s = (w ++ lstrip s)%string.
Proof.
  induction s as [|c s [w IH]]; [now exists EmptyString|].
  cbn [lstrip]. destruct (is_space c).
  - exists (String c w). cbn. now f_equal.
  - now exists EmptyString.
Qed.

Lemma rstrip_prefix : forall s, exists w, s = (rstrip s ++ w)%string.
Proof.
  induction s as [|c s [w IH]]; [now exists EmptyString|].
  cbn [rstrip]. destruct (is_space c && is_empty (rstrip s)) eqn:E.
  - now exists (String c s).
  - exists w. cbn. now f_equal.
Qed.

Lemma rstrip_idem : forall s, rstrip (rstrip s) = rstrip s.
Proof.
  induction s as [|c s IH]; [reflexivity|].
  cbn [rstrip]. destruct (is_space c && is_empty (rstrip s)) eqn:E;
    [reflexivity|].
  cbn [rstrip]. now rewrite IH, E.
Qed.

Lemma lstrip_head : forall s,
  match lstrip s with
  | EmptyString => True
  | String c _ => is_space c = false
  end.
Proof.
  induction s as [|c s IH]; [exact I|].
  cbn [lstrip]. destruct (is_space c) eqn:E; [exact IH|exact E].
Qed.

Lemma strip_idem s : strip (strip s) = strip s.
Proof.
  unfold strip. pose proof (lstrip_head s) as H.
  destruct (lstrip s) as [|c t]; [reflexivity|].
  cbn [rstrip]. rewrite H. cbn [andb lstrip]. rewrite H.
  cbn [rstrip]. rewrite H. cbn [andb]. now rewrite rstrip_idem.
Qed.

(** Taking a part of a text cannot create a tag. *)
Lemma find_suffix (m : matcher) w : forall s,
  find m (w ++ s)%string = None -> find m s = None.
Proof.
  induction w as [|c w IH]; intros s H; [exact H|].
  cbn [append] in H. apply find_tail in H. now apply IH.
Qed.

Lemma find_close_append : forall s pre rest b,
  find (lit ">") s = Some (pre, rest) ->
  find (lit ">") (s ++ b) = Some (pre, (rest ++ b)%string).
Proof.
  induction s as [|c s IH]; intros pre rest b H; [discriminate|].
  cbn [append find] in *.
  assert (Hl : lit ">" (String c (s ++ b))
               = match lit ">" (String c s) with
                 | Some r => Some (r ++ b)%string
                 | None => None
                 end).
  { cbn [lit]. now destruct (Ascii.eqb ">" c). }
  rewrite Hl. destruct (lit ">" (String c s)).
  - now inversion H.
  - destruct (find (lit ">") s) as [[pre' rest']|] eqn:E; [|discriminate].
    inversion H; subst. now rewrite (IH _ _ b eq_refl).
Qed.

Lemma tag_append s r b :
  tag s = Some r -> tag (s ++ b)%string = Some (r ++ b)%string.
Proof.
  unfold tag. destruct (lit "<" s) as [t|] eqn:E; [|discriminate].
  rewrite (lit_append _ _ _ b E).
  destruct (find (lit ">") t) as [[inner rest]|] eqn:Ef; [|discriminate].
  rewrite (find_close_append _ _ _ b Ef).
  destruct (is_empty inner); [discriminate|]. now intros H; inversion H.
Qed.

Lemma find_tag_prefix : forall a b,
  find tag (a ++ b)%string = None -> find tag a = None.
Proof.
  induction a as [|c a IH]; intros b H.
  - reflexivity.
  - cbn [append find] in *.
    destruct (tag (String c a)) as [r|] eqn:Et.
    + apply (tag_append _ _ b) in Et. cbn [append] in Et.
      now rewrite Et in H.
    + destruct (tag (String c (a ++ b))); [discriminate|].
      destruct (find tag (a ++ b)) as [[? ?]|] eqn:E; [discriminate|].
      now rewrite (IH b E).
Qed.

Lemma strip_keeps_clean s : find tag s = None -> find tag (strip s) = None.
Proof.
  intros H. unfold strip.
  destruct (lstrip_suffix s) as [w Hw].
  destruct (rstrip_prefix (lstrip s)) as [v Hv].
  rewrite Hw in H. apply find_suffix in H. rewrite Hv in H.
  now apply find_tag_prefix in H.
Qed.

(** X3.  The titles and finding texts that [generate_summary_report.py]
    prints, and the titles of the marker-span findings of the other
    generators, contain no markup tag: no opening bracket followed by at
    least one character and a closing bracket. *)
Theorem extracted_texts_hold_no_tag (content n : string) :
  find tag (SummaryReport.extract_title content n) = None /\
  Forall (fun x => find tag x = None)
         (SummaryReport.findings
            (SummaryReport.extract_requirement_data (Ok content) n)) /\
  Forall (fun x => find tag (Blocks.f_title x) = None)
         (Clickable.marker_findings content) /\
  Forall (fun x => find tag (FixCard.f_title x) = None)
         (FixCard.marker_findings content).
Proof.
  split; [apply strip_tags_clean|]. split; [|split].
  - destruct (SummaryReport.count_checks content) as [[[t p] f] w] eqn:E.
    rewrite (RecordFacts.summary_record _ n _ _ _ _ E).
    cbv zeta. cbn [SummaryReport.findings].
    apply Forall_forall. intros x Hx.
    apply in_map_iff in Hx as (m & <- & _). apply strip_tags_clean.
  - apply Forall_forall. intros x Hx.
    apply in_map_iff in Hx as (m & <- & _). apply strip_tags_clean.
  - apply Forall_forall. intros x Hx.
    apply in_map_iff in Hx as (m & <- & _). apply strip_tags_clean.
Qed.

(** X4.  The three texts of a finding taken from a failed-check
    container carry no white space at either end, and its title no
    markup tag, whether they were found in the container or are the
    defaults. *)
Theorem structured_finding_is_trimmed (block : string) :
  let f := Blocks.block_finding block in
  strip (Blocks.f_title f) = Blocks.f_title f /\
  strip (Blocks.f_details f) = Blocks.f_details f /\
  strip (Blocks.f_recommendation f) = Blocks.f_recommendation f /\
  find tag (Blocks.f_title f) = None.
Proof.
  cbv zeta. unfold Blocks.block_finding.
  cbn [Blocks.f_title Blocks.f_details Blocks.f_recommendation].
  unfold Blocks.block_title, Blocks.block_details, Blocks.block_recommendation.
  repeat split.
  - destruct (search _ _ block); [apply strip_idem|reflexivity].
  - destruct (search _ _ block); [apply strip_idem|reflexivity].
  - destruct (search (lit "<strong>Recommendation:</strong>") _ block);
      [apply strip_idem|].
    destruct (search _ _ block); [apply strip_idem|reflexivity].
  - destruct (search _ _ block); [|reflexivity].
    apply strip_keeps_clean, strip_tags_clean.
Qed.

End Markup.

(* ===================================================================== *)
(** ** The loops of the other generators *)
(* ===================================================================== *)

Module OtherLoops.

Import Text LoopShapes.










(** *** card_report_with_clickable.py and fix_card_report.py *)

Lemma stats_returned content :
  Clickable.extract_stats content = Ok (stats_of content).
Proof.
  unfold stats_of.
  destruct (CountFacts.extract_stats_eq content) as (s & -> & _).
  reflexivity.
Qed.

Lemma clickable_raised e files :
  fold_left ClickableReport.process_file files (Raise e) = Raise e.
Proof. induction files as [|f files IH]; [reflexivity|exact IH]. Qed.

Lemma clickable_step acc f :
  ClickableReport.process_file (Ok acc) f
  = match SummaryReport.extract_requirement_number (fst f), snd f with
    | Some _, Raise e => Raise e
    | _, _ => Ok (acc ++ clickable_records f)
    end.
Proof.
  unfold ClickableReport.process_file, clickable_records. cbn [bind].
  destruct (SummaryReport.extract_requirement_number (fst f)) as [n|].
  - destruct (snd f) as [content|e]; cbn [bind]; [|reflexivity].
    now rewrite stats_returned.
  - rewrite app_nil_r. now destruct (snd f).
Qed.

Lemma clickable_loop files : forall acc,
  fold_left ClickableReport.process_file files (Ok acc)
  = match ClickableReport.first_error files with
    | Some e => Raise e
    | None => Ok (acc ++ flat_map clickable_records files)
    end.
Proof.
  induction files as [|f files IH]; intros acc.
  - cbn. now rewrite app_nil_r.
  - cbn [fold_left ClickableReport.first_error flat_map].
    rewrite clickable_step.
    destruct (SummaryReport.extract_requirement_number (fst f)) as [n|];
      [destruct (snd f) as [content|e]|];
      try apply clickable_raised;
      rewrite IH, <- app_assoc; reflexivity.
Qed.

Lemma fix_card_raised e files :
  fold_left FixCardReport.process_file files (Raise e) = Raise e.
Proof. induction files as [|f files IH]; [reflexivity|exact IH]. Qed.

Lemma fix_card_step acc f :
  FixCardReport.process_file (Ok acc) f
  = match SummaryReport.extract_requirement_number (fst f), snd f with
    | Some _, Raise e => Raise e
    | _, _ => Ok (acc ++ fix_card_records f)
    end.
Proof.
  unfold FixCardReport.process_file, fix_card_records. cbn [bind].
  destruct (SummaryReport.extract_requirement_number (fst f)) as [n|].
  - now destruct (snd f) as [content|e].
  - rewrite app_nil_r. now destruct (snd f).
Qed.

Lemma fix_card_loop files : forall acc,
  fold_left FixCardReport.process_file files (Ok acc)
  = match ClickableReport.first_error files with
    | Some e => Raise e
    | None => Ok (acc ++ flat_map fix_card_records files)
    end.
Proof.
  induction files as [|f files IH]; intros acc.
  - cbn. now rewrite app_nil_r.
  - cbn [fold_left ClickableReport.first_error flat_map].
    rewrite fix_card_step.
    destruct (SummaryReport.extract_requirement_number (fst f)) as [n|];
      [destruct (snd f) as [content|e]|];
      try apply fix_card_raised;
      rewrite IH, <- app_assoc; reflexivity.
Qed.

(** X6.  [card_report_with_clickable.py] and [fix_card_report.py] read
    the reports outside any [try]: the first numbered report that cannot
    be read ends the run with its error, and no page is produced.  Files
    without a requirement number are never opened, so their being
    unreadable does no harm.  When every numbered report can be read,
    the page has one card per numbered report, in ascending order of the
    requirement number. *)
Theorem unguarded_main_outcome (files : list SummaryReport.report_file) :
  files <> [] ->
  match ClickableReport.first_error files with
  | Some e =>
      ClickableReport.main files = Raise e /\ FixCardReport.main files = Raise e
  | None =>
      (exists page,
          ClickableReport.main files = Ok page /\
          ClickableReport.cards page
          = sorted_by ClickableReport.requirement_key
                      (flat_map clickable_records files) /\
          Sorted (fun a b => (int (ClickableReport.req_num a)
                              <= int (ClickableReport.req_num b))%N)
                 (ClickableReport.cards page) /\
          Permutation (flat_map clickable_records files)
                      (ClickableReport.cards page)) /\
      FixCardReport.main files
      = Ok (map FixCardReport.card_of
                (sorted_by FixCardReport.requirement_key
                           (flat_map fix_card_records files)))
  end.
Proof.
  intros Hne. unfold ClickableReport.main, FixCardReport.main,
    ClickableReport.process_files, FixCardReport.process_files.
  destruct files as [|f files]; [congruence|].
  rewrite clickable_loop, fix_card_loop.
  destruct (ClickableReport.first_error (f :: files)) as [e|];
    [split; reflexivity|].
  cbn [bind app]. split; [|reflexivity].
  unfold ClickableReport.generate_interactive_card_html.
  match goal with
  | |- context [percentage ?a ?b] =>
      destruct (CountFacts.percentage_ok a b) as [q ->]
  end.
  cbn [bind]. eexists. split; [reflexivity|].
  cbn [ClickableReport.cards]. split; [reflexivity|].
  split; [apply (sorted_by_sorted ClickableReport.requirement_key)|].
  apply sorted_by_perm.
Qed.

Lemma unguarded_main_outcome_witness :
  ClickableReport.main MoreSamples.broken_folder = Raise "invalid start byte" /\
  FixCardReport.main MoreSamples.broken_folder = Raise "invalid start byte" /\
  map FixCardReport.card_req
      (match FixCardReport.main MoreSamples.readable_folder with
       | Ok cs => cs
       | Raise _ => []
       end) = ["2"; "10"].
Proof.
  pose proof (unguarded_main_outcome MoreSamples.broken_folder
                ltac:(discriminate)) as [H1 H2].
  pose proof (unguarded_main_outcome MoreSamples.readable_folder
                ltac:(discriminate)) as [_ H3].
  split; [exact H1|]. split; [exact H2|].
  rewrite H3. reflexivity.
Defined.

End OtherLoops.

(* ===================================================================== *)
(** ** The page of card_report_with_clickable.py *)
(* ===================================================================== *)

Module ClickablePage.

Import Text LoopShapes.

Lemma in_firstn {A : Type} (x : A) n l : In x (firstn n l) -> In x l.
Proof.
  intros H. rewrite <- (firstn_skipn n l). apply in_or_app. now left.
Qed.

Lemma ok_inj {A : Type} (a b : A) : Ok a = Ok b -> a = b.
Proof. intros H. now inversion H. Qed.

Lemma stats_add_up content :
  let s := stats_of content in
  Clickable.total_checks s
  = Clickable.passed s + Clickable.failed s + Clickable.warnings s /\
  1 <= Clickable.total_checks s.
Proof.
  cbv zeta. destruct (CountFacts.extract_stats_eq content) as (s & Es & Ec).
  unfold stats_of. rewrite Es. cbv zeta in Ec.
  destruct (_ =? 0) eqn:E0 in Ec; inversion Ec as [[E1 E2 E3 E4]].
  - lia.
  - apply Nat.eqb_neq in E0. lia.
Qed.

(** The class non-compliant is given below 70 percent only. *)
Lemma non_compliant_below_70 content :
  Clickable.status_class (stats_of content) = "non-compliant" ->
  (Clickable.compliance_pct (stats_of content) < 70)%Q.
Proof.
  unfold stats_of, Clickable.extract_stats.
  destruct (_ =? 0) eqn:E0; [discriminate|].
  unfold truediv. rewrite E0. cbn [bind].
  match goal with
  | |- context [if Qle_bool 90 ?q then _ else _] =>
      destruct (Qle_bool 90 q) eqn:Ea; [|destruct (Qle_bool 70 q) eqn:Eb]
  end; cbn [Clickable.status_class Clickable.compliance_pct];
    intros Hc; try discriminate Hc.
  apply Qnot_le_lt. intros H. apply Qle_bool_iff in H. congruence.
Qed.

Lemma card_sums (rs : list ClickableReport.requirement) :
  (forall r, In r rs -> exists content, ClickableReport.stats r = stats_of content) ->
  let total := list_sum (map (fun r => Clickable.total_checks (ClickableReport.stats r)) rs) in
  let passed := list_sum (map (fun r => Clickable.passed (ClickableReport.stats r)) rs) in
  let failed := list_sum (map (fun r => Clickable.failed (ClickableReport.stats r)) rs) in
  let warnings := list_sum (map (fun r => Clickable.warnings (ClickableReport.stats r)) rs) in
  total = passed + failed + warnings /\ List.length rs <= total.
Proof.
  cbv zeta. induction rs as [|r rs IH]; intros H; [cbn; lia|].
  destruct (H r (or_introl eq_refl)) as [content Hc].
  pose proof (stats_add_up content) as [E1 E2]. rewrite <- Hc in E1, E2.
  destruct IH as [IH1 IH2]; [intros; apply H; now right|].
  unfold list_sum in *. cbn [map fold_right List.length]. lia.
Qed.

Lemma percentage_bounds passed total q :
  passed <= total -> percentage passed total = Ok q ->
  (0 <= q)%Q /\ (q <= 100)%Q.
Proof.
  intros Hle. destruct total as [|t].
  - cbn. intros H; inversion H. split; discriminate.
  - rewrite CountFacts.percentage_value by lia.
    intros H. injection H as <-.
    apply (CountFacts.quotient_bounds passed (S t)); lia.
Qed.

Lemma record_origin files r :
  In r (flat_map clickable_records files) ->
  exists content n,
    r = ClickableReport.requirement_of content n (stats_of content).
Proof.
  intros H. apply in_flat_map in H as (f & _ & H).
  unfold clickable_records in H.
  destruct (SummaryReport.extract_requirement_number (fst f)) as [n|];
    [|destruct H].
  destruct (snd f) as [content|e]; [|destruct H].
  destruct H as [<-|[]]. eauto.
Qed.

(** X7.  The page of [card_report_with_clickable.py]: the overall total
    is the sum of passed, failed and warnings and at least the number of
    cards; the overall compliance lies between 0 and 100; at most ten
    critical findings are shown, and each of them is one of the first two
    findings of a card whose class is non-compliant, that is, whose
    compliance is below 70 percent. *)
Theorem clickable_page (files : list SummaryReport.report_file)
        (page : ClickableReport.page) :
  ClickableReport.main files = Ok page ->
  ClickableReport.p_total_checks page
  = ClickableReport.p_passed page + ClickableReport.p_failed page
    + ClickableReport.p_warnings page /\
  List.length (ClickableReport.cards page)
  <= ClickableReport.p_total_checks page /\
  (0 <= ClickableReport.p_compliance page)%Q /\
  (ClickableReport.p_compliance page <= 100)%Q /\
  List.length (ClickableReport.p_critical page) <= 10 /\
  (forall c,
      In c (ClickableReport.p_critical page) ->
      exists r x,
        In r (ClickableReport.cards page) /\
        In x (firstn 2 (ClickableReport.findings r)) /\
        ClickableReport.c_req c = ClickableReport.req_num r /\
        ClickableReport.c_title c = Blocks.f_title x /\
        Clickable.status_class (ClickableReport.stats r) = "non-compliant" /\
        (Clickable.compliance_pct (ClickableReport.stats r) < 70)%Q).
Proof.
  unfold ClickableReport.main, ClickableReport.process_files.
  destruct files as [|f files]; [discriminate|].
  rewrite OtherLoops.clickable_loop.
  destruct (ClickableReport.first_error (f :: files)); [discriminate|].
  cbn [bind app].
  set (rs := sorted_by ClickableReport.requirement_key
                       (flat_map clickable_records (f :: files))).
  assert (Ho : forall r, In r rs ->
               exists content n,
                 r = ClickableReport.requirement_of content n (stats_of content)).
  { intros r Hr. apply (record_origin (f :: files)).
    eapply Permutation_in; [|exact Hr].
    apply Permutation_sym, sorted_by_perm. }
  destruct (card_sums rs) as [Es El].
  { intros r Hr. destruct (Ho r Hr) as (content & n & ->). now exists content. }
  unfold ClickableReport.generate_interactive_card_html.
  match goal with
  | |- context [percentage ?a ?b] =>
      destruct (percentage a b) as [q|e] eqn:Ep; [|discriminate]
  end.
  apply percentage_bounds in Ep as [Q0 Q100]; [|lia].
  cbn [bind]. intros H. apply ok_inj in H. subst page.
  cbn [ClickableReport.p_total_checks ClickableReport.p_passed
       ClickableReport.p_failed ClickableReport.p_warnings
       ClickableReport.p_compliance ClickableReport.p_critical
       ClickableReport.cards].
  split; [exact Es|]. split; [exact El|].
  split; [exact Q0|]. split; [exact Q100|].
  split; [rewrite length_firstn; lia|].
  - intros c Hc. apply in_firstn in Hc.
    unfold ClickableReport.critical_findings in Hc.
    apply in_flat_map in Hc as (r & Hr & Hc).
    unfold ClickableReport.critical_of in Hc.
    destruct (String.eqb_spec
                (Clickable.status_class (ClickableReport.stats r))
                "non-compliant") as [Ecl|]; [|destruct Hc].
    apply in_map_iff in Hc as (x & <- & Hx).
    exists r, x. split; [exact Hr|]. split; [exact Hx|].
    split; [reflexivity|]. split; [reflexivity|]. split; [exact Ecl|].
    destruct (Ho r Hr) as (content & n & ->).
    cbn [ClickableReport.stats ClickableReport.requirement_of] in *.
    now apply non_compliant_below_70.
Qed.

Lemma clickable_page_witness :
  exists page,
    ClickableReport.main MoreSamples.readable_folder = Ok page /\
    List.length (ClickableReport.p_critical page) <= 10.
Proof.
  destruct (ClickableReport.main MoreSamples.readable_folder)
    as [page|e] eqn:E.
  - exists page. split; [reflexivity|].
    exact (proj1 (proj2 (proj2 (proj2 (proj2
             (clickable_page MoreSamples.readable_folder page E)))))).
  - exfalso. vm_compute in E. discriminate E.
Defined.

End ClickablePage.

(* ===================================================================== *)
(** ** Grouping the critical findings by requirement *)
(* ===================================================================== *)

Module Grouping.

Import Text InteractivePage.

Lemma lookup_append_to k req x : forall d,
  lookup k (append_to req x d)
  = if String.eqb req k then Some (or_empty (lookup k d) ++ [x])
    else lookup k d.
Proof.
  induction d as [|[k0 v0] d IH]; cbn [append_to lookup or_empty].
  - destruct (String.eqb req k); reflexivity.
  - destruct (String.eqb_spec k0 req) as [->|Hne]; cbn [lookup].
    + destruct (String.eqb req k); reflexivity.
    + destruct (String.eqb_spec k0 k) as [->|Hk].
      * destruct (String.eqb_spec req k); [congruence|reflexivity].
      * exact IH.
Qed.

Lemma keys_append_to req x : forall d,
  NoDup (map fst d) -> NoDup (map fst (append_to req x d)) /\
  (forall k, In k (map fst (append_to req x d)) <-> k = req \/ In k (map fst d)).
Proof.
  induction d as [|[k0 v0] d IH]; cbn [append_to map fst]; intros Hd.
  - split; [repeat constructor; intros []|]. intros k. cbn. intuition.
  - inversion Hd as [|? ? Hn Hd']; subst.
    destruct (String.eqb_spec k0 req) as [->|Hne]; cbn [map fst].
    + split; [exact Hd|]. intros k. cbn. intuition.
    + destruct (IH Hd') as [IH1 IH2]. split.
      * constructor; [|exact IH1]. rewrite IH2. intros [E|E]; congruence.
      * intros k. cbn. rewrite IH2. intuition.
Qed.

Lemma entries_cons req p ps :
  entries_for req (p :: ps)
  = if String.eqb (Interactive.req (snd p)) req
    then indexed p :: entries_for req ps
    else entries_for req ps.
Proof.
  unfold entries_for. cbn [filter].
  destruct (String.eqb (Interactive.req (snd p)) req); reflexivity.
Qed.

(** After the loop, the list kept under a key is what was there before
    followed by the entries of that requirement, in order. *)
Lemma lookup_after_loop k : forall ps d,
  lookup k (fold_left group_step ps d)
  = match entries_for k ps with
    | [] => lookup k d
    | es => Some (or_empty (lookup k d) ++ es)
    end.
Proof.
  induction ps as [|p ps IH]; intros d; [reflexivity|].
  cbn [fold_left]. rewrite IH, entries_cons.
  assert (E : lookup k (group_step d p)
              = if String.eqb (Interactive.req (snd p)) k
                then Some (or_empty (lookup k d) ++ [indexed p])
                else lookup k d)
    by (unfold group_step; apply lookup_append_to).
  rewrite E.
  destruct (String.eqb (Interactive.req (snd p)) k).
  - cbn [or_empty]. destruct (entries_for k ps); [reflexivity|].
    now rewrite <- app_assoc.
  - reflexivity.
Qed.

Lemma keys_after_loop : forall ps d,
  NoDup (map fst d) -> NoDup (map fst (fold_left group_step ps d)).
Proof.
  induction ps as [|p ps IH]; intros d Hd; [exact Hd|].
  cbn [fold_left]. apply IH. unfold group_step.
  now apply keys_append_to.
Qed.

Lemma lookup_in : forall d k v,
  NoDup (map fst d) -> (In (k, v) d <-> lookup k d = Some v).
Proof.
  induction d as [|[k0 v0] d IH]; intros k v Hd; cbn [In lookup].
  - split; [intros []|discriminate].
  - inversion Hd as [|? ? Hn Hd']; subst.
    destruct (String.eqb_spec k0 k) as [->|Hne].
    + split.
      * intros [E|H]; [congruence|].
        exfalso. apply Hn. apply (in_map fst) in H. exact H.
      * intros E. left. congruence.
    + rewrite <- (IH k v Hd'). split; [intros [E|H]; [congruence|exact H]|auto].
Qed.

(** X8.  The critical findings section of
    [generate_interactive_summary.py] and [create_card_based_report.py]
    has one group per requirement number that occurs, each number once,
    in ascending numeric order; the group of a number holds exactly the
    findings tagged with it, in their original order and with their
    original positions, so that no finding is lost or shown twice. *)
Theorem critical_sections_partition
        (critical : list Interactive.critical_finding) :
  let sections := critical_sections critical in
  let entries := Interactive.enumerate_from 0 critical in
  NoDup (map fst sections) /\
  Sorted (fun a b => (int (fst a) <= int (fst b))%N) sections /\
  (forall k v,
      In (k, v) sections <-> v <> [] /\ v = entries_for k entries) /\
  (forall p,
      In p entries ->
      exists v, In (Interactive.req (snd p), v) sections /\ In (indexed p) v).
Proof.
  cbv zeta. unfold critical_sections.
  assert (Hk : NoDup (map fst (findings_by_req critical))).
  { apply keys_after_loop. constructor. }
  assert (Hp : Permutation (findings_by_req critical)
                           (sorted_by group_key (findings_by_req critical)))
    by apply sorted_by_perm.
  assert (Hc : forall k v,
             In (k, v) (sorted_by group_key (findings_by_req critical))
             <-> v <> [] /\
                 v = entries_for k (Interactive.enumerate_from 0 critical)).
  { intros k v. split.
    - intros H. apply (Permutation_in _ (Permutation_sym Hp)) in H.
      apply (lookup_in _ _ _ Hk) in H. unfold findings_by_req in H.
      rewrite lookup_after_loop in H. cbn [lookup or_empty app] in H.
      destruct (entries_for k _) eqn:E; [discriminate|].
      inversion H; subst. split; [discriminate|reflexivity].
    - intros [Hv ->]. apply (Permutation_in _ Hp).
      apply (lookup_in _ _ _ Hk). unfold findings_by_req.
      rewrite lookup_after_loop. cbn [lookup or_empty app].
      destruct (entries_for k _); [congruence|reflexivity]. }
  split; [|split; [|split]].
  - eapply Permutation_NoDup; [|exact Hk]. now apply Permutation_map.
  - apply (sorted_by_sorted group_key).
  - exact Hc.
  - intros p Hin.
    assert (Hi : In (indexed p)
                    (entries_for (Interactive.req (snd p))
                                 (Interactive.enumerate_from 0 critical))).
    { unfold entries_for. apply in_map. apply filter_In. split; [exact Hin|].
      apply String.eqb_refl. }
    eexists. split; [|exact Hi]. apply Hc. split; [|reflexivity].
    intros E. rewrite E in Hi. destruct Hi.
Qed.

End Grouping.

(* ===================================================================== *)
(** ** What the Statistics Counter counts *)
(* ===================================================================== *)

Module Counting.

Import Text Shape TextFacts ScanFacts SummaryReport.

(** *** Letter case *)

Lemma lower_idem c : lower (lower c) = lower c.
Proof. destruct c as [[] [] [] [] [] [] [] []]; reflexivity. Qed.

Lemma length_lowercase s : String.length (lowercase s) = String.length s.
Proof. induction s as [|c s IH]; cbn; [reflexivity|now rewrite IH]. Qed.

Lemma lit_i_lowercase p : forall s,
  lit_i p (lowercase s)
  = match lit_i p s with
    | Some r => Some (lowercase r)
    | None => None
    end.
Proof.
  induction p as [|a p IH]; intros s; cbn [lit_i]; [reflexivity|].
  destruct s as [|b s]; cbn [lowercase]; [reflexivity|].
  rewrite lower_idem. destruct (Ascii.eqb (lower a) (lower b)); [apply IH|].
  reflexivity.
Qed.

Lemma find_lowercase p : forall s,
  find (lit_i p) (lowercase s)
  = match find (lit_i p) s with
    | Some (a, r) => Some (lowercase a, lowercase r)
    | None => None
    end.
Proof.
  induction s as [|c s IH].
  - cbn [lowercase find]. pose proof (lit_i_lowercase p EmptyString) as E.
    cbn [lowercase] in E.
    destruct (lit_i p EmptyString) as [r|]; [|reflexivity].
    cbn [lowercase]. congruence.
  - cbn [lowercase find]. change (String (lower c) (lowercase s))
      with (lowercase (String c s)).
    rewrite lit_i_lowercase.
    destruct (lit_i p (String c s)); [reflexivity|].
    rewrite IH. destruct (find (lit_i p) s) as [[a r]|]; reflexivity.
Qed.

Lemma count_fuel_lowercase p : forall n s,
  count_fuel n (lit_i p) (lowercase s) = count_fuel n (lit_i p) s.
Proof.
  induction n as [|n IH]; intros s; cbn [count_fuel]; [reflexivity|].
  rewrite find_lowercase.
  destruct (find (lit_i p) s) as [[a r]|]; [|reflexivity]. now rewrite IH.
Qed.

Lemma count_lowercase p s :
  count (lit_i p) (lowercase s) = count (lit_i p) s.
Proof. unfold count. now rewrite length_lowercase, count_fuel_lowercase. Qed.

(** X9.  The counts do not depend on the letter case of the document:
    a document and its lower-case form give the same totals, in
    [count_checks] and in [extract_stats]. *)
Theorem counts_ignore_case (content : string) :
  count_checks (lowercase content) = count_checks content /\
  Clickable.extract_stats (lowercase content) = Clickable.extract_stats content.
Proof.
  unfold count_checks, Clickable.extract_stats,
    pass_tags, fail_tags, warn_tags, pass_divs, fail_divs, warn_divs.
  rewrite !count_lowercase. split; reflexivity.
Qed.

(** *** Documents made of text, bracketed markers and containers *)

Lemma lit_i_self p : forall s, lit_i p (p ++ s) = Some s.
Proof.
  induction p as [|a p IH]; intros s; cbn; [reflexivity|].
  now rewrite Ascii.eqb_refl.
Qed.

Lemma lower_keeps_bracket x :
  x <> "["%char -> Ascii.eqb (lower "["%char) (lower x) = false.
Proof.
  intros H. destruct x as [[] [] [] [] [] [] [] []];
    try reflexivity; congruence.
Qed.

Lemma lower_keeps_angle x :
  x <> "<"%char -> Ascii.eqb (lower "<"%char) (lower x) = false.
Proof.
  intros H. destruct x as [[] [] [] [] [] [] [] []];
    try reflexivity; congruence.
Qed.

Lemma tag_pattern_needs k : needs "["%char (lit_i (bracket_tag k)).
Proof.
  intros x s Hx. destruct k; cbn [bracket_tag lit_i];
    now rewrite (lower_keeps_bracket x Hx).
Qed.

Lemma div_pattern_needs k : needs "<"%char (lit_i (container k)).
Proof.
  intros x s Hx.
  destruct k; unfold container, div_class; cbn [append lit_i];
    now rewrite (lower_keeps_angle x Hx).
Qed.

Lemma tag_pattern_productive k : productive (lit_i (bracket_tag k)).
Proof. destruct k; apply lit_i_productive. Qed.

Lemma div_pattern_productive k : productive (lit_i (container k)).
Proof. destruct k; apply lit_i_productive. Qed.

(** Counting looks through text that cannot begin a match. *)
Lemma count_through c m (Hp : productive m) (Hn : needs c m) pre rest :
  without c pre = true -> count m (pre ++ rest) = count m rest.
Proof.
  intros H. rewrite (count_unfold m Hp (pre ++ rest)), (count_unfold m Hp rest).
  rewrite (find_through c m Hn pre rest H).
  destruct (find m rest) as [[a r]|]; reflexivity.
Qed.

(** Counting steps over a first character at which nothing matches. *)
Lemma count_tail m (Hp : productive m) x s :
  m (String x s) = None -> count m (String x s) = count m s.
Proof.
  intros H. rewrite (count_unfold m Hp (String x s)), (count_unfold m Hp s).
  cbn [find]. rewrite H.
  destruct (find m s) as [[a r]|]; reflexivity.
Qed.

Lemma count_hit m (Hp : productive m) s rest :
  m s = Some rest -> count m s = S (count m rest).
Proof.
  intros H. rewrite (count_unfold m Hp s).
  destruct s; cbn [find]; now rewrite H.
Qed.

(** A whole piece that the pattern does not match is stepped over. *)
Lemma count_over c m (Hp : productive m) (Hn : needs c m) x t rest :
  m (String x t ++ rest)%string = None -> without c t = true ->
  count m (String x t ++ rest)%string = count m rest.
Proof.
  intros H Ht. cbn [append] in *. rewrite (count_tail m Hp _ _ H).
  now apply (count_through c).
Qed.

Lemma plain_parts s :
  plain s = true -> without "<"%char s = true /\ without "["%char s = true.
Proof. unfold plain. intros H. now apply andb_true_iff in H. Qed.

Lemma bracket_shape k :
  exists t, bracket_tag k = String "["%char t /\
            without "["%char t = true /\ without "<"%char t = true.
Proof. destruct k; eexists; repeat split. Qed.

Lemma container_shape k :
  exists t, container k = String "<"%char t /\
            without "["%char t = true /\ without "<"%char t = true.
Proof. destruct k; eexists; repeat split. Qed.

Lemma tag_mismatch k k' rest :
  kind_eqb k k' = false ->
  lit_i (bracket_tag k) (bracket_tag k' ++ rest) = None.
Proof. destruct k, k'; try discriminate; reflexivity. Qed.

Lemma div_mismatch k k' rest :
  kind_eqb k k' = false ->
  lit_i (container k) (container k' ++ rest) = None.
Proof. destruct k, k'; try discriminate; reflexivity. Qed.

Lemma kind_eqb_eq k k' : kind_eqb k k' = true -> k = k'.
Proof. destruct k, k'; try discriminate; reflexivity. Qed.

Lemma count_bracket_tags k : forall ps,
  forallb words_plain ps = true ->
  count (lit_i (bracket_tag k)) (document ps) = tags k ps.
Proof.
  pose proof (tag_pattern_productive k) as Hp.
  pose proof (tag_pattern_needs k) as Hn.
  induction ps as [|p ps IH]; intros H; [now destruct k|].
  cbn [forallb] in H. apply andb_true_iff in H as [Hw H].
  specialize (IH H). unfold tags in *. cbn [document filter].
  destruct p as [s|k'|k']; cbn [piece_text is_tag].
  - cbn [words_plain] in Hw. apply plain_parts in Hw as [_ Hs].
    now rewrite (count_through "[" _ Hp Hn s _ Hs).
  - destruct (kind_eqb k k') eqn:Ek.
    + apply kind_eqb_eq in Ek. subst k'.
      rewrite (count_hit _ Hp _ _ (lit_i_self _ _)). cbn [List.length].
      now f_equal.
    + pose proof (tag_mismatch k k' (document ps) Ek) as Hm.
      destruct (bracket_shape k') as (t & Et & Ht & _). rewrite Et in *.
      now rewrite (count_over "[" _ Hp Hn _ _ _ Hm Ht).
  - destruct (container_shape k') as (t & Et & Ht & _). rewrite Et.
    rewrite (count_over "[" _ Hp Hn); [exact IH| |exact Ht].
    apply Hn. discriminate.
Qed.

Lemma count_containers k : forall ps,
  forallb words_plain ps = true ->
  count (lit_i (container k)) (document ps) = divs k ps.
Proof.
  pose proof (div_pattern_productive k) as Hp.
  pose proof (div_pattern_needs k) as Hn.
  induction ps as [|p ps IH]; intros H; [now destruct k|].
  cbn [forallb] in H. apply andb_true_iff in H as [Hw H].
  specialize (IH H). unfold divs in *. cbn [document filter].
  destruct p as [s|k'|k']; cbn [piece_text is_div].
  - cbn [words_plain] in Hw. apply plain_parts in Hw as [Hs _].
    now rewrite (count_through "<" _ Hp Hn s _ Hs).
  - destruct (bracket_shape k') as (t & Et & _ & Ht). rewrite Et.
    rewrite (count_over "<" _ Hp Hn); [exact IH| |exact Ht].
    apply Hn. discriminate.
  - destruct (kind_eqb k k') eqn:Ek.
    + apply kind_eqb_eq in Ek. subst k'.
      rewrite (count_hit _ Hp _ _ (lit_i_self _ _)). cbn [List.length].
      now f_equal.
    + pose proof (div_mismatch k k' (document ps) Ek) as Hm.
      destruct (container_shape k') as (t & Et & _ & Ht). rewrite Et in *.
      now rewrite (count_over "<" _ Hp Hn _ _ _ Hm Ht).
Qed.

(** X10.  On a document made of plain text, bracketed markers and check
    containers, each strategy counts exactly the markers of its own
    spelling, and [count_checks] returns for each category the larger of
    the two numbers: a check written in both spellings is counted once.
    With no marker at all the result is the floor. *)
Theorem counts_of_a_document (ps : list piece) :
  forallb words_plain ps = true ->
  pass_tags (document ps) = tags Pass ps /\
  fail_tags (document ps) = tags Fail ps /\
  warn_tags (document ps) = tags Warn ps /\
  pass_divs (document ps) = divs Pass ps /\
  fail_divs (document ps) = divs Fail ps /\
  warn_divs (document ps) = divs Warn ps /\
  count_checks (document ps)
  = let p := Nat.max (tags Pass ps) (divs Pass ps) in
    let f := Nat.max (tags Fail ps) (divs Fail ps) in
    let w := Nat.max (tags Warn ps) (divs Warn ps) in
    if p + f + w =? 0 then (1, 1, 0, 0) else (p + f + w, p, f, w).
Proof.
  intros H.
  assert (E1 := count_bracket_tags Pass ps H).
  assert (E2 := count_bracket_tags Fail ps H).
  assert (E3 := count_bracket_tags Warn ps H).
  assert (E4 := count_containers Pass ps H).
  assert (E5 := count_containers Fail ps H).
  assert (E6 := count_containers Warn ps H).
  repeat (split; [assumption|]).
  rewrite CountFacts.count_checks_eq.
  unfold pass_tags, fail_tags, warn_tags, pass_divs, fail_divs, warn_divs.
  cbn [bracket_tag container] in *.
  rewrite E1, E2, E3, E4, E5, E6. cbv zeta.
  destruct (Nat.eqb_spec
              (Nat.max (tags Pass ps) (divs Pass ps)
               + Nat.max (tags Fail ps) (divs Fail ps)
               + Nat.max (tags Warn ps) (divs Warn ps)) 0) as [E|E];
    [|reflexivity].
  replace (Nat.max (tags Fail ps) (divs Fail ps)) with 0 by lia.
  replace (Nat.max (tags Warn ps) (divs Warn ps)) with 0 by lia.
  reflexivity.
Qed.

Lemma counts_of_a_document_witness :
  count_checks
    (document [Div Fail; Words "> Port 23 is open "; Tag Fail;
               Words " Telnet. "; Tag Pass; Words " TLS 1.2 only"])
  = (2, 1, 1, 0).
Proof.
  exact (proj2 (proj2 (proj2 (proj2 (proj2 (proj2
           (counts_of_a_document
              [Div Fail; Words "> Port 23 is open "; Tag Fail;
               Words " Telnet. "; Tag Pass; Words " TLS 1.2 only"]
              eq_refl))))))).
Defined.

End Counting.

(* ===================================================================== *)
(** ** Findings against failed checks *)
(* ===================================================================== *)

Section Occurrences.

Import Text Shape TextFacts ScanFacts.

(** A pattern, taken without regard to case, whose first character
    occurs nowhere else in it: two occurrences cannot overlap. *)
Variable a : ascii.
Variable p : string.
Hypothesis a_fixed : lower a = a.
Hypothesis a_once : without a (lowercase p) = true.
Hypothesis a_needed : needs a (lit_i (String a p)).


Lemma pattern_productive : productive (lit_i (String a p)).
Proof. apply lit_i_productive. Qed.

Lemma lit_i_split q : forall s r,
  lit_i q s = Some r ->
  exists w, s = (w ++ r)%string /\ lowercase w = lowercase q.
Proof.
  induction q as [|b q IH]; intros s r E; cbn [lit_i] in E.
  - inversion E; subst. now exists EmptyString.
  - destruct s as [|c s]; [discriminate|].
    destruct (Ascii.eqb_spec (lower b) (lower c)) as [Hc|]; [|discriminate].
    destruct (IH _ _ E) as (w & -> & Hw). exists (String c w).
    cbn. now rewrite Hw, Hc.
Qed.

Lemma lit_i_append q : forall s r b,
  lit_i q s = Some r -> lit_i q (s ++ b) = Some (r ++ b)%string.
Proof.
  induction q as [|x q IH]; intros s r b E; cbn [lit_i] in *.
  - now inversion E.
  - destruct s as [|c s]; [discriminate|]. cbn [append].
    destruct (Ascii.eqb (lower x) (lower c)); [|discriminate]. now apply IH.
Qed.

Lemma without_lowercase : forall w,
  without a (lowercase w) = true -> without a w = true.
Proof.
  unfold without. induction w as [|x w IH]; [reflexivity|].
  cbn [lowercase all_chars]. intros H. apply andb_true_iff in H as [Hx Hw].
  rewrite (IH Hw), andb_true_r.
  destruct (Ascii.eqb_spec x a) as [->|]; [|reflexivity].
  rewrite a_fixed, Ascii.eqb_refl in Hx. discriminate.
Qed.

(** What a match consumes after its first character cannot begin
    another match. *)
Lemma matched_tail c z r :
  (lit_i (String a p)) (String c z) = Some r ->
  exists w, z = (w ++ r)%string /\ without a w = true.
Proof.
  intros E. apply lit_i_split in E as (w0 & E & Hw).
  destruct w0 as [|c0 w]; [discriminate|].
  cbn [append lowercase] in *. inversion E; subst. inversion Hw as [[Hc Hl]].
  exists w. split; [reflexivity|].
  apply without_lowercase. rewrite Hl. exact a_once.
Qed.

Lemma count_cons_ge c z : count (lit_i (String a p)) z <= count (lit_i (String a p)) (String c z).
Proof.
  destruct ((lit_i (String a p)) (String c z)) as [r|] eqn:E.
  - rewrite (Counting.count_hit (lit_i (String a p)) pattern_productive _ _ E).
    destruct (matched_tail c z r E) as (w & -> & Hw).
    rewrite (Counting.count_through a (lit_i (String a p)) pattern_productive a_needed w r Hw). lia.
  - rewrite (Counting.count_tail (lit_i (String a p)) pattern_productive _ _ E). lia.
Qed.

(** Text put in front never lowers the count. *)
Lemma count_suffix_ge x : forall y, count (lit_i (String a p)) y <= count (lit_i (String a p)) (x ++ y).
Proof.
  induction x as [|c x IH]; intros y; [cbn [append]; lia|].
  cbn [append]. etransitivity; [apply IH|apply count_cons_ge].
Qed.

(** The count of a text is at least the sum of the counts of two parts
    that make it up. *)
Lemma count_append_ge_bounded : forall n x y,
  String.length x <= n -> count (lit_i (String a p)) x + count (lit_i (String a p)) y <= count (lit_i (String a p)) (x ++ y).
Proof.
  induction n as [|n IH]; intros x y Hn.
  - destruct x; [|cbn in Hn; lia].
    rewrite (count_unfold (lit_i (String a p)) pattern_productive EmptyString),
      (find_empty (lit_i (String a p)) pattern_productive). cbn [append Nat.add]. lia.
  - destruct x as [|c x].
    + rewrite (count_unfold (lit_i (String a p)) pattern_productive EmptyString),
        (find_empty (lit_i (String a p)) pattern_productive). cbn [append Nat.add]. lia.
    + cbn [String.length] in Hn. destruct ((lit_i (String a p)) (String c x)) as [r|] eqn:E.
      * rewrite (Counting.count_hit (lit_i (String a p)) pattern_productive _ _ E).
        pose proof (lit_i_append _ _ _ y E) as E'.
        rewrite (Counting.count_hit (lit_i (String a p)) pattern_productive _ _ E').
        pose proof (pattern_productive _ _ E) as Hr. cbn [String.length] in Hr.
        specialize (IH r y). lia.
      * rewrite (Counting.count_tail (lit_i (String a p)) pattern_productive _ _ E).
        cbn [append].
        pose proof (count_cons_ge c (x ++ y)). specialize (IH x y). lia.
Qed.

Lemma count_append_ge x y : count (lit_i (String a p)) x + count (lit_i (String a p)) y <= count (lit_i (String a p)) (x ++ y).
Proof. now apply (count_append_ge_bounded (String.length x)). Qed.

(** A text that contains the pattern in its own spelling counts one at
    least. *)
Lemma lit_lit_i q : forall s r, lit q s = Some r -> lit_i q s = Some r.
Proof.
  induction q as [|b q IH]; intros s r E; cbn [lit lit_i] in *; [exact E|].
  destruct s as [|c s]; [discriminate|].
  destruct (Ascii.eqb_spec b c) as [->|]; [|discriminate].
  rewrite Ascii.eqb_refl. now apply IH.
Qed.

Lemma count_contains s :
  contains (String a p) s = true -> 1 <= count (lit_i (String a p)) s.
Proof.
  unfold contains.
  destruct (find (lit (String a p)) s) as [[pre rest]|] eqn:E; [|discriminate].
  intros _. apply find_lit_split in E. subst s.
  etransitivity; [|apply count_suffix_ge].
  rewrite (Counting.count_hit (lit_i (String a p)) pattern_productive _ rest); [lia|].
  apply lit_lit_i, lit_self.
Qed.

(** Matches of [A pattern B (.*?) R], and the count of the pattern. *)
Variable front back : string.
Variable R : matcher.
Hypothesis R_suffix : forall s r, R s = Some r -> exists x, s = (x ++ r)%string.


Lemma R_shrinking : shrinking R.
Proof.
  intros s r E. destruct (R_suffix s r E) as [x ->].
  rewrite length_append. lia.
Qed.

Lemma find_R_split : forall s body rest,
  find R s = Some (body, rest) -> exists x, s = (body ++ x ++ rest)%string.
Proof.
  induction s as [|c s IH]; intros body rest E; cbn [find] in E.
  - destruct (R EmptyString) eqn:Er; [|discriminate]. inversion E; subst.
    destruct (R_suffix _ _ Er) as [x Hx]. now exists x.
  - destruct (R (String c s)) eqn:Er.
    + inversion E; subst. destruct (R_suffix _ _ Er) as [x Hx]. now exists x.
    + destruct (find R s) as [[b r]|] eqn:Ef; [|discriminate].
      inversion E; subst. destruct (IH _ _ eq_refl) as [x ->].
      now exists x.
Qed.

Lemma opening_nonempty : exists c t, (front ++ String a p ++ back)%string = String c t.
Proof.
  destruct front; cbn; eauto.
Qed.

Lemma captured_le_count_bounded :
  forall n s, String.length s <= n ->
  List.length (findall (lit (front ++ String a p ++ back)%string) R s) <= count (lit_i (String a p)) s.
Proof.
  destruct opening_nonempty as (c0 & t0 & Ho).
  assert (HL : productive (lit (front ++ String a p ++ back)%string))
    by (rewrite Ho; apply lit_productive).
  induction n as [|n IH]; intros s Hn;
    rewrite (findall_unfold _ _ HL R_shrinking).
  - destruct s; [|cbn in Hn; lia]. rewrite (find_empty _ HL). cbn. lia.
  - destruct (find (lit (front ++ String a p ++ back)%string) s) as [[pre after]|] eqn:E; [|cbn; lia].
    destruct (find R after) as [[body rest]|] eqn:E'; [|cbn; lia].
    pose proof (find_rest_lt _ HL _ _ _ E) as H1.
    pose proof (find_rest_le _ R_shrinking _ _ _ E') as H2.
    apply find_lit_split in E. apply find_R_split in E' as [x E'].
    cbn [List.length]. specialize (IH rest ltac:(lia)).
    subst s after.
    rewrite !append_assoc.
    etransitivity; [|apply count_suffix_ge].
    etransitivity; [|apply count_suffix_ge].
    rewrite (Counting.count_hit (lit_i (String a p)) pattern_productive _ _
               (Counting.lit_i_self _ _)).
    apply le_n_S. etransitivity; [exact IH|].
    rewrite <- !append_assoc. apply count_suffix_ge.
Qed.

Lemma captured_le_count s :
  List.length (findall (lit (front ++ String a p ++ back)%string) R s) <= count (lit_i (String a p)) s.
Proof.
  apply (captured_le_count_bounded (String.length s)). lia.
Qed.

(** Matches of [mark (.*?) R] whose body contains the pattern. *)
Variable mark_head : ascii.
Variable mark_tail : string.

Lemma kept_le_count_bounded :
  forall n s, String.length s <= n ->
  List.length (filter (contains (String a p))
                      (findall (lit (String mark_head mark_tail)) R s))
  <= count (lit_i (String a p)) s.
Proof.
  pose proof (lit_productive mark_head mark_tail) as HL.
  induction n as [|n IH]; intros s Hn;
    rewrite (findall_unfold _ _ HL R_shrinking).
  - destruct s; [|cbn in Hn; lia]. rewrite (find_empty _ HL). cbn. lia.
  - destruct (find (lit (String mark_head mark_tail)) s)
      as [[pre after]|] eqn:E; [|cbn; lia].
    destruct (find R after) as [[body rest]|] eqn:E'; [|cbn; lia].
    pose proof (find_rest_lt _ HL _ _ _ E) as H1.
    pose proof (find_rest_le _ R_shrinking _ _ _ E') as H2.
    apply find_lit_split in E. apply find_R_split in E' as [x E'].
    specialize (IH rest ltac:(lia)). subst s after.
    assert (Hs : count (lit_i (String a p)) body + count (lit_i (String a p)) rest
                 <= count (lit_i (String a p)) (pre ++ String mark_head mark_tail
                             ++ body ++ x ++ rest)).
    { etransitivity; [|apply count_suffix_ge].
      etransitivity; [|apply count_suffix_ge].
      etransitivity; [|apply count_append_ge].
      pose proof (count_suffix_ge x rest). lia. }
    cbn [filter]. destruct (contains (String a p) body) eqn:Ec.
    + apply count_contains in Ec. cbn [List.length]. lia.
    + lia.
Qed.

Lemma kept_le_count s :
  List.length (filter (contains (String a p))
                      (findall (lit (String mark_head mark_tail)) R s))
  <= count (lit_i (String a p)) s.
Proof. apply (kept_le_count_bounded (String.length s)). lia. Qed.

End Occurrences.

Module FindingsBound.

Import Text Shape TextFacts ScanFacts SummaryReport.

Lemma lit_suffix q s r : lit q s = Some r -> exists x, s = (x ++ r)%string.
Proof. intros E. exists q. now apply lit_split. Qed.

Lemma div_close_twice_suffix s r :
  div_close_twice s = Some r -> exists x, s = (x ++ r)%string.
Proof.
  unfold div_close_twice.
  destruct (lit "</div>" s) as [t|] eqn:E; [|discriminate]. intros E'.
  apply lit_split in E, E'.
  exists ("</div>" ++ fst (span is_space t) ++ "</div>")%string.
  rewrite E. rewrite (Resolver.span_split is_space t) at 1. rewrite E'.
  now rewrite !append_assoc.
Qed.

(** Every marker-span match holds a bracketed fail marker of its own. *)
Lemma fail_matches_le_tags content :
  List.length (fail_matches content) <= fail_tags content.
Proof.
  unfold fail_matches, fail_tags.
  change red_fail_span
    with (("<span class=" ++ dq ++ "red" ++ dq ++ ">")
          ++ String "[" "FAIL]" ++ "</span>")%string.
  apply (captured_le_count "["%char "FAIL]" eq_refl eq_refl
           (Counting.tag_pattern_needs Fail)).
  intros s r. apply lit_suffix.
Qed.

(** Every failed-check container counted as a block opens with the
    class that the container strategy counts. *)
Lemma fail_blocks_le_divs content :
  List.length (Blocks.fail_blocks content) <= fail_divs content.
Proof.
  unfold Blocks.fail_blocks, fail_divs.
  change (Blocks.div_open "check-item fail")
    with (EmptyString
          ++ String "<" ("div class=" ++ dq ++ "check-item fail" ++ dq)
          ++ ">")%string.
  change (div_class "fail")
    with (String "<" ("div class=" ++ dq ++ "check-item fail" ++ dq))%string.
  apply (captured_le_count
           "<"%char ("div class=" ++ dq ++ "check-item fail" ++ dq)%string
           eq_refl eq_refl (Counting.div_pattern_needs Fail)).
  apply div_close_twice_suffix.
Qed.

Lemma fail_markers_le_tags content :
  List.length (Interactive.fail_markers content) <= fail_tags content.
Proof.
  unfold Interactive.fail_markers, Interactive.fail_indicators, fail_tags.
  change Blocks.red_span_open
    with (String "<" ("span class=" ++ dq ++ "red" ++ dq ++ ">"))%string.
  apply (kept_le_count "["%char "FAIL]" eq_refl eq_refl
           (Counting.tag_pattern_needs Fail)).
  intros s r. apply lit_suffix.
Qed.

Lemma failed_of_content content t p f w :
  count_checks content = (t, p, f, w) ->
  fail_tags content <= f /\ fail_divs content <= f.
Proof.
  rewrite CountFacts.count_checks_eq. cbv zeta.
  destruct (_ =? 0); intros H; inversion H; subst; lia.
Qed.

(** X11.  No generator lists more findings for a requirement than it
    counts failed checks: the findings of [generate_summary_report.py],
    the detailed findings of [generate_interactive_summary.py] and
    [create_card_based_report.py], and those of
    [card_report_with_clickable.py], for readable reports as well as for
    the record of the error handler. *)
Theorem findings_within_failed (file : result string) (n : string) :
  (let r := extract_requirement_data file n in
   List.length (findings r) <= failed r /\
   List.length (critical_findings r) <= failed r) /\
  (let r := Interactive.extract_requirement_data file n in
   List.length (Interactive.detailed_findings r) <= Interactive.failed r) /\
  match file with
  | Ok content =>
      List.length (Clickable.extract_detailed_findings content)
      <= Clickable.failed (LoopShapes.stats_of content)
  | Raise _ => True
  end.
Proof.
  destruct file as [content|e]; cbv zeta.
  - destruct (count_checks content) as [[[t p] f] w] eqn:E.
    destruct (failed_of_content _ _ _ _ _ E) as [Ht Hd].
    pose proof (fail_matches_le_tags content) as H1.
    pose proof (fail_blocks_le_divs content) as H2.
    pose proof (fail_markers_le_tags content) as H3.
    rewrite (RecordFacts.summary_record _ n _ _ _ _ E),
      (RecordFacts.interactive_record _ n _ _ _ _ E).
    cbv zeta.
    cbn [findings critical_findings failed Interactive.detailed_findings
         Interactive.failed].
    split; [|split].
    + rewrite length_map. split; [lia|].
      destruct (0 <? _); [|cbn; lia].
      rewrite length_firstn, length_map. lia.
    + unfold Interactive.extract_detailed_findings,
        Blocks.structured_findings, Interactive.marker_findings.
      destruct (map Blocks.block_finding (Blocks.fail_blocks content))
        as [|x l] eqn:Em.
      * rewrite length_map. lia.
      * rewrite <- Em, length_map. lia.
    + destruct (CountFacts.extract_stats_eq content) as (s & Es & Ec).
      unfold LoopShapes.stats_of. rewrite Es.
      rewrite CountFacts.count_checks_eq in E. cbv zeta in E, Ec.
      assert (Hf : Clickable.failed s = f).
      { destruct (_ =? 0) eqn:E0 in E; rewrite E0 in Ec;
          inversion E; inversion Ec; subst.
        - apply Nat.eqb_eq in E0. lia.
        - reflexivity. }
      rewrite Hf.
      unfold Clickable.extract_detailed_findings,
        Blocks.structured_findings, Clickable.marker_findings.
      destruct (map Blocks.block_finding (Blocks.fail_blocks content))
        as [|x l] eqn:Em.
      * rewrite length_map. lia.
      * rewrite <- Em, length_map. lia.
  - split; [cbn; lia|]. split; [cbn; lia|exact I].
Qed.

End FindingsBound.

(* ===================================================================== *)
(** ** Reading back what a report says *)
(* ===================================================================== *)

Module RoundTrips.

Import Text Shape TextFacts ScanFacts SummaryReport.

Lemma find_head (m : matcher) s r :
  m s = Some r -> find m s = Some (EmptyString, r).
Proof. intros E. destruct s; cbn [find]; now rewrite E. Qed.

(** [find] steps over a piece at whose start nothing matches and whose
    other characters cannot begin a match. *)
Lemma find_over c m (Hn : needs c m) x t rest :
  m (String x t ++ rest)%string = None -> without c t = true ->
  find m (String x t ++ rest)%string
  = match find m rest with
    | Some (b, r) => Some ((String x t ++ b)%string, r)
    | None => None
    end.
Proof.
  intros H Ht. cbn [append] in *. cbn [find]. rewrite H.
  rewrite (find_through c m Hn t rest Ht).
  destruct (find m rest) as [[b r]|]; reflexivity.
Qed.

Lemma without_parts c s w v :
  s = (w ++ v)%string -> without c s = true ->
  without c w = true /\ without c v = true.
Proof.
  intros -> H. rewrite without_append in H. now apply andb_true_iff in H.
Qed.

Lemma without_strip c s : without c s = true -> without c (strip s) = true.
Proof.
  intros H. unfold strip.
  destruct (Markup.lstrip_suffix s) as [w Hw].
  destruct (without_parts c _ _ _ Hw H) as [_ H1].
  destruct (Markup.rstrip_prefix (lstrip s)) as [v Hv].
  now destruct (without_parts c _ _ _ Hv H1) as [H2 _].
Qed.

Lemma heading_shape t rest :
  (Samples.marked_heading t ++ rest)%string
  = (String "<" "h3>" ++ red_fail_span ++ (" " ++ t) ++ "</h3>" ++ rest)%string.
Proof.
  unfold Samples.marked_heading. now rewrite !append_assoc.
Qed.

Lemma red_fail_span_shape :
  exists t, red_fail_span = String "<"%char t.
Proof. eexists. reflexivity. Qed.

Lemma fail_matches_headings t ts :
  without "<"%char t = true ->
  fail_matches (headings (t :: ts)) = (" " ++ t)%string :: fail_matches (headings ts).
Proof.
  intros Ht. unfold fail_matches.
  destruct red_fail_span_shape as [tail Es].
  assert (HL : productive (lit red_fail_span))
    by (rewrite Es; apply lit_productive).
  assert (Hn : needs "<"%char (lit red_fail_span))
    by (rewrite Es; apply lit_needs).
  rewrite (findall_unfold _ _ HL (lit_shrinking "</h3>")).
  cbn [headings]. rewrite heading_shape.
  rewrite (find_over "<" _ Hn); [|reflexivity|reflexivity].
  rewrite (find_head _ _ _ (lit_self red_fail_span _)).
  rewrite (find_lit_after "<" "/h3>" (" " ++ t) (headings ts)); [reflexivity|].
  cbn. exact Ht.
Qed.

Lemma strip_after_space t : strip (" " ++ t) = strip t.
Proof. reflexivity. Qed.

Lemma finding_of_heading t :
  without "<"%char t = true -> strip_tags (strip (" " ++ t)) = strip t.
Proof.
  intros H. rewrite strip_after_space.
  apply Markup.strip_tags_plain. now apply without_strip.
Qed.

Lemma findings_of_headings : forall ts,
  forallb plain ts = true ->
  map (fun m => strip_tags (strip m)) (fail_matches (headings ts))
  = map strip ts.
Proof.
  induction ts as [|t ts IH]; intros H; [reflexivity|].
  cbn [forallb] in H. apply andb_true_iff in H as [Ht H].
  apply Counting.plain_parts in Ht as [Ht _].
  rewrite (fail_matches_headings t ts Ht). cbn [map].
  now rewrite (finding_of_heading t Ht), (IH H).
Qed.

(** The markers of a page of headings. *)
Lemma tags_of_headings k : forall ts,
  forallb plain ts = true ->
  count (lit_i (bracket_tag k)) (headings ts)
  = if kind_eqb k Fail then List.length ts else 0.
Proof.
  pose proof (Counting.tag_pattern_productive k) as Hp.
  pose proof (Counting.tag_pattern_needs k) as Hn.
  induction ts as [|t ts IH]; intros H; [now destruct k|].
  cbn [forallb] in H. apply andb_true_iff in H as [Ht H].
  apply Counting.plain_parts in Ht as [_ Ht]. specialize (IH H).
  cbn [headings].
  replace (Samples.marked_heading t ++ headings ts)%string
    with (("<h3><span class=" ++ dq ++ "red" ++ dq ++ ">")
          ++ bracket_tag Fail
          ++ ("</span> " ++ t ++ "</h3>") ++ headings ts)%string
    by (unfold Samples.marked_heading, red_fail_span;
        now rewrite !append_assoc).
  rewrite (Counting.count_through "[" _ Hp Hn); [|reflexivity].
  assert (Hb : without "["%char ("</span> " ++ t ++ "</h3>") = true).
  { rewrite !without_append, Ht. reflexivity. }
  destruct (kind_eqb k Fail) eqn:Ek.
  - apply Counting.kind_eqb_eq in Ek. subst k.
    rewrite (Counting.count_hit _ Hp _ _ (Counting.lit_i_self _ _)).
    rewrite (Counting.count_through "[" _ Hp Hn _ _ Hb).
    cbn [List.length]. now f_equal.
  - pose proof (Counting.tag_mismatch k Fail
                  (("</span> " ++ t ++ "</h3>") ++ headings ts) Ek) as Hm.
    destruct (Counting.bracket_shape Fail) as (tl & Et & Htl & _).
    rewrite Et in *.
    rewrite (Counting.count_over "[" _ Hp Hn _ _ _ Hm Htl).
    now rewrite (Counting.count_through "[" _ Hp Hn _ _ Hb).
Qed.

Lemma divs_of_headings k : forall ts,
  forallb plain ts = true ->
  count (lit_i (container k)) (headings ts) = 0.
Proof.
  pose proof (Counting.div_pattern_productive k) as Hp.
  pose proof (Counting.div_pattern_needs k) as Hn.
  induction ts as [|t ts IH]; intros H; [now destruct k|].
  cbn [forallb] in H. apply andb_true_iff in H as [Ht H].
  apply Counting.plain_parts in Ht as [Ht _]. specialize (IH H).
  cbn [headings].
  replace (Samples.marked_heading t ++ headings ts)%string
    with (String "<" "h3>"
          ++ String "<" ("span class=" ++ dq ++ "red" ++ dq ++ ">[FAIL]")
          ++ String "<" ("/span> " ++ t)
          ++ String "<" "/h3>" ++ headings ts)%string
    by (unfold Samples.marked_heading, red_fail_span;
        rewrite !append_assoc; reflexivity).
  assert (Hs : without "<"%char ("/span> " ++ t) = true).
  { rewrite without_append, Ht. reflexivity. }
  rewrite (Counting.count_over "<" _ Hp Hn);
    [|now destruct k|reflexivity].
  rewrite (Counting.count_over "<" _ Hp Hn);
    [|now destruct k|reflexivity].
  rewrite (Counting.count_over "<" _ Hp Hn);
    [|now destruct k|exact Hs].
  rewrite (Counting.count_over "<" _ Hp Hn);
    [exact IH|now destruct k|reflexivity].
Qed.

(** X12.  A report that consists of marked headings is read back in
    full: the findings are the heading texts, trimmed, in order; the
    critical findings are the first three of them; there are as many
    failed checks as headings and no warning; and the passed count is 0,
    or the floor of 1 when there is no heading.  [fix_card_report.py]
    gives the same titles. *)
Theorem headings_read_back (texts : list string) (n : string) :
  forallb plain texts = true ->
  let r := extract_requirement_data (Ok (headings texts)) n in
  findings r = map strip texts /\
  critical_findings r = firstn 3 (map strip texts) /\
  failed r = List.length texts /\
  warnings r = 0 /\
  passed r = (if List.length texts =? 0 then 1 else 0) /\
  total_checks r = Nat.max 1 (List.length texts) /\
  FixCard.extract_findings (headings texts)
  = map (fun t => {| FixCard.f_title := strip t;
                     FixCard.f_details := "Click to see details in full report" |})
        texts.
Proof.
  intros H. cbv zeta.
  pose proof (findings_of_headings texts H) as Hf.
  assert (Hc : count_checks (headings texts)
               = (Nat.max 1 (List.length texts),
                  if List.length texts =? 0 then 1 else 0,
                  List.length texts, 0)).
  { rewrite CountFacts.count_checks_eq.
    unfold pass_tags, fail_tags, warn_tags, pass_divs, fail_divs, warn_divs.
    pose proof (tags_of_headings Pass texts H) as T1.
    pose proof (tags_of_headings Fail texts H) as T2.
    pose proof (tags_of_headings Warn texts H) as T3.
    pose proof (divs_of_headings Pass texts H) as D1.
    pose proof (divs_of_headings Fail texts H) as D2.
    pose proof (divs_of_headings Warn texts H) as D3.
    cbn [bracket_tag container kind_eqb] in *.
    rewrite T1, T2, T3, D1, D2, D3.
    cbn [Nat.max Nat.add]. rewrite Nat.max_0_r, Nat.add_0_r.
    destruct (List.length texts); reflexivity. }
  rewrite (RecordFacts.summary_record _ n _ _ _ _ Hc). cbv zeta.
  cbn [findings critical_findings failed warnings passed total_checks].
  rewrite Hf.
  split; [reflexivity|]. split; [now destruct (map strip texts)|].
  repeat (split; [reflexivity|]).
  unfold FixCard.extract_findings, FixCard.marker_findings.
  rewrite <- (map_map (fun m => strip_tags (strip m))
                      (fun x => {| FixCard.f_title := x;
                                   FixCard.f_details := FixCard.placeholder |})).
  rewrite Hf, map_map. destruct texts; reflexivity.
Qed.

Lemma headings_read_back_witness :
  findings (extract_requirement_data
              (Ok (headings ["Default password "; "Open port 23"])) "2")
  = ["Default password"; "Open port 23"].
Proof.
  exact (proj1 (headings_read_back
                  ["Default password "; "Open port 23"] "2" eq_refl)).
Defined.

(** X13.  A level-one heading is read back as the title: when the text
    before it opens no tag, its attributes hold no closing bracket and its
    own text opens no tag, the title is that text, trimmed.  A document
    that opens no tag at all gets the default title. *)
Theorem title_read_back (pre attrs t rest n : string) :
  (without "<"%char pre = true -> without ">"%char attrs = true ->
   without "<"%char t = true ->
   let content := (pre ++ "<h1" ++ attrs ++ ">" ++ t ++ "</h1>" ++ rest)%string in
   extract_title content n = strip t /\
   ClickableReport.extract_title content n = strip t) /\
  (without "<"%char pre = true ->
   ClickableReport.extract_title pre n = ("Requirement " ++ n)%string).
Proof.
  assert (Hn : needs "<"%char (open_tag "<h1")).
  { intros x s Hx. unfold open_tag. cbn [lit].
    destruct (Ascii.eqb_spec "<"%char x); [congruence|reflexivity]. }
  split.
  - intros Hpre Hattrs Ht. cbv zeta.
    assert (E : search (open_tag "<h1") (lit "</h1>")
                       (pre ++ "<h1" ++ attrs ++ ">" ++ t ++ "</h1>" ++ rest)
                = Some t).
    { unfold search. rewrite (find_through "<" _ Hn pre _ Hpre).
      assert (Eo : open_tag "<h1"
                     ("<h1" ++ attrs ++ ">" ++ t ++ "</h1>" ++ rest)%string
                   = Some (t ++ "</h1>" ++ rest)%string).
      { unfold open_tag. rewrite lit_self.
        now rewrite (find_lit_after ">" EmptyString attrs _ Hattrs). }
      rewrite (find_head _ _ _ Eo).
      now rewrite (find_lit_after "<" "/h1>" t rest Ht). }
    unfold extract_title, ClickableReport.extract_title. rewrite E.
    rewrite (Markup.strip_tags_plain (strip t)); [now split|].
    now apply without_strip.
  - intros Hpre. unfold ClickableReport.extract_title, search.
    pose proof (find_through "<" _ Hn pre EmptyString Hpre) as E.
    rewrite append_empty in E. rewrite E. reflexivity.
Qed.

Lemma title_read_back_witness :
  extract_title
    ("Report " ++ "<h1" ++ " class='t'" ++ ">" ++ " Requirement 3: Stored data "
     ++ "</h1>" ++ "<p>...</p>") "3"
  = "Requirement 3: Stored data".
Proof.
  exact (proj1 (proj1 (title_read_back
                         "Report " " class='t'" " Requirement 3: Stored data "
                         "<p>...</p>" "3")
                      eq_refl eq_refl eq_refl)).
Defined.

End RoundTrips.

(* ===================================================================== *)
(** ** Where the captured texts come from *)
(* ===================================================================== *)

Section Captured.

Import Text Shape TextFacts ScanFacts.

Variable open_head close_head : ascii.
Variable open_tail close_tail : string.


Lemma captured_origin_bounded : forall n s body,
  String.length s <= n ->
  In body (findall (lit (String open_head open_tail)) (lit (String close_head close_tail)) s) ->
  find (lit (String close_head close_tail)) body = None /\
  exists before after, s = (before ++ (String open_head open_tail) ++ body ++ (String close_head close_tail) ++ after)%string.
Proof.
  assert (HL : productive (lit (String open_head open_tail))) by apply lit_productive.
  pose proof (lit_shrinking (String close_head close_tail)) as HR.
  induction n as [|n IH]; intros s body Hn;
    rewrite (findall_unfold _ _ HL HR).
  - destruct s; [|cbn in Hn; lia]. rewrite (find_empty _ HL).
    intros Hin. simpl in Hin. destruct Hin.
  - destruct (find (lit (String open_head open_tail)) s) as [[pre after]|] eqn:E;
      [|intros Hin; simpl in Hin; destruct Hin].
    destruct (find (lit (String close_head close_tail)) after) as [[b rest]|] eqn:E';
      [|intros Hin; simpl in Hin; destruct Hin].
    pose proof (find_rest_lt _ HL _ _ _ E) as H1.
    pose proof (find_rest_le _ HR _ _ _ E') as H2.
    pose proof (find_lit_leftmost _ _ _ _ _ E') as Hb.
    apply find_lit_split in E. apply find_lit_split in E'. subst s after.
    intros [<-|Hin].
    + split; [exact Hb|]. now exists pre, rest.
    + destruct (IH rest body ltac:(lia) Hin) as (Hnone & x & y & ->).
      split; [exact Hnone|].
      exists (pre ++ (String open_head open_tail) ++ b ++ (String close_head close_tail) ++ x)%string, y.
      now rewrite !append_assoc.
Qed.

Lemma captured_origin s body :
  In body (findall (lit (String open_head open_tail)) (lit (String close_head close_tail)) s) ->
  find (lit (String close_head close_tail)) body = None /\
  exists before after, s = (before ++ (String open_head open_tail) ++ body ++ (String close_head close_tail) ++ after)%string.
Proof. now apply (captured_origin_bounded (String.length s)). Qed.

End Captured.

Module Origins.

Import Text Shape SummaryReport.

(** X14.  No finding is made up: every text captured by the marker-span
    pattern stands in the document between a red fail marker and a
    heading close and contains no heading close itself, and every red
    indicator found by the fallback of [generate_interactive_summary.py]
    stands between the opening and the closing of a red span. *)
Theorem captured_texts_are_in_the_document (content body : string) :
  (In body (fail_matches content) ->
   contains "</h3>" body = false /\
   exists before after,
     content = (before ++ red_fail_span ++ body ++ "</h3>" ++ after)%string) /\
  (In body (Interactive.fail_indicators content) ->
   contains "</span>" body = false /\
   exists before after,
     content
     = (before ++ Blocks.red_span_open ++ body ++ "</span>" ++ after)%string).
Proof.
  split; intros H.
  - destruct (captured_origin
                "<"%char "<"%char
                ("span class=" ++ dq ++ "red" ++ dq ++ ">[FAIL]</span>")%string
                "/h3>" content body H) as [Hn Hs].
    split; [|exact Hs]. unfold contains.
    change (lit "</h3>") with (lit (String "<" "/h3>")). now rewrite Hn.
  - destruct (captured_origin
                "<"%char "<"%char
                ("span class=" ++ dq ++ "red" ++ dq ++ ">")%string
                "/span>" content body H) as [Hn Hs].
    split; [|exact Hs]. unfold contains.
    change (lit "</span>") with (lit (String "<" "/span>")). now rewrite Hn.
Qed.

Lemma captured_texts_are_in_the_document_witness :
  contains "</h3>" " 1.2 <i>Bad</i> rule" = false /\
  exists before after,
    Samples.one_marker
    = (before ++ red_fail_span ++ " 1.2 <i>Bad</i> rule" ++ "</h3>" ++ after)%string.
Proof.
  exact (proj1 (captured_texts_are_in_the_document
                  Samples.one_marker " 1.2 <i>Bad</i> rule")
               (or_introl eq_refl)).
Defined.

(** X15.  [main] of [generate_summary_report.py] stops with exit status 1
    on an empty list of reports and on nothing else: for any other list
    it returns a page, with one row per numbered report whether that
    report could be read or not, in ascending order of the number. *)
Theorem guarded_main_outcome (files : list report_file) :
  (files = [] -> main files = Raise "1") /\
  (files <> [] ->
   exists s,
     main files = Ok s /\
     req_rows s = sorted_by requirement_key (flat_map records_of files) /\
     List.length (req_rows s)
     = List.length
         (filter (fun f => match extract_requirement_number (fst f) with
                           | Some _ => true
                           | None => false
                           end) files)).
Proof.
  split; [intros ->; reflexivity|].
  intros Hne. unfold main. destruct files as [|f files]; [congruence|].
  rewrite LoopFacts.process_files_eq. unfold generate_summary_html.
  match goal with
  | |- context [percentage ?a ?b] =>
      destruct (CountFacts.percentage_ok a b) as [q ->]
  end.
  cbn [bind]. eexists. split; [reflexivity|]. cbn [req_rows].
  split; [reflexivity|].
  rewrite <- (Permutation_length (sorted_by_perm requirement_key _)).
  generalize (f :: files). intros l.
  induction l as [|x l IH]; [reflexivity|].
  cbn [flat_map filter]. rewrite length_app, IH. unfold records_of at 1.
  destruct (extract_requirement_number (fst x)); reflexivity.
Qed.

Lemma guarded_main_outcome_witness :
  exists s,
    main MoreSamples.broken_folder = Ok s /\
    List.length (req_rows s) = 3.
Proof.
  destruct (proj2 (guarded_main_outcome MoreSamples.broken_folder)
                  ltac:(discriminate)) as (s & Es & _ & El).
  exists s. split; [exact Es|]. rewrite El. reflexivity.
Defined.

End Origins.

(* ===================================================================== *)
(** ** A marker inside the spans that enclose it *)
(* ===================================================================== *)

Section Enclosed.

Import Text TextFacts ScanFacts Shape.

(** An opening [c ot] and a closing [c ct] that begin with the same
    character, which occurs nowhere else in them nor in the text [K];
    the closing is no prefix of the opening.  The marker is the opening,
    [K] and the closing in a row. *)
Variables (c : ascii) (ot K ct : string).
Hypothesis ot_plain : without c ot = true.
Hypothesis K_plain : without c K = true.
Hypothesis ct_plain : without c ct = true.
Hypothesis close_not_open :
  forall x, lit (String c ot) (String c ct ++ x) = None.

Lemma lit_app p q : forall s,
  lit (p ++ q) s
  = match lit p s with
    | Some r => lit q r
    | None => None
    end.
Proof.
  induction p as [|a p IH]; intros s; cbn [lit append]; [reflexivity|].
  destruct s as [|b s]; [reflexivity|].
  destruct (Ascii.eqb a b); [apply IH|reflexivity].
Qed.

Lemma contains_cons p x s :
  contains p s = true -> contains p (String x s) = true.
Proof.
  unfold contains. cbn [find].
  destruct (lit p (String x s)); [reflexivity|].
  destruct (find (lit p) s) as [[a r]|]; [reflexivity|discriminate].
Qed.

Lemma contains_tail p x s :
  lit p (String x s) = None ->
  contains p (String x s) = true -> contains p s = true.
Proof.
  unfold contains. cbn [find]. intros ->.
  destruct (find (lit p) s) as [[a r]|]; [reflexivity|discriminate].
Qed.

Lemma contains_after p pre s :
  without c pre = true ->
  contains (String c p) (pre ++ s) = true -> contains (String c p) s = true.
Proof.
  intros Hp. unfold contains.
  rewrite (find_through c _ (lit_needs c p) pre s Hp).
  destruct (find (lit (String c p)) s) as [[a r]|]; [reflexivity|discriminate].
Qed.

(** The scan for the opening stops at the marker or before it. *)
Lemma opening_found : forall s,
  contains (String c ot ++ K ++ String c ct) s = true ->
  exists a after,
    find (lit (String c ot)) s = Some (a, after) /\
    ((exists r, lit (K ++ String c ct) after = Some r) \/
     contains (String c ot ++ K ++ String c ct) after = true).
Proof.
  induction s as [|x s IH]; intros H; [discriminate H|].
  cbn [find].
  destruct (lit (String c ot) (String x s)) as [after|] eqn:EO.
  - exists EmptyString, after. split; [reflexivity|].
    destruct (lit (String c ot ++ K ++ String c ct) (String x s))
      as [r|] eqn:EM.
    + left. exists r. rewrite lit_app, EO in EM. exact EM.
    + right. apply contains_tail in H; [|exact EM].
      apply lit_split in EO. cbn [append] in EO.
      injection EO as _ ->.
      exact (contains_after _ ot after ot_plain H).
  - assert (EM : lit (String c ot ++ K ++ String c ct) (String x s) = None)
      by now rewrite lit_app, EO.
    apply contains_tail in H; [|exact EM].
    destruct (IH H) as (a & after & -> & Hc).
    exists (String x a), after. split; [reflexivity|exact Hc].
Qed.

(** The scan for the closing ends in the marker or before it. *)
Lemma closing_found : forall s,
  contains (String c ot ++ K ++ String c ct) s = true ->
  exists body rest,
    find (lit (String c ct)) s = Some (body, rest) /\
    (contains K body = true \/
     contains (String c ot ++ K ++ String c ct) rest = true).
Proof.
  induction s as [|x s IH]; intros H; [discriminate H|].
  cbn [find].
  destruct (lit (String c ct) (String x s)) as [rest|] eqn:EC.
  - exists EmptyString, rest. split; [reflexivity|]. right.
    pose proof (lit_split _ _ _ EC) as Es.
    assert (EM : lit (String c ot ++ K ++ String c ct) (String x s) = None).
    { rewrite lit_app, Es. now rewrite close_not_open. }
    apply contains_tail in H; [|exact EM].
    cbn [append] in Es. injection Es as _ ->.
    exact (contains_after _ ct rest ct_plain H).
  - destruct (lit (String c ot ++ K ++ String c ct) (String x s))
      as [r|] eqn:EM.
    + apply lit_split in EM. cbn [append] in EM. injection EM as _ Es.
      assert (Es' : s = ((ot ++ K) ++ String c ct ++ r)%string)
        by (rewrite Es; now rewrite !append_assoc).
      rewrite Es', (find_lit_after c ct (ot ++ K) r);
        [|now rewrite without_append, ot_plain, K_plain].
      exists (String x (ot ++ K)), r. split; [reflexivity|]. left.
      apply contains_cons, contains_suffix.
    + apply contains_tail in H; [|exact EM].
      destruct (IH H) as (body & rest & -> & Hc).
      exists (String x body), rest. split; [reflexivity|].
      destruct Hc as [Hc|Hc]; [left; now apply contains_cons|now right].
Qed.

(** Some captured body holds the text of the marker. *)
Lemma marker_is_captured : forall n s,
  String.length s <= n ->
  contains (String c ot ++ K ++ String c ct) s = true ->
  exists x,
    In x (findall (lit (String c ot)) (lit (String c ct)) s) /\
    contains K x = true.
Proof.
  induction n as [|n IH]; intros s Hn H.
  - destruct s; [discriminate H|cbn in Hn; lia].
  - rewrite (findall_unfold _ _ (lit_productive c ot)
                            (lit_shrinking (String c ct))).
    destruct (opening_found s H) as (a & after & Ea & Hc). rewrite Ea.
    pose proof (find_rest_lt _ (lit_productive c ot) _ _ _ Ea) as La.
    destruct Hc as [[r Er]|Hc].
    + apply lit_split in Er. rewrite Er, append_assoc.
      rewrite (find_lit_after c ct K r K_plain).
      exists K. split; [now left|].
      pose proof (contains_suffix K EmptyString) as Hk. exact Hk.
    + destruct (closing_found after Hc) as (body & rest & Eb & Hb).
      rewrite Eb.
      pose proof (find_rest_le _ (lit_shrinking (String c ct)) _ _ _ Eb) as Lb.
      destruct Hb as [Hb|Hb].
      * exists body. split; [now left|exact Hb].
      * destruct (IH rest ltac:(lia) Hb) as (x & Hx & Hk).
        exists x. split; [now right|exact Hk].
Qed.

End Enclosed.

(* ===================================================================== *)
(** ** Finding Extractor: the claim *)
(* ===================================================================== *)

Module Extractor.

Import Text.

(** A document with a marker-span match has a red span that holds the
    failure marker: the fallback of [create_card_based_report.py] finds
    something wherever the marker-span strategy does. *)
Lemma marker_span_has_indicator content :
  SummaryReport.fail_matches content <> [] ->
  Interactive.fail_markers content <> [].
Proof.
  intros H.
  assert (Hc : contains SummaryReport.red_fail_span content = true).
  { unfold contains.
    destruct (find (lit SummaryReport.red_fail_span) content)
      as [[a r]|] eqn:E; [reflexivity|].
    exfalso. apply H. unfold SummaryReport.fail_matches.
    assert (HL : TextFacts.productive (lit SummaryReport.red_fail_span))
      by apply TextFacts.lit_productive.
    rewrite (ScanFacts.findall_unfold _ _ HL (TextFacts.lit_shrinking "</h3>")).
    now rewrite E. }
  destruct (marker_is_captured
              "<" ("span class=" ++ dq ++ "red" ++ dq ++ ">") "[FAIL]" "/span>"
              eq_refl eq_refl eq_refl (fun x => eq_refl)
              (String.length content) content (le_n _) Hc)
    as (x & Hx & Hk).
  intros E.
  assert (Hin : In x (Interactive.fail_markers content))
    by (apply filter_In; split; assumption).
  rewrite E in Hin. destruct Hin.
Qed.

(** C5, as stated, fails in both functions that it cites.
    [extract_findings] of [fix_card_report.py] tries the strategies in
    the opposite order: on a document with a failed-check container and
    a marked heading the structured-block strategy yields a finding, and
    the function returns the finding of the marker-span strategy all the
    same.  The fallback of [create_card_based_report.py] is not the
    marker-span strategy: on a document with no failed-check container
    and exactly one marker-span match it returns two findings, one for
    each red span that holds the failure marker. *)
Lemma fallback_not_as_claimed :
  (FixCard.block_findings Samples.block_then_marker
   = [ {| FixCard.f_title := "Open port";
          FixCard.f_details := "Click to see details in full report" |} ] /\
   FixCard.extract_findings Samples.block_then_marker
   = [ {| FixCard.f_title := "Weak key";
          FixCard.f_details := "Click to see details in full report" |} ] /\
   FixCard.extract_findings Samples.block_then_marker
   <> FixCard.block_findings Samples.block_then_marker) /\
  (Blocks.fail_blocks Samples.marker_and_red_span = [] /\
   SummaryReport.fail_matches Samples.marker_and_red_span = [" a"] /\
   Interactive.extract_detailed_findings Samples.marker_and_red_span
   = [ {| Blocks.f_title := "Failed: a";
          Blocks.f_details := "Specific details not available";
          Blocks.f_recommendation :=
            "Review the full requirement report for more information." |};
       {| Blocks.f_title := "Failed: Failed check";
          Blocks.f_details := "Specific details not available";
          Blocks.f_recommendation :=
            "Review the full requirement report for more information." |} ]).
Proof.
  split.
  - split; [reflexivity|]. split; [reflexivity|].
    vm_compute. discriminate.
  - split; [reflexivity|]. split; reflexivity.
Qed.

(** C5 (amended).  The generators whose findings carry details
    ([create_card_based_report.py], [generate_interactive_summary.py],
    [card_report_with_clickable.py]) return the findings of the
    structured-block strategy when there are any, and those of their
    fallback otherwise; [fix_card_report.py] tries marker spans first and
    failed-check containers only when no marker span gave a finding.
    For [card_report_with_clickable.py] and [fix_card_report.py] a
    document with no failed-check container and exactly one marker-span
    match yields exactly one finding, that of the marker-span strategy,
    with fixed placeholder texts.  The fallback of
    [create_card_based_report.py] and [generate_interactive_summary.py]
    makes one finding for each red span that holds the failure marker,
    with fixed placeholder details and recommendation: on such a
    document at least one, and exactly one when exactly one red span
    holds the marker. *)
Theorem extraction_fallback (content : string) :
  (Blocks.structured_findings content <> [] ->
   Interactive.extract_detailed_findings content
   = Blocks.structured_findings content /\
   Clickable.extract_detailed_findings content
   = Blocks.structured_findings content) /\
  (Blocks.structured_findings content = [] ->
   Interactive.extract_detailed_findings content
   = Interactive.marker_findings content /\
   Clickable.extract_detailed_findings content
   = Clickable.marker_findings content) /\
  (forall m,
      Blocks.fail_blocks content = [] ->
      SummaryReport.fail_matches content = [m] ->
      Clickable.extract_detailed_findings content
      = [ {| Blocks.f_title := strip_tags (strip m);
             Blocks.f_details :=
               "Specific details not available in the report.";
             Blocks.f_recommendation :=
               "Review the full requirement report for detailed recommendations."
          |} ]) /\
  (forall m,
      Blocks.fail_blocks content = [] ->
      SummaryReport.fail_matches content = [m] ->
      Interactive.extract_detailed_findings content
      = map (Interactive.indicator_finding content)
            (Interactive.fail_markers content) /\
      1 <= List.length (Interactive.extract_detailed_findings content) /\
      Forall (fun f =>
                Blocks.f_details f = "Specific details not available" /\
                Blocks.f_recommendation f
                = "Review the full requirement report for more information." /\
                exists indicator,
                  In indicator (Interactive.fail_indicators content) /\
                  contains "[FAIL]" indicator = true /\
                  Blocks.f_title f
                  = ("Failed: "
                     ++ Interactive.indicator_context content indicator)%string)
             (Interactive.extract_detailed_findings content)) /\
  (forall indicator,
      Blocks.fail_blocks content = [] ->
      Interactive.fail_markers content = [indicator] ->
      Interactive.extract_detailed_findings content
      = [ {| Blocks.f_title :=
               ("Failed: " ++ Interactive.indicator_context content indicator)%string;
             Blocks.f_details := "Specific details not available";
             Blocks.f_recommendation :=
               "Review the full requirement report for more information."
          |} ]) /\
  (FixCard.marker_findings content <> [] ->
   FixCard.extract_findings content = FixCard.marker_findings content) /\
  (FixCard.marker_findings content = [] ->
   FixCard.extract_findings content = FixCard.block_findings content) /\
  (forall m,
      Blocks.fail_blocks content = [] ->
      SummaryReport.fail_matches content = [m] ->
      FixCard.extract_findings content
      = [ {| FixCard.f_title := strip_tags (strip m);
             FixCard.f_details := "Click to see details in full report" |} ]).
Proof.
  unfold Interactive.extract_detailed_findings,
    Clickable.extract_detailed_findings, FixCard.extract_findings.
  split; [|split; [|split; [|split; [|split; [|split; [|split]]]]]].
  - intros H. split; destruct (Blocks.structured_findings content); congruence.
  - intros H. now rewrite H.
  - intros m Hb Hm. unfold Blocks.structured_findings. rewrite Hb.
    cbn [map]. unfold Clickable.marker_findings. rewrite Hm. reflexivity.
  - intros m Hb Hm. unfold Blocks.structured_findings. rewrite Hb.
    cbn [map]. unfold Interactive.marker_findings.
    split; [reflexivity|]. split.
    + rewrite length_map.
      assert (Hne : Interactive.fail_markers content <> [])
        by (apply marker_span_has_indicator; rewrite Hm; discriminate).
      destruct (Interactive.fail_markers content); [congruence|cbn; lia].
    + apply Forall_forall. intros f Hf.
      apply in_map_iff in Hf as (indicator & <- & Hi).
      apply filter_In in Hi as [Hi Hk].
      split; [reflexivity|]. split; [reflexivity|].
      exists indicator. now repeat split.
  - intros indicator Hb Hm. unfold Blocks.structured_findings. rewrite Hb.
    cbn [map]. unfold Interactive.marker_findings. rewrite Hm. reflexivity.
  - destruct (FixCard.marker_findings content); congruence.
  - intros H. now rewrite H.
  - intros m Hb Hm. unfold FixCard.marker_findings. rewrite Hm. reflexivity.
Qed.

Lemma extraction_fallback_witness :
  Clickable.extract_detailed_findings Samples.one_marker
  = [ {| Blocks.f_title := "1.2 Bad rule";
         Blocks.f_details := "Specific details not available in the report.";
         Blocks.f_recommendation :=
           "Review the full requirement report for detailed recommendations."
      |} ] /\
  Interactive.extract_detailed_findings Samples.one_marker
  = [ {| Blocks.f_title := "Failed: 1.2 <i>Bad</i> rule";
         Blocks.f_details := "Specific details not available";
         Blocks.f_recommendation :=
           "Review the full requirement report for more information."
      |} ] /\
  Interactive.extract_detailed_findings Samples.block_then_marker
  = Blocks.structured_findings Samples.block_then_marker /\
  1 <= List.length
         (Interactive.extract_detailed_findings Samples.marker_and_red_span).
Proof.
  destruct (extraction_fallback Samples.one_marker)
    as (_ & _ & Hc & _ & Hi & _).
  destruct (extraction_fallback Samples.block_then_marker) as (Hs & _).
  destruct (extraction_fallback Samples.marker_and_red_span)
    as (_ & _ & _ & Hr & _).
  split; [|split; [|split]].
  - rewrite (Hc " 1.2 <i>Bad</i> rule" eq_refl eq_refl). reflexivity.
  - rewrite (Hi "[FAIL]" eq_refl eq_refl). reflexivity.
  - apply Hs. vm_compute. discriminate.
  - exact (proj1 (proj2 (Hr " a" eq_refl eq_refl))).
Defined.

End Extractor.
